(** * Retina CNN: class registry, network shapes, checkpoint loading,
      inference decision policy and training script

    A shallow embedding of the three Python programs of the repository:

    - [retina_cnn-main/backend/main.py]  (module [Main]): FastAPI service
      with the confidence gate and the top-3 list;
    - [retina_cnn-main/backend/app.py]   (module [App]): the plain service;
    - [backend/train_cnn.py]             (module [TrainCnn]): training script.

    The class [RetinaCNN] is textually the same in the three files and is
    embedded once (module [Net]).

    Numbers.  Tensor sizes are Python/torch integers: [Z].  The network
    arithmetic is kept abstract (a scalar type with its operations), so the
    statements about [forward] hold whatever the floating-point unit
    computes.  A probability read back by [float(...)] is a finite binary
    float, that is a dyadic rational: it is embedded as the rational number
    it denotes ([Q]), on which [<] and [argmax] are the comparisons the
    program performs; where Python rounds ([*] on floats, [round]) the
    rounding is written out.

    Libraries.  What torch, torchvision and PIL do is taken from their
    documentation: [ImageFolder] and [load_state_dict] with the errors they
    raise, [CrossEntropyLoss] with its check of the labels, [argmax] (first
    maximal position), and, where the documentation
    fixes a contract but not a result ([topk], [softmax], the random
    generator, the optimiser), an operation of the run time ([Torch],
    [Vision], [Optim]) with that contract stated where it is used. *)

From Stdlib Require Import String Ascii List Bool ZArith QArith Lia.
From Stdlib Require Import Sorting.Sorted Sorting.Permutation Sorting.Mergesort.
From Stdlib Require Import Orders DecimalString DecimalPos DecimalN.
From Stdlib Require Import Qround Qpower Lqa.
Import ListNotations.

Local Open Scope string_scope.
Local Open Scope Z_scope.

(** ** Python exceptions and fallible computations *)

Inductive PyExc : Type :=
| FileNotFoundError
| NotADirectoryError
| RuntimeError
| IndexError
| ValueError
| ZeroDivisionError
| UnidentifiedImageError.

(** [type(e).__name__] *)
Definition class_name (e : PyExc) : string :=
  match e with
  | FileNotFoundError => "FileNotFoundError"
  | NotADirectoryError => "NotADirectoryError"
  | RuntimeError => "RuntimeError"
  | IndexError => "IndexError"
  | ValueError => "ValueError"
  | ZeroDivisionError => "ZeroDivisionError"
  | UnidentifiedImageError => "UnidentifiedImageError"
  end.

Inductive result (A : Type) : Type :=
| Ok (a : A)
| Raise (e : PyExc).

Arguments Ok {A} a.
Arguments Raise {A} e.

Definition bind {A B : Type} (r : result A) (k : A -> result B) : result B :=
  match r with
  | Ok a => k a
  | Raise e => Raise e
  end.

Notation "x <- r ;; k" := (bind r (fun x => k))
  (at level 61, r at next level, right associativity).

Definition is_ok {A : Type} (r : result A) : bool :=
  match r with Ok _ => true | Raise _ => false end.

(** ** The class registry ([CLASS_NAMES], main.py 69-72 and app.py 59-62) *)

Module StringOrder <: TotalLeBool.
Definition t := string.
Definition leb := String.leb.
Definition leb_total :
  forall s1 s2, leb s1 s2 = true \/ leb s2 s1 = true := String.leb_total.
End StringOrder.

Module StringSort := Sort StringOrder.

Module Registry.

(** What [pathlib] sees at [DATASET_DIR]: nothing, something that is not
    a directory, or a directory with its entries in file-system order. *)
Record DirEntry : Type := { name : string; is_dir : bool }.

Inductive PathState : Type :=
| Missing
| NotDir
| Directory (entries : list DirEntry).

Definition exists_ (p : PathState) : bool :=
  match p with Missing => false | _ => true end.

Definition iterdir (p : PathState) : result (list DirEntry) :=
  match p with
  | Directory es => Ok es
  | NotDir => Raise NotADirectoryError
  | Missing => Raise FileNotFoundError
  end.

(** Python's [sorted] on [str]: a stable sort by code point, which on
    UTF-8 encoded names is the bytewise lexicographic order. *)
Definition sorted (l : list string) : list string := StringSort.sort l.

Definition DEFAULT_CLASS_NAMES : list string :=
  ["cataract"; "diabetic-retinopathy"; "glaucoma"; "normal"].

(** [[p.name for p in DATASET_DIR.iterdir() if p.is_dir()]] *)
Definition subdir_names (es : list DirEntry) : list string :=
  map name (filter is_dir es).

Definition CLASS_NAMES (p : PathState) : result (list string) :=
  if exists_ p
  then es <- iterdir p ;; Ok (sorted (subdir_names es))
  else Ok DEFAULT_CLASS_NAMES.

Definition lex_le (s1 s2 : string) : Prop := String.leb s1 s2 = true.

End Registry.

(** ** Tensors and the layers used by [RetinaCNN]

    A tensor is its size and its contiguous row-major storage.  The scalar
    type stands for float32; nothing is assumed of its operations. *)

Class Scalar (F : Type) : Type := {
  fzero : F;
  fone : F;
  fadd : F -> F -> F;
  fmul : F -> F -> F;
  fmax : F -> F -> F
}.

(** What the program takes from the torch run time without fixing it:
    the state of the default random generator, the random initial value of
    a parameter, the Bernoulli draw of [Dropout], [F.softmax] on one row
    (read back as the rationals its float32 results denote), and
    [torch.topk] (values and indices).  The results of [softmax] are
    finite numbers: a module with weights that are not finite, whose
    probabilities are NaN, is outside these definitions.  [exc_str] stands
    for [str(e)], the text of an exception, kept abstract: in a run that
    text can hold more than the class of the exception tells (a path, the
    address of an object). *)
Class Torch (F : Type) : Type := {
  Generator : Type;
  rand_init : string -> list Z -> list F;
  bernoulli : Generator -> nat -> list bool * Generator;
  softmax : list F -> list Q;
  topk : list Q -> Z -> list Q * list Z;
  exc_str : PyExc -> string
}.

Module Net.
Section Layers.

Context {F : Type} `{Scalar F} `{Torch F}.

Record Tensor : Type := { shape : list Z; data : list F }.

Definition zrange (n : Z) : list Z := map Z.of_nat (seq 0 (Z.to_nat n)).

Definition numel (s : list Z) : Z := fold_right Z.mul 1 s.

Definition item (d : list F) (i : Z) : F := nth (Z.to_nat i) d fzero.

Definition fsum (l : list F) : F := fold_left fadd l fzero.

(** Element [n, c, i, j] of an N x C x H x W storage; positions outside
    the image read as zero (the zero padding of [Conv2d]). *)
Definition at4 (C H W : Z) (d : list F) (n c i j : Z) : F :=
  if (0 <=? i) && (i <? H) && (0 <=? j) && (j <? W)
  then item d (((n * C + c) * H + i) * W + j)
  else fzero.

(** Output extent of a sliding window: floor((H + 2p - k) / s) + 1. *)
Definition window_out (H k s p : Z) : Z := (H + 2 * p - k) / s + 1.

(** [nn.Conv2d]: parameters and the hyper-parameters kept by the module.
    The layers are applied to batches (N x C x H x W), the only form in
    which the three programs call the network. *)
Record Conv2d : Type := {
  conv_weight : Tensor;
  conv_bias : Tensor;
  conv_stride : Z;
  conv_padding : Z
}.

Record Linear : Type := { fc_weight : Tensor; fc_bias : Tensor }.

Definition conv2d (l : Conv2d) (x : Tensor) : result Tensor :=
  match shape x, shape (conv_weight l) with
  | [B; C; H; W], [Co; Ci; KH; KW] =>
      let s := conv_stride l in
      let p := conv_padding l in
      let Ho := window_out H KH s p in
      let Wo := window_out W KW s p in
      if (C =? Ci) && (0 <? Ho) && (0 <? Wo) then
        Ok {| shape := [B; Co; Ho; Wo];
              data :=
                flat_map (fun n =>
                flat_map (fun o =>
                flat_map (fun i =>
                map (fun j =>
                  fadd
                    (fsum
                       (flat_map (fun c =>
                        flat_map (fun di =>
                        map (fun dj =>
                          fmul (at4 Ci KH KW (data (conv_weight l)) o c di dj)
                               (at4 C H W (data x) n c
                                    (i * s - p + di) (j * s - p + dj)))
                            (zrange KW)) (zrange KH)) (zrange Ci)))
                    (item (data (conv_bias l)) o))
                  (zrange Wo)) (zrange Ho)) (zrange Co)) (zrange B) |}
      else Raise RuntimeError
  | _, _ => Raise RuntimeError
  end.

Definition relu (x : Tensor) : Tensor :=
  {| shape := shape x; data := map (fun v => fmax v fzero) (data x) |}.

(** [nn.MaxPool2d(k, s)]: no padding, floor mode. *)
Definition max_pool2d (k s : Z) (x : Tensor) : result Tensor :=
  match shape x with
  | [B; C; H; W] =>
      let Ho := window_out H k s 0 in
      let Wo := window_out W k s 0 in
      if (0 <? Ho) && (0 <? Wo) then
        Ok {| shape := [B; C; Ho; Wo];
              data :=
                flat_map (fun n =>
                flat_map (fun c =>
                flat_map (fun i =>
                map (fun j =>
                  fold_left fmax
                    (flat_map (fun di =>
                     map (fun dj =>
                       at4 C H W (data x) n c (i * s + di) (j * s + dj))
                         (zrange k)) (zrange k))
                    (at4 C H W (data x) n c (i * s) (j * s)))
                  (zrange Wo)) (zrange Ho)) (zrange C)) (zrange B) |}
      else Raise RuntimeError
  | _ => Raise RuntimeError
  end.

(** [torch.flatten(x, 1)]: all dimensions after the first are merged. *)
Definition flatten1 (x : Tensor) : result Tensor :=
  match shape x with
  | d0 :: d1 :: rest => Ok {| shape := [d0; numel (d1 :: rest)]; data := data x |}
  | _ => Raise IndexError
  end.

(** [nn.Linear] on a batch of rows. *)
Definition linear (l : Linear) (x : Tensor) : result Tensor :=
  match shape x, shape (fc_weight l) with
  | [B; K], [Co; Ci] =>
      if K =? Ci then
        Ok {| shape := [B; Co];
              data :=
                flat_map (fun n =>
                map (fun o =>
                  fadd
                    (fsum (map (fun k =>
                             fmul (item (data x) (n * K + k))
                                  (item (data (fc_weight l)) (o * Ci + k)))
                           (zrange K)))
                    (item (data (fc_bias l)) o))
                  (zrange Co)) (zrange B) |}
      else Raise RuntimeError
  | _, _ => Raise RuntimeError
  end.

(** [nn.Dropout(0.5)]: the identity unless the module is in training
    mode; in training mode a Bernoulli mask is drawn from the generator
    and the kept entries are scaled by 1 / (1 - 0.5) = 2. *)
Definition apply_mask (mask : list bool) (d : list F) : list F :=
  map (fun bv : bool * F => if fst bv then fmul (fadd fone fone) (snd bv) else fzero)
      (combine mask d).

Definition dropout (training : bool) (x : Tensor) (g : Generator)
  : Tensor * Generator :=
  if training
  then let (mask, g') := bernoulli g (length (data x)) in
       ({| shape := shape x; data := apply_mask mask (data x) |}, g')
  else (x, g).

(** *** class RetinaCNN (main.py 16-35, app.py 15-34, train_cnn.py 31-57) *)

Record RetinaCNN : Type := {
  conv1 : Conv2d;
  conv2 : Conv2d;
  conv3 : Conv2d;
  fc1 : Linear;
  fc2 : Linear;
  training : bool
}.

Definition fresh (key : string) (s : list Z) : Tensor :=
  {| shape := s; data := rand_init key s |}.

(** [nn.Conv2d(cin, cout, kernel_size=k, stride=s, padding=p)] *)
Definition Conv2d_init (key : string) (cin cout k s p : Z) : Conv2d :=
  {| conv_weight := fresh (key ++ ".weight") [cout; cin; k; k];
     conv_bias := fresh (key ++ ".bias") [cout];
     conv_stride := s;
     conv_padding := p |}.

(** [nn.Linear(fin, fout)] *)
Definition Linear_init (key : string) (fin fout : Z) : Linear :=
  {| fc_weight := fresh (key ++ ".weight") [fout; fin];
     fc_bias := fresh (key ++ ".bias") [fout] |}.

(** [RetinaCNN.__init__]; a new module is in training mode.  The pooling
    and dropout sub-modules hold no state: [MaxPool2d(2, 2)] and
    [Dropout(0.5)] appear in [forward]. *)
Definition RetinaCNN_init (num_classes : Z) : RetinaCNN :=
  {| conv1 := Conv2d_init "conv1" 3 32 3 1 1;
     conv2 := Conv2d_init "conv2" 32 64 3 1 1;
     conv3 := Conv2d_init "conv3" 64 128 3 1 1;
     fc1 := Linear_init "fc1" (128 * 28 * 28) 256;
     fc2 := Linear_init "fc2" 256 num_classes;
     training := true |}.

Definition set_training (b : bool) (m : RetinaCNN) : RetinaCNN :=
  {| conv1 := conv1 m; conv2 := conv2 m; conv3 := conv3 m;
     fc1 := fc1 m; fc2 := fc2 m; training := b |}.

Definition eval (m : RetinaCNN) : RetinaCNN := set_training false m.
Definition train (m : RetinaCNN) : RetinaCNN := set_training true m.

(** [forward] up to and including [F.relu(self.fc1(x))]. *)
Definition features (m : RetinaCNN) (x : Tensor) : result Tensor :=
  x <- conv2d (conv1 m) x ;;
  x <- max_pool2d 2 2 (relu x) ;;
  x <- conv2d (conv2 m) x ;;
  x <- max_pool2d 2 2 (relu x) ;;
  x <- conv2d (conv3 m) x ;;
  x <- max_pool2d 2 2 (relu x) ;;
  x <- flatten1 x ;;
  x <- linear (fc1 m) x ;;
  Ok (relu x).

(** [forward]: the generator is touched by [self.dropout] only. *)
Definition forward (m : RetinaCNN) (x : Tensor) (g : Generator)
  : result Tensor * Generator :=
  match features m x with
  | Raise e => (Raise e, g)
  | Ok h =>
      let (h', g') := dropout (training m) h g in
      (linear (fc2 m) h', g')
  end.

(** *** state_dict and load_state_dict *)

Definition StateDict : Type := list (string * Tensor).

Definition state_dict (m : RetinaCNN) : StateDict :=
  [ ("conv1.weight", conv_weight (conv1 m)); ("conv1.bias", conv_bias (conv1 m));
    ("conv2.weight", conv_weight (conv2 m)); ("conv2.bias", conv_bias (conv2 m));
    ("conv3.weight", conv_weight (conv3 m)); ("conv3.bias", conv_bias (conv3 m));
    ("fc1.weight", fc_weight (fc1 m)); ("fc1.bias", fc_bias (fc1 m));
    ("fc2.weight", fc_weight (fc2 m)); ("fc2.bias", fc_bias (fc2 m)) ].

Fixpoint get (key : string) (sd : StateDict) : option Tensor :=
  match sd with
  | [] => None
  | (k, t) :: rest => if String.eqb k key then Some t else get key rest
  end.

Definition shape_eqb (s1 s2 : list Z) : bool :=
  if list_eq_dec Z.eq_dec s1 s2 then true else false.

(** One parameter of [load_state_dict]: a key that is missing (strict
    mode) or a tensor of another size is an error; otherwise the stored
    values are copied into the parameter ([param.copy_(input_param)]). *)
Definition load_param (sd : StateDict) (key : string) (p : Tensor)
  : result Tensor :=
  match get key sd with
  | None => Raise RuntimeError
  | Some t =>
      if shape_eqb (shape t) (shape p)
      then Ok {| shape := shape p; data := data t |}
      else Raise RuntimeError
  end.

Definition load_conv (sd : StateDict) (key : string) (l : Conv2d)
  : result Conv2d :=
  w <- load_param sd (key ++ ".weight") (conv_weight l) ;;
  b <- load_param sd (key ++ ".bias") (conv_bias l) ;;
  Ok {| conv_weight := w; conv_bias := b;
        conv_stride := conv_stride l; conv_padding := conv_padding l |}.

Definition load_linear (sd : StateDict) (key : string) (l : Linear)
  : result Linear :=
  w <- load_param sd (key ++ ".weight") (fc_weight l) ;;
  b <- load_param sd (key ++ ".bias") (fc_bias l) ;;
  Ok {| fc_weight := w; fc_bias := b |}.

Definition known_key (m : RetinaCNN) (key : string) : bool :=
  existsb (String.eqb key) (map fst (state_dict m)).

(** [nn.Module.load_state_dict(state_dict)] with its default
    [strict=True]: unexpected keys, missing keys and size mismatches all
    raise [RuntimeError]. *)
Definition load_state_dict (m : RetinaCNN) (sd : StateDict)
  : result RetinaCNN :=
  if forallb (fun kv => known_key m (fst kv)) sd then
    c1 <- load_conv sd "conv1" (conv1 m) ;;
    c2 <- load_conv sd "conv2" (conv2 m) ;;
    c3 <- load_conv sd "conv3" (conv3 m) ;;
    f1 <- load_linear sd "fc1" (fc1 m) ;;
    f2 <- load_linear sd "fc2" (fc2 m) ;;
    Ok {| conv1 := c1; conv2 := c2; conv3 := c3; fc1 := f1; fc2 := f2;
          training := training m |}
  else Raise RuntimeError.

(** [x.unsqueeze(0)] *)
Definition unsqueeze0 (x : Tensor) : Tensor :=
  {| shape := 1 :: shape x; data := data x |}.

End Layers.

Arguments Tensor F : clear implicits.
Arguments Conv2d F : clear implicits.
Arguments Linear F : clear implicits.
Arguments RetinaCNN F : clear implicits.
Arguments StateDict F : clear implicits.

End Net.

(** ** Python values used by the services *)

Module Py.

(** [l[i]] on a list, negative indices counting from the end. *)
Definition getitem {A : Type} (l : list A) (i : Z) : result A :=
  let n := Z.of_nat (length l) in
  let j := if i <? 0 then i + n else i in
  if (0 <=? j) && (j <? n)
  then match nth_error l (Z.to_nat j) with
       | Some a => Ok a
       | None => Raise IndexError
       end
  else Raise IndexError.

Definition len {A : Type} (l : list A) : Z := Z.of_nat (length l).

(** Nearest integer, ties to the even one. *)
Definition round_half_even (q : Q) : Z :=
  let fl := Qfloor q in
  match Qcompare (q - inject_Z fl) (1 # 2) with
  | Lt => fl
  | Gt => fl + 1
  | Eq => if Z.even fl then fl else fl + 1
  end.

(** [round(x, ndigits)] for [ndigits >= 0]: the decimal with [ndigits]
    places nearest to the value held by the float. *)
Definition round (x : Q) (ndigits : Z) : Q :=
  let scale := inject_Z (10 ^ ndigits) in
  (inject_Z (round_half_even (x * scale)) / scale)%Q.

(** Binary64 arithmetic on the rationals that floats denote ([float] in
    Python): the exact result rounded to a 53-bit significand, ties to
    even.  Results here stay far from the overflow and subnormal ranges. *)
Definition pow2 (e : Z) : Q :=
  if 0 <=? e then inject_Z (2 ^ e) else 1 # Z.to_pos (2 ^ (- e)).

(** floor(log2 q) for [q > 0]. *)
Definition ilog2 (q : Q) : Z :=
  let a := Z.log2 (Qnum q) - Z.log2 (Zpos (Qden q)) in
  if Qle_bool (pow2 a) q then a else a - 1.

Definition fl64 (q : Q) : Q :=
  match Qcompare q 0 with
  | Eq => 0%Q
  | Gt => let e := ilog2 q - 52 in
          (inject_Z (round_half_even (q / pow2 e)) * pow2 e)%Q
  | Lt => let e := ilog2 (- q) - 52 in
          (- (inject_Z (round_half_even (- q / pow2 e)) * pow2 e))%Q
  end.

(** [x * y] on floats. *)
Definition float_mul (x y : Q) : Q := fl64 (x * y).

Definition digit (d : Z) : string :=
  String (ascii_of_nat (48 + Z.to_nat d)) EmptyString.

(** [str] of a float that holds [n] hundredths, as printed inside an
    f-string: integer part, a point, and one or two decimals. *)
Definition str_hundredths (n : Z) : string :=
  let a := Z.abs n in
  (if n <? 0 then "-" else "")
    ++ NilZero.string_of_uint (N.to_uint (Z.to_N (a / 100))) ++ "."
    ++ digit ((a mod 100) / 10)
    ++ (if a mod 10 =? 0 then "" else digit (a mod 10)).

(** JSON documents, as handed to [JSONResponse] or returned to FastAPI. *)
#[warnings="-register-all"] Inductive json : Type :=
| JStr (s : string)
| JNum (q : Q)
| JList (l : list json)
| JDict (fields : list (string * json)).

Fixpoint field (key : string) (fields : list (string * json)) : option json :=
  match fields with
  | [] => None
  | (k, v) :: rest => if String.eqb k key then Some v else field key rest
  end.

Definition keys (j : json) : list string :=
  match j with
  | JDict fields => map fst fields
  | _ => []
  end.

Definition lookup (key : string) (j : json) : option json :=
  match j with
  | JDict fields => field key fields
  | _ => None
  end.

Record JSONResponse : Type := { content : json; status_code : Z }.

(** [probs.argmax().item()]: the index of the first maximal value. *)
Fixpoint argmax_from (best : Q) (besti i : Z) (l : list Q) : Z :=
  match l with
  | [] => besti
  | x :: rest =>
      if Qle_bool x best
      then argmax_from best besti (i + 1) rest
      else argmax_from x i (i + 1) rest
  end.

Definition argmax (l : list Q) : result Z :=
  match l with
  | [] => Raise IndexError
  | x :: rest => Ok (argmax_from x 0 1 rest)
  end.

Record UploadFile : Type := { filename : string; contents : list Byte.byte }.

End Py.

(** Image decoding and the inference transform
    ([Resize((224, 224))], [ToTensor()], [Normalize(mean, std)]). *)
Class Vision (F : Type) : Type := {
  Image : Type;
  Image_open_RGB : list Byte.byte -> result Image;
  transform : Image -> Net.Tensor F
}.

(** ** main.py: start-up and the [/predict] route *)

Module Main.
Section Service.

Context {F : Type} `{Scalar F} `{Torch F} `{Vision F}.

(** The two paths the module reads when it is imported. *)
Record FileSystem : Type := {
  DATASET_DIR : Registry.PathState;
  MODEL_PATH : option (Net.StateDict F)
}.

(** [torch.load(MODEL_PATH, map_location=device)] on a path that holds
    no file, or a file in which a state dict was saved. *)
Definition torch_load (f : option (Net.StateDict F)) : result (Net.StateDict F) :=
  match f with
  | Some sd => Ok sd
  | None => Raise FileNotFoundError
  end.

(** The module-level state once the import has succeeded. *)
Record Service : Type := {
  CLASS_NAMES : list string;
  model : Net.RetinaCNN F
}.

(** Lines 69-83: an exception here aborts the import, and no route is
    ever served. *)
Definition startup (fs : FileSystem) : result Service :=
  names <- Registry.CLASS_NAMES (DATASET_DIR fs) ;;
  let model0 := Net.RetinaCNN_init (Py.len names) in
  state_dict <- torch_load (MODEL_PATH fs) ;;
  model1 <- Net.load_state_dict model0 state_dict ;;
  Ok {| CLASS_NAMES := names; model := Net.eval model1 |}.

(** The binary64 number that the literal [0.65] denotes,
    0x1.4cccccccccccdp-1. *)
Definition confidence_threshold : Q := 5854679515581645 # 9007199254740992.

Definition Qltb (x y : Q) : bool := negb (Qle_bool y x).

Definition UNCERTAIN_MESSAGE : string :=
  "Image does not appear to contain a recognizable retina pattern.".

(** [str(round(confidence * 100, 2))] *)
Definition percent_str (confidence : Q) : string :=
  Py.str_hundredths (Qfloor (Py.round (Py.float_mul confidence 100) 2 * 100)).

(** [f"Detected {label} with {round(confidence * 100, 2)}% confidence."] *)
Definition detected_message (label : string) (confidence : Q) : string :=
  "Detected " ++ label ++ " with " ++ percent_str confidence ++ "% confidence.".

(** [F.softmax(outputs, dim=1)[0]] *)
Definition softmax_row0 (outputs : Net.Tensor F) : result (list Q) :=
  match Net.shape outputs with
  | [B; N] =>
      if 0 <? B
      then Ok (softmax (firstn (Z.to_nat N) (Net.data outputs)))
      else Raise IndexError
  | _ => Raise IndexError
  end.

(** [torch.topk(probs, k=k)]: [k] larger than the row is an error. *)
Definition torch_topk (probs : list Q) (k : Z) : result (list Q * list Z) :=
  if (0 <=? k) && (k <=? Py.len probs)
  then Ok (topk probs k)
  else Raise RuntimeError.

(** The list comprehension of lines 128-131. *)
Fixpoint top_entries (names : list string) (top_probs : list Q)
         (j : Z) (top_idxs : list Z) : result (list Py.json) :=
  match top_idxs with
  | [] => Ok []
  | i :: rest =>
      cls <- Py.getitem names i ;;
      conf <- Py.getitem top_probs j ;;
      tl <- top_entries names top_probs (j + 1) rest ;;
      Ok (Py.JDict [("class", Py.JStr cls); ("confidence", Py.JNum conf)] :: tl)
  end.

(** Lines 121-149: from the probabilities to the JSON body. *)
Definition respond (names : list string) (fname now : string)
           (probs : list Q) : result Py.json :=
  top_idx <- Py.argmax probs ;;
  confidence <- Py.getitem probs top_idx ;;
  label <- Py.getitem names top_idx ;;
  tk <- torch_topk probs (Z.min 3 (Py.len names)) ;;
  top_predictions <- top_entries names (fst tk) 0 (snd tk) ;;
  let verdict :=
    if Qltb confidence confidence_threshold
    then ("uncertain", UNCERTAIN_MESSAGE)
    else (label, detected_message label confidence) in
  Ok (Py.JDict
        [ ("filename", Py.JStr fname);
          ("prediction", Py.JStr (fst verdict));
          ("confidence", Py.JNum (Py.round confidence 4));
          ("top_predictions", Py.JList top_predictions);
          ("message", Py.JStr (snd verdict));
          ("timestamp", Py.JStr now) ]).

(** Lines 112-119: from the uploaded bytes to the probabilities. *)
Definition infer (m : Net.RetinaCNN F) (file : Py.UploadFile) (g : Generator)
  : result (list Q) * Generator :=
  match Image_open_RGB (Py.contents file) with
  | Raise e => (Raise e, g)
  | Ok image =>
      let img_tensor := Net.unsqueeze0 (transform image) in
      let (outputs, g') := Net.forward m img_tensor g in
      (out <- outputs ;; softmax_row0 out, g')
  end.

(** The route: [now] is what [datetime.now().isoformat()] returns during
    the call; every exception becomes a 500 response. *)
Definition predict (svc : Service) (file : Py.UploadFile) (now : string)
           (g : Generator) : Py.JSONResponse * Generator :=
  let (probs, g') := infer (model svc) file g in
  match (p <- probs ;; respond (CLASS_NAMES svc) (Py.filename file) now p) with
  | Ok body => ({| Py.content := body; Py.status_code := 200 |}, g')
  | Raise e =>
      ({| Py.content := Py.JDict [("error", Py.JStr (exc_str e))];
          Py.status_code := 500 |}, g')
  end.

(** Lines 59-63: the compute device, from what torch reports. *)
Definition select_device (cuda_available mps_available : bool) : string :=
  if cuda_available then "cuda" else if mps_available then "mps" else "cpu".

(** [GET /health] (lines 104-106). *)
Definition health_check (svc : Service) (device : string) : Py.json :=
  Py.JDict [ ("status", Py.JStr "ok");
             ("device", Py.JStr device);
             ("classes", Py.JList (map Py.JStr (CLASS_NAMES svc))) ].

End Service.
End Main.

(** ** app.py: the same start-up, and a [/predict] route without gate *)

Module App.
Section Service.

Context {F : Type} `{Scalar F} `{Torch F} `{Vision F}.

(** Lines 56-78 are those of main.py (69-83). *)
Definition startup (fs : Main.FileSystem) : result Main.Service :=
  Main.startup fs.

(** Lines 117-126. *)
Definition respond (names : list string) (fname now : string)
           (probs : list Q) : result Py.json :=
  top_idx <- Py.argmax probs ;;
  confidence <- Py.getitem probs top_idx ;;
  prediction <- Py.getitem names top_idx ;;
  Ok (Py.JDict
        [ ("filename", Py.JStr fname);
          ("prediction", Py.JStr prediction);
          ("confidence", Py.JNum (Py.round confidence 4));
          ("timestamp", Py.JStr now) ]).

(** The route: [now] is what [datetime.utcnow().isoformat()] returns during
    the call; there is no [try]: an exception leaves the handler. *)
Definition predict (svc : Main.Service) (file : Py.UploadFile) (now : string)
           (g : Generator) : result Py.json * Generator :=
  let (probs, g') := Main.infer (Main.model svc) file g in
  (p <- probs ;; respond (Main.CLASS_NAMES svc) (Py.filename file) now p, g').

(** [GET /status] (lines 98-105). *)
Definition status (svc : @Main.Service F) (device : string) : Py.json :=
  Py.JDict [ ("model", Py.JStr "Custom Retina CNN");
             ("device", Py.JStr device);
             ("classes", Py.JList (map Py.JStr (Main.CLASS_NAMES svc)));
             ("status", Py.JStr "ready") ].

End Service.
End App.

(** ** train_cnn.py: the training script *)

Module TrainCnn.

(** What the script prints or writes, in order. *)
Inductive Event : Type :=
| UsingDevice (device : string)
| FoundImages (images classes : Z)
| StartTraining
| EpochBegin (epoch : Z)
| BatchDone (epoch : Z)
| EpochReport (epoch : Z) (epoch_loss epoch_acc : Q)
| ModelSaved.

(** A script run: the events so far, and a value or the exception that
    ended the run. *)
Definition Run (A : Type) : Type := (list Event * result A)%type.

Definition ret {A : Type} (a : A) : Run A := ([], Ok a).
Definition emit (e : Event) : Run unit := ([e], Ok tt).
Definition lift {A : Type} (r : result A) : Run A := ([], r).

Definition then_ {A B : Type} (m : Run A) (k : A -> Run B) : Run B :=
  match m with
  | (tr, Ok a) => let (tr', r) := k a in ((tr ++ tr')%list, r)
  | (tr, Raise e) => (tr, Raise e)
  end.

Notation "x <~ m ;; k" := (then_ m (fun x => k))
  (at level 61, m at next level, right associativity).

Definition BATCH_SIZE : Z := 32.
Definition NUM_EPOCHS : Z := 10.
Definition LEARNING_RATE : Q := 1 # 1000.
Definition NUM_CLASSES : Z := 4.

(** [DATA_DIR] as [ImageFolder] walks it: the class folders, each with the
    files below it that carry an image extension. *)
Record ClassFolder : Type := { folder : string; images : list string }.

Inductive DataDir : Type :=
| NoDataDir
| ClassFolders (l : list ClassFolder).

Record Dataset : Type := {
  classes : list string;
  samples : list (string * Z)
}.

Definition is_nil {A : Type} (l : list A) : bool :=
  match l with [] => true | _ => false end.

Definition images_of (l : list ClassFolder) (c : string) : list string :=
  match find (fun cf => String.eqb (folder cf) c) l with
  | Some cf => Registry.sorted (images cf)
  | None => []
  end.

(** [torchvision.datasets.ImageFolder(root)]: the classes are the sorted
    folder names; [FileNotFoundError] when the root is missing or has no
    class folder ([find_classes]), and when some class folder holds no
    valid image ([make_dataset], [allow_empty=False]). *)
Definition ImageFolder (d : DataDir) : result Dataset :=
  match d with
  | NoDataDir => Raise FileNotFoundError
  | ClassFolders l =>
      if is_nil l then Raise FileNotFoundError
      else if existsb (fun cf => is_nil (images cf)) l then Raise FileNotFoundError
      else
        let cs := Registry.sorted (map folder l) in
        Ok {| classes := cs;
              samples :=
                flat_map (fun ic : Z * string =>
                            map (fun f => (f, fst ic)) (images_of l (snd ic)))
                         (combine (Net.zrange (Py.len cs)) cs) |}
  end.

(** The number of images the script would train on. *)
Definition image_count (d : DataDir) : Z :=
  match d with
  | NoDataDir => 0
  | ClassFolders l => Py.len (flat_map images l)
  end.

Section Script.

Context {F : Type} `{Scalar F} `{Torch F}.

Record Batch : Type := { batch_images : Net.Tensor F; batch_labels : list Z }.

(** What the script takes from the run time: the device found at lines
    18-24, and the numeric services of the loop: one shuffled pass of the
    [DataLoader] (reading and augmenting the images, which are taken to be
    readable), the cross-entropy
    value of a batch whose labels are valid, [loss.backward();
    optimizer.step()] (which follows the forward pass made from the given
    generator state), and the row-wise arg-max of [torch.max(outputs, 1)]. *)
Class Optim : Type := {
  DEVICE : string;
  OptState : Type;
  Adam : Net.RetinaCNN F -> Q -> OptState;
  loader_pass : Dataset -> Generator -> list Batch * Generator;
  criterion : Net.Tensor F -> list Z -> Q;
  backward_step : Net.RetinaCNN F -> OptState -> Batch -> Generator
                  -> Net.RetinaCNN F * OptState;
  torch_max1 : Net.Tensor F -> list Z
}.

Context `{Optim}.

Record TrainState : Type := {
  model : Net.RetinaCNN F;
  optimizer : OptState;
  gen : Generator
}.

Record Meter : Type := { running_loss : Q; correct : Z; total : Z }.

(** [len(train_loader)]: the number of batches, the last one partial. *)
Definition loader_len (ds : Dataset) : Z :=
  (Py.len (samples ds) + BATCH_SIZE - 1) / BATCH_SIZE.

(** [(predicted == labels).sum().item()] *)
Definition count_equal (predicted labels : list Z) : Z :=
  Py.len (filter (fun pl : Z * Z => fst pl =? snd pl) (combine predicted labels)).

(** Python's [/] on numbers. *)
Definition truediv (a b : Q) : result Q :=
  if Qeq_bool b 0 then Raise ZeroDivisionError else Ok (a / b)%Q.

(** [criterion(outputs, labels)] with [nn.CrossEntropyLoss()]: the
    outputs are B rows of C logits and the labels B class indices, each in
    [0, C) or equal to [ignore_index] (-100).  Another number of labels is
    a [ValueError]; a label outside the range is, on the CPU, an
    [IndexError] ("Target ... is out of bounds"). *)
Definition valid_target (C l : Z) : bool :=
  (l =? -100) || ((0 <=? l) && (l <? C)).

Definition cross_entropy (outputs : Net.Tensor F) (labels : list Z) : result Q :=
  match Net.shape outputs with
  | [B; C] =>
      if negb (Py.len labels =? B) then Raise ValueError
      else if forallb (valid_target C) labels
           then Ok (criterion outputs labels)
           else Raise IndexError
  | _ => Raise RuntimeError
  end.

(** The body of the inner [for] (lines 94-105) on each batch of a pass. *)
Fixpoint run_batches (epoch : Z) (bs : list Batch) (st : TrainState)
         (mt : Meter) : Run (TrainState * Meter) :=
  match bs with
  | [] => ret (st, mt)
  | b :: rest =>
      let (outputs, g') := Net.forward (model st) (batch_images b) (gen st) in
      out <~ lift outputs ;;
      loss <~ lift (cross_entropy out (batch_labels b)) ;;
      let (m', o') := backward_step (model st) (optimizer st) b (gen st) in
      let mt' :=
        {| running_loss := (running_loss mt + loss)%Q;
           correct := correct mt + count_equal (torch_max1 out) (batch_labels b);
           total := total mt + Py.len (batch_labels b) |} in
      _ <~ emit (BatchDone epoch) ;;
      run_batches epoch rest {| model := m'; optimizer := o'; gen := g' |} mt'
  end.

(** One iteration of the outer [for] (lines 88-109). *)
Definition run_epoch (ds : Dataset) (epoch : Z) (st : TrainState)
  : Run TrainState :=
  _ <~ emit (EpochBegin epoch) ;;
  let st0 := {| model := Net.train (model st); optimizer := optimizer st;
                gen := gen st |} in
  let (bs, g') := loader_pass ds (gen st0) in
  sm <~ run_batches epoch bs
         {| model := model st0; optimizer := optimizer st0; gen := g' |}
         {| running_loss := 0; correct := 0; total := 0 |} ;;
  let (st1, mt) := sm : TrainState * Meter in
  epoch_loss <~ lift (truediv (running_loss mt) (inject_Z (loader_len ds))) ;;
  epoch_acc <~ lift (truediv (inject_Z (100 * correct mt)) (inject_Z (total mt))) ;;
  _ <~ emit (EpochReport epoch epoch_loss epoch_acc) ;;
  ret st1.

Fixpoint run_epochs (ds : Dataset) (epochs : list Z) (st : TrainState)
  : Run TrainState :=
  match epochs with
  | [] => ret st
  | e :: rest => st' <~ run_epoch ds e st ;; run_epochs ds rest st'
  end.

(** The whole script; its value is the state dict written to
    [MODEL_PATH]. *)
Definition main (d : DataDir) (g : Generator) : Run (Net.StateDict F) :=
  _ <~ emit (UsingDevice DEVICE) ;;
  dataset <~ lift (ImageFolder d) ;;
  _ <~ emit (FoundImages (Py.len (samples dataset)) (Py.len (classes dataset))) ;;
  let model0 := Net.RetinaCNN_init NUM_CLASSES in
  let st0 := {| model := model0; optimizer := Adam model0 LEARNING_RATE;
                gen := g |} in
  _ <~ emit StartTraining ;;
  st <~ run_epochs dataset (Net.zrange NUM_EPOCHS) st0 ;;
  _ <~ emit ModelSaved ;;
  ret (Net.state_dict (model st)).

End Script.
End TrainCnn.

(** ** The documented contract of [torch.topk], as a check on one call *)

Module TopkContract.

Definition Qsame (x y : Q) : bool :=
  (Qnum x =? Qnum y) && (Zpos (Qden x) =? Zpos (Qden y)).

Definition prob_at (probs : list Q) (i : Z) : Q := nth (Z.to_nat i) probs 0%Q.

Fixpoint distinct (l : list Z) : bool :=
  match l with
  | [] => true
  | i :: rest => negb (existsb (Z.eqb i) rest) && distinct rest
  end.

Fixpoint nonincreasing (l : list Q) : bool :=
  match l with
  | x :: ((y :: _) as rest) => Qle_bool y x && nonincreasing rest
  | _ => true
  end.

(** [torch.topk(probs, k)] returns [k] values and their [k] positions:
    distinct positions of the row, each value the entry at its position,
    the values in non-increasing order ([sorted=True]), and no entry left
    out larger than an entry returned ([largest=True]).  Which of several
    equal entries comes first, or is returned at all, is not fixed. *)
Definition holds (probs : list Q) (k : Z) (r : list Q * list Z) : bool :=
  let (vals, idxs) := r in
  (Py.len idxs =? k) && (Py.len vals =? k)
  && forallb (fun i => (0 <=? i) && (i <? Py.len probs)) idxs
  && distinct idxs
  && forallb (fun vi : Q * Z => Qsame (fst vi) (prob_at probs (snd vi)))
             (combine vals idxs)
  && nonincreasing vals
  && forallb (fun i =>
                existsb (Z.eqb i) idxs
                || forallb (fun v => Qle_bool (prob_at probs i) v) vals)
             (Net.zrange (Py.len probs)).

End TopkContract.

(** The finite values of a float32: [m * 2^e] with a 24-bit [m]. *)
Definition f32_value (m e : Z) : Q :=
  if 0 <=? e then inject_Z (m * 2 ^ e) else m # Z.to_pos (2 ^ (- e)).

Definition is_float32 (q : Q) : Prop :=
  exists m e : Z, Z.abs m < 2 ^ 24 /\ -149 <= e <= 104 /\ (q == f32_value m e)%Q.

(** ** A small run time on which the definitions can be evaluated

    Scalars are integers, [softmax] is the base-2 analogue of the real one
    (exact on integers), and [topk] sorts the positions by insertion;
    [ties_last] decides which of two equal entries comes first. *)

Module Ref.

#[export] Instance scalar_Z : Scalar Z :=
  {| fzero := 0; fone := 1; fadd := Z.add; fmul := Z.mul; fmax := Z.max |}.

Definition softmax2 (l : list Z) : list Q :=
  let lo := fold_right Z.min 0 l in
  let w := map (fun x => 2 ^ (x - lo)) l in
  let total := fold_right Z.add 0 w in
  map (fun wi => wi # Z.to_pos total) w.

Fixpoint insert_desc (ties_last : bool) (probs : list Q) (i : Z) (l : list Z)
  : list Z :=
  match l with
  | [] => [i]
  | j :: rest =>
      let pi := TopkContract.prob_at probs i in
      let pj := TopkContract.prob_at probs j in
      if (if ties_last then Main.Qltb pj pi else Qle_bool pj pi)
      then i :: j :: rest
      else j :: insert_desc ties_last probs i rest
  end.

Definition topk_sort (ties_last : bool) (probs : list Q) (k : Z)
  : list Q * list Z :=
  let order :=
    fold_right (insert_desc ties_last probs) [] (Net.zrange (Py.len probs)) in
  let idxs := firstn (Z.to_nat k) order in
  (map (TopkContract.prob_at probs) idxs, idxs).

Definition exc_name (e : PyExc) : string :=
  match e with
  | FileNotFoundError => "FileNotFoundError"
  | NotADirectoryError => "NotADirectoryError"
  | RuntimeError => "RuntimeError"
  | IndexError => "IndexError"
  | ValueError => "ValueError"
  | ZeroDivisionError => "ZeroDivisionError"
  | UnidentifiedImageError => "UnidentifiedImageError"
  end.

Definition torch_Z (ties_last : bool) : Torch Z :=
  {| Generator := Z;
     rand_init := fun _ s => repeat 0 (Z.to_nat (Net.numel s));
     bernoulli := fun g n => (map (fun i => Z.even (g + i)) (Net.zrange (Z.of_nat n)), g + 1);
     softmax := softmax2;
     topk := topk_sort ties_last;
     exc_str := exc_name |}.

#[export] Instance torch_first : Torch Z := torch_Z false.

#[export] Instance vision_Z : Vision Z :=
  {| Image := list Byte.byte;
     Image_open_RGB := fun b =>
       match b with [] => Raise UnidentifiedImageError | _ => Ok b end;
     transform := fun _ =>
       {| Net.shape := [3; 224; 224];
          Net.data := repeat 0 (Z.to_nat (3 * 224 * 224)) |} |}.

(** A trainer that does nothing, to run the script on small inputs. *)
#[export] Instance optim_Z : @TrainCnn.Optim Z torch_first :=
  {| TrainCnn.DEVICE := "cpu";
     TrainCnn.OptState := unit;
     TrainCnn.Adam := fun _ _ => tt;
     TrainCnn.loader_pass := fun _ g => ([], g);
     TrainCnn.criterion := fun _ _ => 0%Q;
     TrainCnn.backward_step := fun m o _ _ => (m, o);
     TrainCnn.torch_max1 := fun _ => [] |}.

Definition retina_classes : list string := ["cataract"; "dr"; "glaucoma"; "normal"].

Definition uncertain_row : list Q := [3 # 8; 3 # 8; 1 # 8; 1 # 8]%Q.
Definition tied_row : list Q := [1 # 2; 1 # 2; 0; 0]%Q.

(** Rows whose largest entry is not the first one. *)
Definition late_confident_row : list Q := [1 # 16; 1 # 8; 3 # 4; 1 # 16]%Q.
Definition late_uncertain_row : list Q := [1 # 8; 3 # 8; 1 # 8; 3 # 8]%Q.

(** A checkpoint of a three-class network, its storage left empty. *)
Definition three_class_checkpoint : Net.StateDict Z :=
  map (fun ks : string * list Z =>
         (fst ks, {| Net.shape := snd ks; Net.data := [] |}))
      [ ("conv1.weight", [32; 3; 3; 3]); ("conv1.bias", [32]);
        ("conv2.weight", [64; 32; 3; 3]); ("conv2.bias", [64]);
        ("conv3.weight", [128; 64; 3; 3]); ("conv3.bias", [128]);
        ("fc1.weight", [256; 100352]); ("fc1.bias", [256]);
        ("fc2.weight", [3; 256]); ("fc2.bias", [3]) ].

Definition three_class_deployment : @Main.FileSystem Z :=
  {| Main.DATASET_DIR := Registry.Missing;
     Main.MODEL_PATH := Some three_class_checkpoint |}.

(** The same deployment with a checkpoint of four classes. *)
Definition four_class_deployment : @Main.FileSystem Z :=
  {| Main.DATASET_DIR := Registry.Missing;
     Main.MODEL_PATH :=
       Some (map (fun kt : string * Net.Tensor Z =>
                    if String.eqb (fst kt) "fc2.weight"
                    then (fst kt, {| Net.shape := [4; 256]; Net.data := [] |})
                    else if String.eqb (fst kt) "fc2.bias"
                         then (fst kt, {| Net.shape := [4]; Net.data := [] |})
                         else kt)
                 three_class_checkpoint) |}.

Definition empty_folders : TrainCnn.DataDir :=
  TrainCnn.ClassFolders
    [ {| TrainCnn.folder := "cataract"; TrainCnn.images := [] |};
      {| TrainCnn.folder := "normal"; TrainCnn.images := [] |} ].

End Ref.

(** ** Notions used in the statements *)

Module Arch.
Section Arch.

Context {F : Type} `{Scalar F} `{Torch F}.

(** The architecture of a module: the size of every parameter under its
    key, and the stride and padding of the three convolutions. *)
Definition sizes (m : Net.RetinaCNN F) : list (string * list Z) :=
  map (fun kv => (fst kv, Net.shape (snd kv))) (Net.state_dict m).

Definition strides (m : Net.RetinaCNN F) : list (Z * Z) :=
  map (fun c => (Net.conv_stride c, Net.conv_padding c))
      [Net.conv1 m; Net.conv2 m; Net.conv3 m].

Definition arch (m : Net.RetinaCNN F) : list (string * list Z) * list (Z * Z) :=
  (sizes m, strides m).

(** A tensor whose storage has as many entries as its size announces. *)
Definition full (x : Net.Tensor F) : Prop :=
  Z.of_nat (length (Net.data x)) = Net.numel (Net.shape x).

(** The size [RetinaCNN(num_classes)] gives to the parameter [key]. *)
Definition expected_shape (num_classes : Z) (key : string) : option (list Z) :=
  option_map Net.shape (Net.get key (Net.state_dict (Net.RetinaCNN_init num_classes))).

End Arch.
End Arch.

(** A response without its time stamp. *)
Definition strip_timestamp (j : Py.json) : Py.json :=
  match j with
  | Py.JDict fields =>
      Py.JDict (filter (fun kv => negb (String.eqb (fst kv) "timestamp")) fields)
  | _ => j
  end.

(** One entry of [top_predictions] for position [i]. *)
Definition top_entry (names : list string) (probs : list Q) (i : Z) : Py.json :=
  Py.JDict [ ("class", Py.JStr (nth (Z.to_nat i) names ""));
             ("confidence", Py.JNum (TopkContract.prob_at probs i)) ].

(** [r] is the position of the first maximal entry of [l]. *)
Definition is_first_max (l : list Q) (r : Z) : Prop :=
  0 <= r < Py.len l
  /\ (forall j, 0 <= j < Py.len l ->
                (TopkContract.prob_at l j <= TopkContract.prob_at l r)%Q)
  /\ (forall j, 0 <= j < r ->
                (TopkContract.prob_at l j < TopkContract.prob_at l r)%Q).

(** The first entry of [top_predictions] carries the label of the arg-max
    position. *)
Definition first_label_is_argmax (names : list string) (probs : list Q)
           (body : Py.json) : Prop :=
  exists a first rest,
    Py.argmax probs = Ok a
    /\ Py.lookup "top_predictions" body = Some (Py.JList (first :: rest))
    /\ Py.lookup "class" first = Some (Py.JStr (nth (Z.to_nat a) names "")).

(** Equal neighbours of a ranking stand in ascending position. *)
Fixpoint ties_ascending (probs : list Q) (idxs : list Z) : Prop :=
  match idxs with
  | i :: ((j :: _) as rest) =>
      ((TopkContract.prob_at probs i == TopkContract.prob_at probs j)%Q -> i < j)
      /\ ties_ascending probs rest
  | _ => True
  end.

(** ** Notions used in the statements on inputs, routes and training *)

(** The sizes of batch that [forward] accepts: three channels, at least
    8 x 8 pixels, and 28 x 28 = 784 positions left after the three
    poolings. *)
Definition input_ok (s : list Z) : bool :=
  match s with
  | [_; C; Hi; Wi] =>
      (C =? 3) && (8 <=? Hi) && (8 <=? Wi) && ((Hi / 8) * (Wi / 8) =? 784)
  | _ => false
  end.

(** The number that a decimal numeral denotes: digits, a point, digits
    ("65.12" is 6512/100). *)
Definition digit_value (c : ascii) : option Z :=
  let n := Z.of_nat (nat_of_ascii c) in
  if (48 <=? n) && (n <=? 57) then Some (n - 48) else None.

Fixpoint digits_value (acc : Z) (s : string) : option Z :=
  match s with
  | EmptyString => Some acc
  | String c rest =>
      match digit_value c with
      | Some d => digits_value (10 * acc + d) rest
      | None => None
      end
  end.

Fixpoint decimal_parse (whole : Z) (s : string) : option Q :=
  match s with
  | EmptyString => None
  | String c rest =>
      if Ascii.eqb c "."
      then match digits_value 0 rest with
           | Some f =>
               Some (inject_Z whole
                     + inject_Z f / inject_Z (10 ^ Z.of_nat (String.length rest)))%Q
           | None => None
           end
      else match digit_value c with
           | Some d => decimal_parse (10 * whole + d) rest
           | None => None
           end
  end.

Definition decimal_value (s : string) : option Q := decimal_parse 0 s.

(** The value of a decimal numeral of the standard printer. *)
Fixpoint uint_acc (d : Decimal.uint) (acc : Z) : Z :=
  match d with
  | Decimal.Nil => acc
  | Decimal.D0 l => uint_acc l (10 * acc + 0)
  | Decimal.D1 l => uint_acc l (10 * acc + 1)
  | Decimal.D2 l => uint_acc l (10 * acc + 2)
  | Decimal.D3 l => uint_acc l (10 * acc + 3)
  | Decimal.D4 l => uint_acc l (10 * acc + 4)
  | Decimal.D5 l => uint_acc l (10 * acc + 5)
  | Decimal.D6 l => uint_acc l (10 * acc + 6)
  | Decimal.D7 l => uint_acc l (10 * acc + 7)
  | Decimal.D8 l => uint_acc l (10 * acc + 8)
  | Decimal.D9 l => uint_acc l (10 * acc + 9)
  end.

(** The labels a JSON list of strings holds. *)
Definition listed (j : option Py.json) : list string :=
  match j with
  | Some (Py.JList l) =>
      flat_map (fun x => match x with Py.JStr s => [s] | _ => [] end) l
  | _ => []
  end.

Module TrainNotions.
Section TrainNotions.

Context {F : Type} `{Scalar F} `{Torch F} `{@TrainCnn.Optim F _}.

(** One pass of the loader yields batches of 3 x 224 x 224 images, one
    label per image, and every sample of the dataset once. *)
Definition loader_covers (ds : TrainCnn.Dataset) : Prop :=
  forall g,
    Forall (fun b => Net.shape (TrainCnn.batch_images b)
                     = [Py.len (TrainCnn.batch_labels b); 3; 224; 224])
           (fst (TrainCnn.loader_pass ds g))
    /\ fold_right Z.add 0
         (map (fun b => Py.len (TrainCnn.batch_labels b))
              (fst (TrainCnn.loader_pass ds g)))
       = Py.len (TrainCnn.samples ds).

(** With [shuffle=True] the labels of one pass are those of the samples,
    in some order. *)
Definition loader_shuffles (ds : TrainCnn.Dataset) : Prop :=
  forall g,
    Permutation (flat_map TrainCnn.batch_labels (fst (TrainCnn.loader_pass ds g)))
                (map snd (TrainCnn.samples ds)).

(** Every label of the batches is one that [CrossEntropyLoss] accepts
    for rows of [N] logits. *)
Definition labels_valid (N : Z) (bs : list (@TrainCnn.Batch F)) : bool :=
  forallb (fun b => forallb (TrainCnn.valid_target N) (TrainCnn.batch_labels b)) bs.

(** An optimiser step changes the values of the parameters, not their
    sizes. *)
Definition step_keeps_sizes : Prop :=
  forall m o b g,
    Arch.arch (fst (TrainCnn.backward_step m o b g)) = Arch.arch m.

End TrainNotions.

(** The epochs a run began, in order. *)
Definition epochs_begun (tr : list TrainCnn.Event) : list Z :=
  flat_map (fun e => match e with TrainCnn.EpochBegin n => [n] | _ => [] end) tr.

(** The accuracies a run reported, in order. *)
Definition accuracies (tr : list TrainCnn.Event) : list Q :=
  flat_map (fun e => match e with TrainCnn.EpochReport _ _ a => [a] | _ => [] end) tr.

End TrainNotions.

(** A loader for small datasets: one batch with every sample, the images
    left without storage; and an optimiser that keeps the parameters. *)
Module RefTrain.

Definition one_batch (ds : TrainCnn.Dataset) : @TrainCnn.Batch Z :=
  {| TrainCnn.batch_images :=
       {| Net.shape := [Py.len (TrainCnn.samples ds); 3; 224; 224]; Net.data := [] |};
     TrainCnn.batch_labels := map snd (TrainCnn.samples ds) |}.

Definition optim_one_batch : @TrainCnn.Optim Z Ref.torch_first :=
  {| TrainCnn.DEVICE := "cpu";
     TrainCnn.OptState := unit;
     TrainCnn.Adam := fun _ _ => tt;
     TrainCnn.loader_pass := fun ds g => ([one_batch ds], g);
     TrainCnn.criterion := fun _ _ => (1 # 2)%Q;
     TrainCnn.backward_step := fun m o _ _ => (m, o);
     TrainCnn.torch_max1 := fun out => map (fun _ => 0) (Net.zrange (hd 0 (Net.shape out))) |}.

Definition two_folders : TrainCnn.DataDir :=
  TrainCnn.ClassFolders
    [ {| TrainCnn.folder := "normal"; TrainCnn.images := ["n1.png"; "n2.png"] |};
      {| TrainCnn.folder := "cataract"; TrainCnn.images := ["c1.png"] |} ].

(** Five class folders, one more than [NUM_CLASSES]. *)
Definition five_folders : TrainCnn.DataDir :=
  TrainCnn.ClassFolders
    [ {| TrainCnn.folder := "amd"; TrainCnn.images := ["a1.png"] |};
      {| TrainCnn.folder := "cataract"; TrainCnn.images := ["c1.png"] |};
      {| TrainCnn.folder := "dr"; TrainCnn.images := ["d1.png"] |};
      {| TrainCnn.folder := "glaucoma"; TrainCnn.images := ["g1.png"] |};
      {| TrainCnn.folder := "normal"; TrainCnn.images := ["n1.png"] |} ].

(** A deployment whose image directory holds no class folder, with a
    checkpoint of a network without outputs. *)
Definition zero_class_deployment : @Main.FileSystem Z :=
  {| Main.DATASET_DIR := Registry.Directory [];
     Main.MODEL_PATH :=
       Some (map (fun kt : string * Net.Tensor Z =>
                    if String.eqb (fst kt) "fc2.weight"
                    then (fst kt, {| Net.shape := [0; 256]; Net.data := [] |})
                    else if String.eqb (fst kt) "fc2.bias"
                         then (fst kt, {| Net.shape := [0]; Net.data := [] |})
                         else kt)
                 Ref.three_class_checkpoint) |}.

Definition one_byte_upload : Py.UploadFile :=
  {| Py.filename := "eye.png"; Py.contents := [Byte.x00] |}.

(** A service of four classes with a freshly initialised module. *)
Definition four_class_service : @Main.Service Z :=
  {| Main.CLASS_NAMES := Ref.retina_classes;
     Main.model := Net.eval (@Net.RetinaCNN_init Z Ref.torch_first 4) |}.

End RefTrain.

(** * Theorems *)

(** ** Lists and ranges *)

Section ListFacts.

Context {A B : Type}.

Lemma length_flat_map_const (f : A -> list B) (n : nat) (l : list A) :
  (forall a, length (f a) = n) -> length (flat_map f l) = (length l * n)%nat.
Proof.
  intros Hf. induction l as [|a l IH]; simpl; [reflexivity|].
  rewrite length_app, Hf, IH. reflexivity.
Qed.

End ListFacts.

Lemma length_zrange (n : Z) : length (Net.zrange n) = Z.to_nat n.
Proof. unfold Net.zrange. rewrite length_map, length_seq. reflexivity. Qed.

Lemma len_zrange (n : Z) : 0 <= n -> Py.len (Net.zrange n) = n.
Proof. intros Hn. unfold Py.len. rewrite length_zrange. lia. Qed.

Lemma in_zrange (n i : Z) : In i (Net.zrange n) <-> 0 <= i < n.
Proof.
  unfold Net.zrange. rewrite in_map_iff. split.
  - intros (k & <- & Hk). apply in_seq in Hk. lia.
  - intros Hi. exists (Z.to_nat i). split; [lia|]. apply in_seq. lia.
Qed.

(** ** The class registry *)

Section RegistryFacts.

Import Registry.

Lemma sorted_is_sorted (l : list string) : LocallySorted lex_le (sorted l).
Proof.
  unfold sorted, lex_le.
  pose proof (StringSort.LocallySorted_sort l) as Hs.
  induction Hs; constructor; auto.
Qed.

Lemma sorted_is_permutation (l : list string) : Permutation l (sorted l).
Proof. apply StringSort.Permuted_sort. Qed.

(** [lex_le] is the lexicographic order: the first differing byte
    decides, and a proper prefix comes first. *)
Lemma lex_le_nil (s : string) : lex_le EmptyString s.
Proof. destruct s; reflexivity. Qed.

Lemma lex_le_cons (a b : ascii) (s t : string) :
  lex_le (String a s) (String b t) <->
  (nat_of_ascii a < nat_of_ascii b)%nat \/ (a = b /\ lex_le s t).
Proof.
  unfold lex_le, String.leb. simpl. unfold Ascii.compare.
  rewrite N.compare_antisym.
  destruct (N.compare_spec (N_of_ascii b) (N_of_ascii a)) as [E|L|G]; simpl.
  - assert (a = b) as ->.
    { rewrite <- (ascii_N_embedding a), <- (ascii_N_embedding b), E. reflexivity. }
    split; [intros Hc; right; split; [reflexivity|exact Hc]|].
    intros [Hlt|[_ Hc]]; [lia|exact Hc].
  - split; [discriminate|]. unfold nat_of_ascii.
    intros [Hlt|[-> _]]; lia.
  - split; [|reflexivity]. intros _. left. unfold nat_of_ascii. lia.
Qed.

Lemma lex_le_refl (s : string) : lex_le s s.
Proof. destruct (String.leb_total s s); assumption. Qed.

Lemma lex_le_trans (s t u : string) : lex_le s t -> lex_le t u -> lex_le s u.
Proof.
  revert t u. induction s as [|a s IH]; intros t u Hst Htu; [apply lex_le_nil|].
  destruct t as [|b t]; [discriminate Hst|].
  destruct u as [|c u]; [discriminate Htu|].
  apply lex_le_cons in Hst. apply lex_le_cons in Htu. apply lex_le_cons.
  destruct Hst as [Hab|[-> Hst]]; destruct Htu as [Hbc|[-> Htu]].
  - left. lia.
  - left. exact Hab.
  - left. exact Hbc.
  - right. split; [reflexivity|]. apply (IH t u); assumption.
Qed.

Lemma sorted_tail (x : string) (l : list string) :
  LocallySorted lex_le (x :: l) -> LocallySorted lex_le l.
Proof. intros Hs. inversion Hs; subst; [constructor|assumption]. Qed.

Lemma sorted_head_least (x : string) (l : list string) :
  LocallySorted lex_le (x :: l) -> forall y, In y l -> lex_le x y.
Proof.
  revert x. induction l as [|z l IH]; intros x Hs y Hy; [destruct Hy|].
  inversion Hs as [| |? ? ? Hl Hxz]; subst.
  destruct Hy as [<-|Hy]; [exact Hxz|].
  apply (lex_le_trans x z y Hxz). apply IH; assumption.
Qed.

(** A list has one lexicographically sorted arrangement only. *)
Lemma sorted_unique (l1 l2 : list string) :
  LocallySorted lex_le l1 -> LocallySorted lex_le l2 ->
  Permutation l1 l2 -> l1 = l2.
Proof.
  revert l2. induction l1 as [|x l1 IH]; intros l2 H1 H2 Hp.
  - apply Permutation_nil in Hp. congruence.
  - destruct l2 as [|y l2].
    { apply Permutation_sym, Permutation_nil in Hp. discriminate. }
    assert (Hxy : lex_le x y).
    { assert (Hin : In y (x :: l1))
        by (apply (Permutation_in _ (Permutation_sym Hp)); left; reflexivity).
      destruct Hin as [<-|Hin]; [apply lex_le_refl|].
      apply (sorted_head_least x l1 H1 y Hin). }
    assert (Hyx : lex_le y x).
    { assert (Hin : In x (y :: l2))
        by (apply (Permutation_in _ Hp); left; reflexivity).
      destruct Hin as [<-|Hin]; [apply lex_le_refl|].
      apply (sorted_head_least y l2 H2 x Hin). }
    assert (x = y) as <- by (apply String.leb_antisym; assumption).
    f_equal. apply IH.
    + apply (sorted_tail x). exact H1.
    + apply (sorted_tail x). exact H2.
    + apply (Permutation_cons_inv Hp).
Qed.

(** C5.  When the directory exists, the registry is the list of the names
    of its immediate subdirectories, sorted lexicographically: its labels
    are exactly the names of the entries that are directories (the files
    next to them are left out), each as often as it is listed; it is
    sorted; and it is the only sorted list of those names (so the folders
    normal, cataract, glaucoma, dr give cataract, dr, glaucoma, normal, in
    whatever order the file system lists them, also with files among
    them).  When the directory is absent, the registry is the fixed list of
    four labels. *)
Theorem class_names_sorted_subdirs_or_default :
  (forall es : list DirEntry,
      exists l,
        CLASS_NAMES (Directory es) = Ok l
        /\ LocallySorted lex_le l
        /\ (forall label,
               In label l <->
               exists e, In e es /\ is_dir e = true /\ name e = label)
        /\ Permutation (map name (filter (fun e => is_dir e) es)) l
        /\ (forall l', LocallySorted lex_le l' ->
                       Permutation (map name (filter (fun e => is_dir e) es)) l' ->
                       l' = l))
  /\ CLASS_NAMES (Directory [ {| name := "normal"; is_dir := true |};
                              {| name := "cataract"; is_dir := true |};
                              {| name := "glaucoma"; is_dir := true |};
                              {| name := "dr"; is_dir := true |} ])
     = Ok ["cataract"; "dr"; "glaucoma"; "normal"]
  /\ CLASS_NAMES (Directory [ {| name := "normal"; is_dir := true |};
                              {| name := "labels.csv"; is_dir := false |};
                              {| name := "cataract"; is_dir := true |};
                              {| name := "glaucoma"; is_dir := true |};
                              {| name := "README.md"; is_dir := false |};
                              {| name := "dr"; is_dir := true |} ])
     = Ok ["cataract"; "dr"; "glaucoma"; "normal"]
  /\ CLASS_NAMES Missing
     = Ok ["cataract"; "diabetic-retinopathy"; "glaucoma"; "normal"].
Proof.
  split; [|split; [|split]; reflexivity].
  intros es. exists (sorted (subdir_names es)).
  pose proof (sorted_is_permutation (subdir_names es)) as Hperm.
  split; [reflexivity|]. split; [apply sorted_is_sorted|]. split.
  { intros label. split.
    - intros Hin. apply (Permutation_in _ (Permutation_sym Hperm)) in Hin.
      unfold subdir_names in Hin. apply in_map_iff in Hin as (e & He & Hin).
      apply filter_In in Hin as (Hin & Hd). exists e. auto.
    - intros (e & Hin & Hd & He). apply (Permutation_in _ Hperm).
      unfold subdir_names. apply in_map_iff. exists e. split; [exact He|].
      apply filter_In. auto. }
  split; [exact Hperm|].
  intros l' Hs Hp. apply sorted_unique.
  - exact Hs.
  - apply sorted_is_sorted.
  - eapply perm_trans; [apply Permutation_sym; exact Hp|]. exact Hperm.
Qed.

(** Files next to the class folders are not labels. *)
Example class_names_skips_files :
  CLASS_NAMES (Directory [ {| name := "normal"; is_dir := true |};
                           {| name := "labels.csv"; is_dir := false |};
                           {| name := "dr"; is_dir := true |} ])
  = Ok ["dr"; "normal"].
Proof. reflexivity. Qed.

(** C4, as stated, fails: a directory that exists and holds no
    subdirectory gives the empty registry, and no exception. *)
Lemma class_names_empty_directory_no_error :
  CLASS_NAMES (Directory [ {| name := "README.md"; is_dir := false |} ]) = Ok []
  /\ ~ (exists e, CLASS_NAMES (Directory [ {| name := "README.md"; is_dir := false |} ])
                  = Raise e).
Proof.
  split; [reflexivity|]. intros [e He]. discriminate He.
Qed.

(** C4, amended.  Building the registry from an existing directory never
    raises; when the directory holds no subdirectory the registry is the
    empty list.  Only the absent directory falls back to the default list,
    which has four labels. *)
Theorem class_names_empty_when_no_subdirectory (es : list DirEntry) :
  forallb (fun e => negb (is_dir e)) es = true ->
  CLASS_NAMES (Directory es) = Ok []
  /\ CLASS_NAMES Missing = Ok DEFAULT_CLASS_NAMES
  /\ length DEFAULT_CLASS_NAMES = 4%nat.
Proof.
  intros Hfiles. split; [|split; reflexivity].
  unfold CLASS_NAMES, subdir_names. simpl.
  assert (filter is_dir es = []) as ->; [|reflexivity].
  induction es as [|e es IH]; [reflexivity|].
  simpl in *. apply andb_true_iff in Hfiles as [He Hes].
  destruct (is_dir e); [discriminate|]. auto.
Qed.

Lemma class_names_empty_when_no_subdirectory_witness :
  CLASS_NAMES (Directory [ {| name := "README.md"; is_dir := false |} ]) = Ok []
  /\ CLASS_NAMES Missing = Ok DEFAULT_CLASS_NAMES
  /\ length DEFAULT_CLASS_NAMES = 4%nat.
Proof.
  apply (class_names_empty_when_no_subdirectory
           [ {| name := "README.md"; is_dir := false |} ]).
  reflexivity.
Defined.

End RegistryFacts.

(** ** Shapes through the layers *)

Section ShapeFacts.

Context {F : Type} `{Scalar F} `{Torch F}.

Import Net.

Import Arch.

Lemma length_rows {A : Type} (f : Z -> list A) (n k : Z) :
  0 <= n -> 0 <= k ->
  (forall i, Z.of_nat (length (f i)) = k) ->
  Z.of_nat (length (flat_map f (zrange n))) = n * k.
Proof.
  intros Hn Hk Hf.
  rewrite (length_flat_map_const f (Z.to_nat k)).
  - rewrite length_zrange. lia.
  - intros a. specialize (Hf a). lia.
Qed.

Lemma length_row {A : Type} (f : Z -> A) (n : Z) :
  0 <= n -> Z.of_nat (length (map f (zrange n))) = n.
Proof. intros Hn. rewrite length_map, length_zrange. lia. Qed.

Lemma conv2d_shape (l : Conv2d F) (x : Tensor F) (B C Hi Wi Co KH KW : Z) :
  shape x = [B; C; Hi; Wi] ->
  shape (conv_weight l) = [Co; C; KH; KW] ->
  0 <= B -> 0 <= Co ->
  0 < window_out Hi KH (conv_stride l) (conv_padding l) ->
  0 < window_out Wi KW (conv_stride l) (conv_padding l) ->
  exists y, conv2d l x = Ok y
    /\ shape y = [B; Co; window_out Hi KH (conv_stride l) (conv_padding l);
                  window_out Wi KW (conv_stride l) (conv_padding l)]
    /\ full y.
Proof.
  intros Hx Hw HB HCo HH HW. unfold conv2d. rewrite Hx, Hw.
  rewrite Z.eqb_refl. simpl andb.
  destruct (Z.ltb_spec 0 (window_out Hi KH (conv_stride l) (conv_padding l))); [|lia].
  destruct (Z.ltb_spec 0 (window_out Wi KW (conv_stride l) (conv_padding l))); [|lia].
  simpl. eexists. split; [reflexivity|]. split; [reflexivity|].
  unfold full, numel. cbn [shape data fold_right].
  rewrite (length_rows _ B
             (Co * (window_out Hi KH (conv_stride l) (conv_padding l)
                    * window_out Wi KW (conv_stride l) (conv_padding l)))); try nia.
  intros n. rewrite (length_rows _ Co
             (window_out Hi KH (conv_stride l) (conv_padding l)
              * window_out Wi KW (conv_stride l) (conv_padding l))); try nia.
  intros o. rewrite (length_rows _ _
             (window_out Wi KW (conv_stride l) (conv_padding l))); try nia.
  intros i. apply length_row. lia.
Qed.

Lemma relu_shape (x : Tensor F) : shape (relu x) = shape x.
Proof. reflexivity. Qed.

Lemma relu_full (x : Tensor F) : full x -> full (relu x).
Proof. unfold full, relu. simpl. rewrite length_map. auto. Qed.

Lemma max_pool2d_shape (k s : Z) (x : Tensor F) (B C Hi Wi : Z) :
  shape x = [B; C; Hi; Wi] ->
  0 <= B -> 0 <= C ->
  0 < window_out Hi k s 0 -> 0 < window_out Wi k s 0 ->
  exists y, max_pool2d k s x = Ok y
    /\ shape y = [B; C; window_out Hi k s 0; window_out Wi k s 0]
    /\ full y.
Proof.
  intros Hx HB HC HH HW. unfold max_pool2d. rewrite Hx.
  destruct (Z.ltb_spec 0 (window_out Hi k s 0)); [|lia].
  destruct (Z.ltb_spec 0 (window_out Wi k s 0)); [|lia].
  simpl. eexists. split; [reflexivity|]. split; [reflexivity|].
  unfold full, numel. cbn [shape data fold_right].
  rewrite (length_rows _ B
             (C * (window_out Hi k s 0 * window_out Wi k s 0))); try nia.
  intros n. rewrite (length_rows _ C
             (window_out Hi k s 0 * window_out Wi k s 0)); try nia.
  intros c. rewrite (length_rows _ _ (window_out Wi k s 0)); try nia.
  intros i. apply length_row. lia.
Qed.

Lemma flatten1_shape (x : Tensor F) (B C Hi Wi : Z) :
  shape x = [B; C; Hi; Wi] ->
  exists y, flatten1 x = Ok y /\ shape y = [B; C * (Hi * Wi)] /\ data y = data x.
Proof.
  intros Hx. unfold flatten1. rewrite Hx. eexists. split; [reflexivity|].
  split; [|reflexivity]. simpl. f_equal. f_equal. lia.
Qed.

Lemma linear_shape (l : Linear F) (x : Tensor F) (B K Co : Z) :
  shape x = [B; K] ->
  shape (fc_weight l) = [Co; K] ->
  0 <= B -> 0 <= Co ->
  exists y, linear l x = Ok y /\ shape y = [B; Co] /\ full y.
Proof.
  intros Hx Hw HB HCo. unfold linear. rewrite Hx, Hw, Z.eqb_refl.
  eexists. split; [reflexivity|]. split; [reflexivity|].
  unfold full, numel. cbn [shape data fold_right].
  rewrite (length_rows _ B Co); try lia.
  intros n. apply length_row. lia.
Qed.

Lemma dropout_shape (b : bool) (x : Tensor F) (g : Generator) :
  shape (fst (dropout b x g)) = shape x.
Proof.
  unfold dropout. destruct b; [|reflexivity].
  destruct (bernoulli g (length (data x))). reflexivity.
Qed.

Lemma dropout_eval (x : Tensor F) (g : Generator) : dropout false x g = (x, g).
Proof. reflexivity. Qed.

End ShapeFacts.

(** ** [RetinaCNN.forward] *)

Section ForwardFacts.

Context {F : Type} `{Scalar F} `{Torch F}.

Import Net Arch.

Lemma arch_inv (m : RetinaCNN F) (N : Z) :
  arch m = arch (RetinaCNN_init N) ->
  (shape (conv_weight (conv1 m)) = [32; 3; 3; 3]
   /\ conv_stride (conv1 m) = 1 /\ conv_padding (conv1 m) = 1)
  /\ (shape (conv_weight (conv2 m)) = [64; 32; 3; 3]
      /\ conv_stride (conv2 m) = 1 /\ conv_padding (conv2 m) = 1)
  /\ (shape (conv_weight (conv3 m)) = [128; 64; 3; 3]
      /\ conv_stride (conv3 m) = 1 /\ conv_padding (conv3 m) = 1)
  /\ shape (fc_weight (fc1 m)) = [256; 100352]
  /\ shape (fc_weight (fc2 m)) = [N; 256].
Proof.
  unfold arch, sizes, strides, state_dict. cbn.
  intros Harch. inversion Harch. repeat split; assumption.
Qed.

Lemma features_shape (m : RetinaCNN F) (N B : Z) (x : Tensor F) :
  arch m = arch (RetinaCNN_init N) ->
  0 <= B ->
  shape x = [B; 3; 224; 224] ->
  exists h, features m x = Ok h /\ shape h = [B; 256].
Proof.
  intros Harch HB Hx.
  destruct (arch_inv m N Harch)
    as ((W1 & S1 & P1) & (W2 & S2 & P2) & (W3 & S3 & P3) & W4 & W5).
  unfold features.
  destruct (conv2d_shape (conv1 m) x B 3 224 224 32 3 3)
    as (x1 & E1 & Sh1 & _); auto; try lia;
    try (rewrite S1, P1; reflexivity).
  rewrite S1, P1 in Sh1. change (window_out 224 3 1 1) with 224 in Sh1.
  rewrite E1. cbn [bind].
  destruct (max_pool2d_shape 2 2 (relu x1) B 32 224 224)
    as (x2 & E2 & Sh2 & _); auto; try lia; try reflexivity.
  change (window_out 224 2 2 0) with 112 in Sh2.
  rewrite E2. cbn [bind].
  destruct (conv2d_shape (conv2 m) x2 B 32 112 112 64 3 3)
    as (x3 & E3 & Sh3 & _); auto; try lia;
    try (rewrite S2, P2; reflexivity).
  rewrite S2, P2 in Sh3. change (window_out 112 3 1 1) with 112 in Sh3.
  rewrite E3. cbn [bind].
  destruct (max_pool2d_shape 2 2 (relu x3) B 64 112 112)
    as (x4 & E4 & Sh4 & _); auto; try lia; try reflexivity.
  change (window_out 112 2 2 0) with 56 in Sh4.
  rewrite E4. cbn [bind].
  destruct (conv2d_shape (conv3 m) x4 B 64 56 56 128 3 3)
    as (x5 & E5 & Sh5 & _); auto; try lia;
    try (rewrite S3, P3; reflexivity).
  rewrite S3, P3 in Sh5. change (window_out 56 3 1 1) with 56 in Sh5.
  rewrite E5. cbn [bind].
  destruct (max_pool2d_shape 2 2 (relu x5) B 128 56 56)
    as (x6 & E6 & Sh6 & _); auto; try lia; try reflexivity.
  change (window_out 56 2 2 0) with 28 in Sh6.
  rewrite E6. cbn [bind].
  destruct (flatten1_shape x6 B 128 28 28 Sh6) as (x7 & E7 & Sh7 & _).
  change (128 * (28 * 28)) with 100352 in Sh7.
  rewrite E7. cbn [bind].
  destruct (linear_shape (fc1 m) x7 B 100352 256 Sh7 W4)
    as (x8 & E8 & Sh8 & _); try lia.
  rewrite E8. cbn [bind].
  exists (relu x8). split; [reflexivity|exact Sh8].
Qed.

Lemma forward_batch_shape (m : RetinaCNN F) (N B : Z) (x : Tensor F)
      (g : Generator) :
  arch m = arch (RetinaCNN_init N) ->
  0 <= N -> 0 <= B ->
  shape x = [B; 3; 224; 224] ->
  exists y g', forward m x g = (Ok y, g') /\ shape y = [B; N] /\ full y.
Proof.
  intros Harch HN HB Hx.
  destruct (features_shape m N B x Harch HB Hx) as (h & Eh & Sh).
  destruct (arch_inv m N Harch) as (_ & _ & _ & _ & W5).
  unfold forward. rewrite Eh.
  pose proof (dropout_shape (training m) h g) as Hd.
  destruct (dropout (training m) h g) as [h' g']. simpl in Hd.
  rewrite Sh in Hd.
  destruct (linear_shape (fc2 m) h' B 256 N Hd W5) as (y & Ey & Sy & Fy); try lia.
  exists y, g'. rewrite Ey. auto.
Qed.

(** C6.  For every 3 x 224 x 224 input tensor, whatever its entries, and
    every module with the architecture of [RetinaCNN(N)] (three
    convolution / ReLU / max-pool blocks 3 -> 32 -> 64 -> 128, flatten to
    128 x 28 x 28 = 100352, linear to 256 with ReLU and dropout, linear to
    [N]), in training or in evaluation mode, [forward] on the batch of that
    one image returns a 1 x [N] tensor: a logits vector of exactly [N]
    entries. *)
Theorem forward_logits_length (m : RetinaCNN F) (N : Z) (x : Tensor F)
        (g : Generator) :
  arch m = arch (RetinaCNN_init N) ->
  0 <= N ->
  shape x = [3; 224; 224] ->
  exists y g', forward m (unsqueeze0 x) g = (Ok y, g')
    /\ shape y = [1; N]
    /\ Z.of_nat (length (data y)) = N
    /\ 128 * 28 * 28 = 100352.
Proof.
  intros Harch HN Hx.
  destruct (forward_batch_shape m N 1 (unsqueeze0 x) g Harch HN) as (y & g' & E & S & Fy).
  - lia.
  - unfold unsqueeze0. simpl. rewrite Hx. reflexivity.
  - exists y, g'. repeat split; auto.
    unfold full, numel in Fy. rewrite S in Fy. cbn [fold_right] in Fy. lia.
Qed.

End ForwardFacts.

(** ** Loading a checkpoint *)

Section LoadFacts.

Context {F : Type} `{Scalar F} `{Torch F} `{Vision F}.

Import Net Arch.

Lemma shape_eqb_true (s1 s2 : list Z) : shape_eqb s1 s2 = true <-> s1 = s2.
Proof.
  unfold shape_eqb. destruct (list_eq_dec Z.eq_dec s1 s2); split; auto; discriminate.
Qed.

(** A parameter is loaded only from a stored tensor of its own size, and
    is then that tensor, entry for entry. *)
Lemma load_param_ok (sd : StateDict F) (key : string) (p t : Tensor F) :
  load_param sd key p = Ok t -> get key sd = Some t /\ shape t = shape p.
Proof.
  unfold load_param. destruct (get key sd) as [t0|]; [|discriminate].
  destruct (shape_eqb (shape t0) (shape p)) eqn:E; [|discriminate].
  apply shape_eqb_true in E. intros [= <-]. split; [|reflexivity].
  destruct t0 as [s d]. simpl in *. subst s. reflexivity.
Qed.

Lemma load_param_raises (sd : StateDict F) (key : string) (p : Tensor F) (e : PyExc) :
  load_param sd key p = Raise e -> e = RuntimeError.
Proof.
  unfold load_param. destruct (get key sd) as [t0|]; [|congruence].
  destruct (shape_eqb (shape t0) (shape p)); congruence.
Qed.

Lemma load_param_mismatch (sd : StateDict F) (key : string) (p t : Tensor F) :
  get key sd = Some t -> shape t <> shape p ->
  load_param sd key p = Raise RuntimeError.
Proof.
  intros Hget Hne. unfold load_param. rewrite Hget.
  destruct (shape_eqb (shape t) (shape p)) eqn:E; [|reflexivity].
  apply shape_eqb_true in E. contradiction.
Qed.

Ltac load_step :=
  match goal with
  | |- context [load_param ?sd ?k ?p] =>
      let E := fresh "E" in
      destruct (load_param sd k p) eqn:E; cbn [bind];
      [apply load_param_ok in E; destruct E | try discriminate]
  end.

(** What a successful [load_state_dict] leaves in the module. *)
Lemma load_state_dict_ok (m m' : RetinaCNN F) (sd : StateDict F) :
  load_state_dict m sd = Ok m' ->
  (forall key p', In (key, p') (state_dict m') -> get key sd = Some p')
  /\ arch m' = arch m
  /\ training m' = training m.
Proof.
  unfold load_state_dict.
  destruct (forallb (fun kv => known_key m (fst kv)) sd); [|discriminate].
  unfold load_conv, load_linear. cbn [append].
  repeat load_step.
  intros [= <-]. split; [|split].
  - intros key p' Hin. cbn in Hin.
    repeat (destruct Hin as [[= <- <-]|Hin]; [assumption|]). destruct Hin.
  - unfold arch, sizes, strides. cbn.
    repeat match goal with
    | Hs : shape _ = shape _ |- _ => rewrite Hs; clear Hs
    end.
    reflexivity.
  - reflexivity.
Qed.

Lemma load_state_dict_raises (m : RetinaCNN F) (sd : StateDict F) (e : PyExc) :
  load_state_dict m sd = Raise e -> e = RuntimeError.
Proof.
  unfold load_state_dict.
  destruct (forallb (fun kv => known_key m (fst kv)) sd); [|congruence].
  unfold load_conv, load_linear. cbn [append].
  repeat match goal with
  | |- context [load_param ?sd ?k ?p] =>
      let E := fresh "E" in
      destruct (load_param sd k p) eqn:E; cbn [bind];
      [|apply load_param_raises in E; congruence]
  end.
  discriminate.
Qed.

(** The start-up of main.py (and of app.py) once the registry is built and
    the checkpoint file is read. *)
Lemma startup_unfold (fs : Main.FileSystem) (names : list string) (sd : StateDict F) :
  Registry.CLASS_NAMES (Main.DATASET_DIR fs) = Ok names ->
  Main.MODEL_PATH fs = Some sd ->
  Main.startup fs =
    (m <- load_state_dict (RetinaCNN_init (Py.len names)) sd ;;
     Ok {| Main.CLASS_NAMES := names; Main.model := eval m |}).
Proof.
  intros Hn Hp. unfold Main.startup. rewrite Hn, Hp. reflexivity.
Qed.

Lemma startup_ok (fs : Main.FileSystem) (names : list string) (sd : StateDict F)
      (svc : Main.Service) :
  Registry.CLASS_NAMES (Main.DATASET_DIR fs) = Ok names ->
  Main.MODEL_PATH fs = Some sd ->
  Main.startup fs = Ok svc ->
  Main.CLASS_NAMES svc = names
  /\ (forall key p, In (key, p) (state_dict (Main.model svc)) -> get key sd = Some p)
  /\ arch (Main.model svc) = arch (RetinaCNN_init (Py.len names))
  /\ training (Main.model svc) = false.
Proof.
  intros Hn Hp. rewrite (startup_unfold fs names sd Hn Hp).
  destruct (load_state_dict (RetinaCNN_init (Py.len names)) sd) as [m|e] eqn:E;
    [|discriminate].
  cbn [bind]. intros [= <-]. cbn.
  destruct (load_state_dict_ok _ _ _ E) as (Hcopy & Harch & _).
  repeat split; auto.
Qed.

Lemma startup_load_failure (fs : Main.FileSystem) (names : list string)
      (sd : StateDict F) :
  Registry.CLASS_NAMES (Main.DATASET_DIR fs) = Ok names ->
  Main.MODEL_PATH fs = Some sd ->
  (forall svc, Main.startup fs <> Ok svc) ->
  Main.startup fs = Raise RuntimeError.
Proof.
  intros Hn Hp Hno. rewrite (startup_unfold fs names sd Hn Hp) in *.
  destruct (load_state_dict (RetinaCNN_init (Py.len names)) sd) as [m|e] eqn:E.
  - exfalso. eapply Hno. reflexivity.
  - apply load_state_dict_raises in E. subst e. reflexivity.
Qed.

Lemma get_in (sd : StateDict F) (key : string) (t : Tensor F) :
  get key sd = Some t -> In (key, t) sd.
Proof.
  induction sd as [|[k t0] sd IH]; simpl; [discriminate|].
  destruct (String.eqb_spec k key) as [->|_].
  - intros [= ->]. left. reflexivity.
  - intros Hget. right. apply IH. exact Hget.
Qed.

Lemma expected_shape_in (N : Z) (key : string) (s : list Z) :
  expected_shape N key = Some s ->
  In (key, s) (sizes (RetinaCNN_init N)).
Proof.
  unfold expected_shape, sizes.
  destruct (get key (state_dict (RetinaCNN_init N))) as [t|] eqn:E; [|discriminate].
  intros [= <-]. apply get_in in E.
  apply (in_map (fun kv => (fst kv, shape (snd kv)))) in E. exact E.
Qed.

Lemma sizes_get (m : RetinaCNN F) (key : string) (s : list Z) :
  In (key, s) (sizes m) ->
  exists p, In (key, p) (state_dict m) /\ shape p = s.
Proof.
  unfold sizes. rewrite in_map_iff. intros ([k p] & [= <- <-] & Hin).
  exists p. auto.
Qed.

(** C7.  At start-up, with the registry built and the checkpoint file
    read: a checkpoint holding, under some parameter key, a tensor whose
    size is not the one [RetinaCNN(N)] gives to that parameter makes the
    start-up end in [RuntimeError], so that no service exists; this is in
    particular so when the stored final-layer weight has an output width
    other than [N], the registry length.  When the start-up succeeds,
    every parameter of the served module is the stored tensor itself, with
    its size and all its entries: nothing is truncated or reshaped.
    app.py starts up in the same way. *)
Theorem checkpoint_shape_mismatch_is_fatal
        (fs : Main.FileSystem) (names : list string) (sd : StateDict F) :
  Registry.CLASS_NAMES (Main.DATASET_DIR fs) = Ok names ->
  Main.MODEL_PATH fs = Some sd ->
  (forall key t s,
      get key sd = Some t ->
      expected_shape (Py.len names) key = Some s ->
      shape t <> s ->
      Main.startup fs = Raise RuntimeError)
  /\ (forall t width,
         get "fc2.weight" sd = Some t ->
         shape t = [width; 256] ->
         width <> Py.len names ->
         Main.startup fs = Raise RuntimeError)
  /\ (forall svc,
         Main.startup fs = Ok svc ->
         forall key p, In (key, p) (state_dict (Main.model svc)) ->
                       get key sd = Some p)
  /\ App.startup fs = Main.startup fs.
Proof.
  intros Hn Hp.
  assert (Hfatal : forall key t s,
             get key sd = Some t ->
             expected_shape (Py.len names) key = Some s ->
             shape t <> s ->
             Main.startup fs = Raise RuntimeError).
  { intros key t s Hget Hexp Hne.
    apply (startup_load_failure fs names sd Hn Hp).
    intros svc Hok.
    destruct (startup_ok fs names sd svc Hn Hp Hok) as (_ & Hcopy & Harch & _).
    apply expected_shape_in in Hexp.
    assert (Hs : sizes (Main.model svc) = sizes (RetinaCNN_init (Py.len names)))
      by (unfold arch in Harch; congruence).
    rewrite <- Hs in Hexp.
    destruct (sizes_get _ _ _ Hexp) as (p & Hin & Hshape).
    apply Hcopy in Hin. congruence. }
  split; [exact Hfatal|]. split; [|split].
  - intros t width Hget Hshape Hwidth.
    apply (Hfatal "fc2.weight" t [Py.len names; 256] Hget); [reflexivity|].
    rewrite Hshape. congruence.
  - intros svc Hok.
    apply (startup_ok fs names sd svc Hn Hp Hok).
  - reflexivity.
Qed.

End LoadFacts.

(** ** Python lists, [argmax] *)

Section PyFacts.

Import TopkContract.

Lemma len_app {A : Type} (l1 l2 : list A) : Py.len (l1 ++ l2) = Py.len l1 + Py.len l2.
Proof. unfold Py.len. rewrite length_app. lia. Qed.

Lemma len_nonneg {A : Type} (l : list A) : 0 <= Py.len l.
Proof. unfold Py.len. lia. Qed.

Lemma getitem_in_range {A : Type} (l : list A) (i : Z) (d : A) :
  0 <= i < Py.len l -> Py.getitem l i = Ok (nth (Z.to_nat i) l d).
Proof.
  intros Hi. unfold Py.getitem. fold (Py.len l).
  destruct (Z.ltb_spec i 0); [lia|].
  destruct (Z.leb_spec 0 i); [|lia].
  destruct (Z.ltb_spec i (Py.len l)); [|lia]. simpl.
  destruct (nth_error l (Z.to_nat i)) as [a|] eqn:E.
  - apply (nth_error_nth _ _ d) in E. rewrite E. reflexivity.
  - apply nth_error_None in E. unfold Py.len in Hi. lia.
Qed.

Lemma prob_at_middle (pre rest : list Q) (x : Q) :
  prob_at (pre ++ x :: rest) (Py.len pre) = x.
Proof.
  unfold prob_at, Py.len. rewrite Nat2Z.id. apply nth_middle.
Qed.

Lemma argmax_from_first_max (rest pre : list Q) (best : Q) (besti : Z) :
  0 <= besti < Py.len pre ->
  best = prob_at (pre ++ rest) besti ->
  (forall j, 0 <= j < Py.len pre -> (prob_at (pre ++ rest) j <= best)%Q) ->
  (forall j, 0 <= j < besti -> (prob_at (pre ++ rest) j < best)%Q) ->
  is_first_max (pre ++ rest) (Py.argmax_from best besti (Py.len pre) rest).
Proof.
  revert pre best besti.
  induction rest as [|x rest IH]; intros pre best besti Hi Hbest Hle Hlt.
  - simpl. rewrite app_nil_r in *. subst best. repeat split; auto; lia.
  - simpl.
    assert (Hx : prob_at (pre ++ x :: rest) (Py.len pre) = x)
      by apply prob_at_middle.
    assert (Hlen : Py.len (pre ++ [x]) = Py.len pre + 1)
      by (rewrite len_app; reflexivity).
    replace (pre ++ x :: rest)%list with ((pre ++ [x]) ++ rest)%list in *
      by (rewrite <- app_assoc; reflexivity).
    rewrite <- Hlen.
    destruct (Qle_bool x best) eqn:E.
    + apply Qle_bool_iff in E.
      apply IH; auto; [lia|].
      intros j Hj.
      destruct (Z.eq_dec j (Py.len pre)) as [->|Hne]; [rewrite Hx; exact E|].
      apply Hle. lia.
    + assert (Hbx : (best < x)%Q).
      { apply Qnot_le_lt. intros Hc. apply Qle_bool_iff in Hc. congruence. }
      apply IH; auto; [lia| |].
      * intros j Hj.
        destruct (Z.eq_dec j (Py.len pre)) as [->|Hne]; [rewrite Hx; apply Qle_refl|].
        apply Qlt_le_weak. eapply Qle_lt_trans; [apply Hle; lia|exact Hbx].
      * intros j Hj. eapply Qle_lt_trans; [apply Hle; lia|exact Hbx].
Qed.

(** [argmax] of a non-empty row is the position of its first maximum. *)
Lemma argmax_first_max (l : list Q) :
  l <> [] -> exists r, Py.argmax l = Ok r /\ is_first_max l r.
Proof.
  destruct l as [|x rest]; [congruence|]. intros _.
  exists (Py.argmax_from x 0 1 rest). split; [reflexivity|].
  apply (argmax_from_first_max rest [x] x 0).
  - unfold Py.len. simpl. lia.
  - reflexivity.
  - intros j Hj. unfold Py.len in Hj. simpl in Hj.
    assert (j = 0) as -> by lia. apply Qle_refl.
  - intros j Hj. lia.
Qed.

Lemma Qsame_eq (x y : Q) : Qsame x y = true -> x = y.
Proof.
  destruct x as [nx dx], y as [ny dy]. unfold Qsame. simpl.
  intros Hs. apply andb_true_iff in Hs as [Hn Hd].
  apply Z.eqb_eq in Hn. apply Pos.eqb_eq in Hd. congruence.
Qed.

Lemma Qltb_lt (x y : Q) : Main.Qltb x y = true <-> (x < y)%Q.
Proof.
  unfold Main.Qltb. rewrite negb_true_iff. split.
  - intros Hb. apply Qnot_le_lt. intros Hc. apply Qle_bool_iff in Hc. congruence.
  - intros Hlt. destruct (Qle_bool y x) eqn:E; [|reflexivity].
    apply Qle_bool_iff in E. exfalso. exact (Qlt_not_le _ _ Hlt E).
Qed.

Lemma Qltb_ge (x y : Q) : Main.Qltb x y = false <-> (y <= x)%Q.
Proof.
  unfold Main.Qltb. rewrite negb_false_iff. apply Qle_bool_iff.
Qed.

End PyFacts.

(** ** What a [torch.topk] result that meets its contract provides *)

Section TopkFacts.

Import TopkContract.

Lemma combine_same_map (probs : list Q) (vals : list Q) (idxs : list Z) :
  length vals = length idxs ->
  forallb (fun vi : Q * Z => Qsame (fst vi) (prob_at probs (snd vi)))
          (combine vals idxs) = true ->
  vals = map (prob_at probs) idxs.
Proof.
  revert idxs. induction vals as [|v vals IH]; intros [|i idxs]; simpl;
    try discriminate; [reflexivity|].
  intros [= Hlen] Hall. apply andb_true_iff in Hall as [Hv Hrest].
  apply Qsame_eq in Hv. f_equal; auto.
Qed.

Lemma nonincreasing_head (x : Q) (l : list Q) :
  nonincreasing (x :: l) = true -> Forall (fun v => (v <= x)%Q) l.
Proof.
  revert x. induction l as [|y l IH]; intros x Hs; [constructor|].
  simpl in Hs. apply andb_true_iff in Hs as [Hyx Hrest].
  apply Qle_bool_iff in Hyx. constructor; [exact Hyx|].
  specialize (IH y Hrest).
  eapply Forall_impl; [|exact IH]. intros v Hv. simpl in Hv.
  eapply Qle_trans; eassumption.
Qed.

Lemma distinct_NoDup (l : list Z) : distinct l = true -> NoDup l.
Proof.
  induction l as [|i l IH]; simpl; [constructor|].
  intros Hd. apply andb_true_iff in Hd as [Hi Hl]. constructor; auto.
  intros Hin. apply negb_true_iff in Hi.
  assert (existsb (Z.eqb i) l = true); [|congruence].
  apply existsb_exists. exists i. split; [exact Hin|apply Z.eqb_refl].
Qed.

Lemma holds_props (probs : list Q) (k : Z) (vals : list Q) (idxs : list Z) :
  holds probs k (vals, idxs) = true ->
  Py.len idxs = k
  /\ Forall (fun i => 0 <= i < Py.len probs) idxs
  /\ NoDup idxs
  /\ vals = map (prob_at probs) idxs
  /\ nonincreasing (map (prob_at probs) idxs) = true
  /\ (forall i, 0 <= i < Py.len probs ->
                In i idxs
                \/ Forall (fun j => (prob_at probs i <= prob_at probs j)%Q) idxs).
Proof.
  unfold holds. rewrite !andb_true_iff.
  intros ((((((Hk & Hkv) & Hrange) & Hdist) & Hvals) & Hsorted) & Hcover).
  apply Z.eqb_eq in Hk. apply Z.eqb_eq in Hkv.
  assert (Hv : vals = map (prob_at probs) idxs).
  { apply combine_same_map; [|exact Hvals]. unfold Py.len in *. lia. }
  subst vals. repeat split; auto.
  - apply Forall_forall. intros i Hi.
    rewrite forallb_forall in Hrange. specialize (Hrange i Hi). lia.
  - apply distinct_NoDup. exact Hdist.
  - intros i Hi. rewrite forallb_forall in Hcover.
    specialize (Hcover i (proj2 (in_zrange _ _) Hi)).
    apply orb_true_iff in Hcover as [Hin|Hall].
    + left. apply existsb_exists in Hin as (j & Hj & E).
      apply Z.eqb_eq in E. subst j. exact Hj.
    + right. rewrite forallb_forall in Hall.
      apply Forall_forall. intros j Hj. apply Qle_bool_iff.
      apply Hall. apply in_map. exact Hj.
Qed.

(** The first position returned holds a maximal entry; it is the arg-max
    position itself when the maximum is attained once. *)
Lemma topk_head_is_max (probs : list Q) (k : Z) (vals : list Q)
      (i0 : Z) (idxs : list Z) (a : Z) :
  holds probs k (vals, i0 :: idxs) = true ->
  is_first_max probs a ->
  (prob_at probs i0 == prob_at probs a)%Q
  /\ ((forall j, 0 <= j < Py.len probs -> j <> a ->
                 (prob_at probs j < prob_at probs a)%Q) -> i0 = a).
Proof.
  intros Hholds (Ha & Hmax & _).
  destruct (holds_props _ _ _ _ Hholds) as (_ & Hrange & _ & _ & Hsorted & Hcover).
  assert (Hi0 : 0 <= i0 < Py.len probs) by (inversion Hrange; assumption).
  assert (Hle : (prob_at probs a <= prob_at probs i0)%Q).
  { destruct (Hcover a Ha) as [Hin|Hall].
    - destruct Hin as [->|Hin]; [apply Qle_refl|].
      simpl map in Hsorted. apply nonincreasing_head in Hsorted.
      rewrite Forall_forall in Hsorted. apply Hsorted. apply in_map. exact Hin.
    - inversion Hall; assumption. }
  split.
  - apply Qle_antisym; [apply Hmax; exact Hi0|exact Hle].
  - intros Huniq. destruct (Z.eq_dec i0 a) as [E|Hne]; [exact E|].
    exfalso. apply (Qlt_not_le _ _ (Huniq i0 Hi0 Hne)). exact Hle.
Qed.

End TopkFacts.

(** ** The response of main.py *)

Section RespondFacts.

Context {F : Type} `{Torch F}.

Import TopkContract.

Lemma top_entries_ok (names : list string) (probs : list Q) (idxs : list Z)
      (pre : list Q) :
  Py.len probs = Py.len names ->
  Forall (fun i => 0 <= i < Py.len probs) idxs ->
  Main.top_entries names (pre ++ map (prob_at probs) idxs) (Py.len pre) idxs
  = Ok (map (top_entry names probs) idxs).
Proof.
  intros Hlen. revert pre.
  induction idxs as [|i idxs IH]; intros pre Hrange; [reflexivity|].
  inversion Hrange as [|? ? Hi Hrest]; subst.
  cbn [Main.top_entries map].
  rewrite (getitem_in_range names i "") by lia. cbn [bind].
  rewrite (getitem_in_range _ (Py.len pre) 0%Q).
  2:{ rewrite len_app. unfold Py.len. simpl length. lia. }
  cbn [bind].
  change (nth (Z.to_nat (Py.len pre))
              (pre ++ prob_at probs i :: map (prob_at probs) idxs) 0%Q)
    with (prob_at (pre ++ prob_at probs i :: map (prob_at probs) idxs) (Py.len pre)).
  rewrite prob_at_middle.
  replace (pre ++ prob_at probs i :: map (prob_at probs) idxs)%list
    with ((pre ++ [prob_at probs i]) ++ map (prob_at probs) idxs)%list
    by (rewrite <- app_assoc; reflexivity).
  replace (Py.len pre + 1) with (Py.len (pre ++ [prob_at probs i]))
    by (rewrite len_app; reflexivity).
  rewrite (IH _ Hrest). reflexivity.
Qed.

(** The response to a non-empty row of as many probabilities as there are
    class names, when [torch.topk] meets its contract on that row. *)
Lemma respond_ok (names : list string) (fname now : string) (probs : list Q) :
  probs <> [] ->
  Py.len probs = Py.len names ->
  holds probs (Z.min 3 (Py.len names)) (topk probs (Z.min 3 (Py.len names))) = true ->
  exists a,
    Py.argmax probs = Ok a
    /\ is_first_max probs a
    /\ Main.respond names fname now probs =
       Ok (Py.JDict
             [ ("filename", Py.JStr fname);
               ("prediction",
                Py.JStr (if Main.Qltb (prob_at probs a) Main.confidence_threshold
                         then "uncertain"
                         else nth (Z.to_nat a) names ""));
               ("confidence", Py.JNum (Py.round (prob_at probs a) 4));
               ("top_predictions",
                Py.JList (map (top_entry names probs)
                              (snd (topk probs (Z.min 3 (Py.len names))))));
               ("message",
                Py.JStr (if Main.Qltb (prob_at probs a) Main.confidence_threshold
                         then Main.UNCERTAIN_MESSAGE
                         else Main.detected_message (nth (Z.to_nat a) names "")
                                                    (prob_at probs a)));
               ("timestamp", Py.JStr now) ]).
Proof.
  intros Hne Hlen Hholds.
  destruct (argmax_first_max probs Hne) as (a & Ha & Hmax).
  exists a. split; [exact Ha|]. split; [exact Hmax|].
  destruct Hmax as (Hrange & _).
  unfold Main.respond. rewrite Ha. cbn [bind].
  rewrite (getitem_in_range probs a 0%Q) by exact Hrange. cbn [bind].
  rewrite (getitem_in_range names a "") by lia. cbn [bind].
  unfold Main.torch_topk.
  destruct (Z.leb_spec 0 (Z.min 3 (Py.len names))); [|pose proof (len_nonneg names); lia].
  destruct (Z.leb_spec (Z.min 3 (Py.len names)) (Py.len probs)); [|lia].
  cbn [andb bind].
  destruct (topk probs (Z.min 3 (Py.len names))) as [vals idxs].
  destruct (holds_props _ _ _ _ Hholds) as (_ & Hin & _ & -> & _).
  cbn [fst snd].
  pose proof (top_entries_ok names probs idxs [] Hlen Hin) as Htop.
  change ([] ++ map (prob_at probs) idxs)%list with (map (prob_at probs) idxs) in Htop.
  change (Py.len (@nil Q)) with 0 in Htop.
  rewrite Htop. cbn [bind].
  fold (prob_at probs a).
  destruct (Main.Qltb (prob_at probs a) Main.confidence_threshold); reflexivity.
Qed.

Lemma getitem_In {A : Type} (l : list A) (i : Z) (x : A) :
  Py.getitem l i = Ok x -> In x l.
Proof.
  unfold Py.getitem.
  destruct ((0 <=? (if i <? 0 then i + Z.of_nat (length l) else i))
            && ((if i <? 0 then i + Z.of_nat (length l) else i)
                <? Z.of_nat (length l))); [|discriminate].
  destruct (nth_error l (Z.to_nat (if i <? 0 then i + Z.of_nat (length l) else i)))
    as [a|] eqn:E; [|discriminate].
  intros [= <-]. exact (nth_error_In _ _ E).
Qed.

(** Every entry of [top_predictions] names a class of the registry. *)
Lemma top_entries_inv (names : list string) (vals : list Q) (idxs : list Z) :
  forall (j : Z) (tops : list Py.json),
    Main.top_entries names vals j idxs = Ok tops ->
    length tops = length idxs
    /\ Forall (fun t => exists c, Py.lookup "class" t = Some (Py.JStr c)
                                  /\ In c names) tops.
Proof.
  induction idxs as [|i idxs IH]; intros j tops.
  - intros [= <-]. split; [reflexivity|constructor].
  - cbn [Main.top_entries].
    destruct (Py.getitem names i) as [cls|] eqn:Ec; [|discriminate]. cbn [bind].
    destruct (Py.getitem vals j) as [conf|]; [|discriminate]. cbn [bind].
    destruct (Main.top_entries names vals (j + 1) idxs) as [tl|] eqn:Et;
      [|discriminate].
    cbn [bind]. intros [= <-].
    destruct (IH (j + 1) tl Et) as (Hlen & Hall).
    split; [simpl; rewrite Hlen; reflexivity|].
    constructor; [|exact Hall].
    exists cls. split; [reflexivity|]. exact (getitem_In _ _ _ Ec).
Qed.

(** A body of main.py, taken apart. *)
Lemma respond_inv (names : list string) (fname now : string) (probs : list Q)
      (body : Py.json) :
  Main.respond names fname now probs = Ok body ->
  exists a p label tops,
    Py.argmax probs = Ok a
    /\ Py.getitem probs a = Ok p
    /\ Py.getitem names a = Ok label
    /\ body = Py.JDict
                [ ("filename", Py.JStr fname);
                  ("prediction",
                   Py.JStr (if Main.Qltb p Main.confidence_threshold
                            then "uncertain" else label));
                  ("confidence", Py.JNum (Py.round p 4));
                  ("top_predictions", Py.JList tops);
                  ("message",
                   Py.JStr (if Main.Qltb p Main.confidence_threshold
                            then Main.UNCERTAIN_MESSAGE
                            else Main.detected_message label p));
                  ("timestamp", Py.JStr now) ].
Proof.
  unfold Main.respond.
  destruct (Py.argmax probs) as [a|] eqn:Ea; [|discriminate]. cbn [bind].
  destruct (Py.getitem probs a) as [p|] eqn:Ep; [|discriminate]. cbn [bind].
  destruct (Py.getitem names a) as [label|] eqn:El; [|discriminate]. cbn [bind].
  destruct (Main.torch_topk probs (Z.min 3 (Py.len names))) as [tk|]; [|discriminate].
  cbn [bind].
  destruct (Main.top_entries names (fst tk) 0 (snd tk)) as [tops|]; [|discriminate].
  cbn [bind]. intros [= <-]. exists a, p, label, tops.
  split; [reflexivity|]. split; [exact Ep|]. split; [exact El|].
  destruct (Main.Qltb p Main.confidence_threshold); reflexivity.
Qed.

(** The [top_predictions] of a body are the entries built from what
    [torch.topk] returned. *)
Lemma respond_tops (names : list string) (fname now : string) (probs : list Q)
      (body : Py.json) :
  Main.respond names fname now probs = Ok body ->
  exists tops,
    Py.lookup "top_predictions" body = Some (Py.JList tops)
    /\ 0 <= Z.min 3 (Py.len names) <= Py.len probs
    /\ Main.top_entries names (fst (topk probs (Z.min 3 (Py.len names)))) 0
                        (snd (topk probs (Z.min 3 (Py.len names))))
       = Ok tops.
Proof.
  unfold Main.respond.
  destruct (Py.argmax probs) as [a|]; [|discriminate]. cbn [bind].
  destruct (Py.getitem probs a) as [p|]; [|discriminate]. cbn [bind].
  destruct (Py.getitem names a) as [label|]; [|discriminate]. cbn [bind].
  unfold Main.torch_topk.
  destruct (Z.leb_spec 0 (Z.min 3 (Py.len names))) as [H0|]; [|discriminate].
  destruct (Z.leb_spec (Z.min 3 (Py.len names)) (Py.len probs)) as [H1|];
    [|discriminate].
  cbn [andb bind].
  destruct (Main.top_entries names (fst (topk probs (Z.min 3 (Py.len names)))) 0
                             (snd (topk probs (Z.min 3 (Py.len names)))))
    as [tops|] eqn:Et; [|discriminate].
  cbn [bind]. intros [= <-]. exists tops. split; [reflexivity|].
  split; [lia|reflexivity].
Qed.

End RespondFacts.

(** ** The threshold [0.65] on float32 probabilities *)

Section ThresholdFacts.

(** The float that [0.65] denotes lies above the decimal 0.65, by less
    than 2^-55. *)
Lemma threshold_above_decimal :
  (65 # 100 < Main.confidence_threshold)%Q
  /\ (Main.confidence_threshold - (65 # 100) < 1 # 36028797018963968)%Q.
Proof. split; reflexivity. Qed.

(** The constant is the literal [0.65] read as a float. *)
Lemma confidence_threshold_is_literal :
  (Main.confidence_threshold == Py.fl64 0.65)%Q.
Proof. reflexivity. Qed.

Lemma no_float32_between (N D m e : Z) :
  0 < D ->
  Z.abs m < 2 ^ 24 ->
  e < 0 ->
  N * 2 ^ (- e) = m * D ->
  65 * D <= N * 100 ->
  N * 9007199254740992 < 5854679515581645 * D ->
  False.
Proof.
  intros HD Hm He Heq Hlo Hhi.
  assert (HE : 0 < 2 ^ (- e)) by (apply Z.pow_pos_nonneg; lia).
  destruct (Z.le_gt_cases (- e) 24) as [Hsmall|Hbig].
  - assert (H24 : 2 ^ 24 = 2 ^ (- e) * 2 ^ (24 + e)).
    { rewrite <- Z.pow_add_r by lia. f_equal. lia. }
    assert (HS : 0 < 2 ^ (24 + e)) by (apply Z.pow_pos_nonneg; lia).
    set (n := m * 2 ^ (24 + e)).
    assert (Hn : N * 2 ^ 24 = n * D).
    { rewrite H24. unfold n.
      transitivity ((N * 2 ^ (- e)) * 2 ^ (24 + e)); [ring|].
      rewrite Heq. ring. }
    change (2 ^ 24) with 16777216 in Hn.
    assert (H1 : 65 * 16777216 <= 100 * n).
    { apply (Z.mul_le_mono_pos_r _ _ D HD).
      replace (100 * n * D) with (100 * (n * D)) by ring.
      rewrite <- Hn. nia. }
    assert (H2 : n * 536870912 < 5854679515581645).
    { apply (Z.mul_lt_mono_pos_r D _ _ HD).
      replace (n * 536870912 * D) with ((n * D) * 536870912) by ring.
      rewrite <- Hn. nia. }
    lia.
  - assert (H25 : 2 ^ 25 <= 2 ^ (- e)) by (apply Z.pow_le_mono_r; lia).
    change (2 ^ 25) with 33554432 in H25.
    change (2 ^ 24) with 16777216 in Hm.
    assert (HN : 0 < N) by nia.
    assert (H3 : N * 33554432 <= N * 2 ^ (- e)) by nia.
    assert (H4 : m * D < 16777216 * D) by (apply Z.mul_lt_mono_pos_r; lia).
    nia.
Qed.

(** On the values a float32 can take, comparing with the float [0.65] is
    comparing with the decimal 0.65: no float32 lies between the two. *)
Lemma threshold_on_float32 (q : Q) :
  is_float32 q ->
  ((q < Main.confidence_threshold)%Q <-> (q < 65 # 100)%Q).
Proof.
  intros (m & e & Hm & He & Hq). split.
  2:{ intros Hlt. eapply Qlt_trans; [exact Hlt|reflexivity]. }
  intros Hthr. apply Qnot_le_lt. intros Hge.
  destruct q as [N D].
  unfold Qlt, Main.confidence_threshold in Hthr. simpl in Hthr.
  unfold Qle in Hge. simpl in Hge.
  unfold f32_value, Qeq in Hq.
  destruct (Z.leb_spec 0 e) as [Hpos|Hneg]; simpl in Hq.
  - assert (Hk : 0 <= 2 ^ e) by (apply Z.pow_nonneg; lia).
    assert (HN : N = (m * 2 ^ e) * Zpos D) by lia.
    set (k := m * 2 ^ e) in *.
    assert (1 <= k) by nia.
    assert (Zpos D * 9007199254740992 <= k * Zpos D * 9007199254740992) by nia.
    lia.
  - rewrite Z2Pos.id in Hq by (apply Z.pow_pos_nonneg; lia).
    apply (no_float32_between N (Zpos D) m e); auto; lia.
Qed.

End ThresholdFacts.

(** ** The percentage printed in the message *)

Section PercentFacts.

Lemma round_half_even_close (q : Q) :
  (- (1 # 2) <= inject_Z (Py.round_half_even q) - q <= 1 # 2)%Q.
Proof.
  unfold Py.round_half_even.
  pose proof (Qfloor_le q) as Hlo. pose proof (Qlt_floor q) as Hhi.
  rewrite inject_Z_plus in Hhi. change (inject_Z 1) with 1%Q in Hhi.
  destruct (Qcompare (q - inject_Z (Qfloor q)) (1 # 2)) eqn:E.
  - apply Qeq_alt in E.
    destruct (Z.even (Qfloor q));
      [|rewrite inject_Z_plus; change (inject_Z 1) with 1%Q]; lra.
  - apply Qlt_alt in E. lra.
  - apply Qgt_alt in E. rewrite inject_Z_plus. change (inject_Z 1) with 1%Q. lra.
Qed.

Lemma round_half_even_comp (x y : Q) :
  (x == y)%Q -> Py.round_half_even x = Py.round_half_even y.
Proof.
  intros E. unfold Py.round_half_even.
  rewrite (Qfloor_comp x y E).
  assert (Hc : Qcompare (x - inject_Z (Qfloor y)) (1 # 2)
               = Qcompare (y - inject_Z (Qfloor y)) (1 # 2)).
  { apply Qcompare_comp; [rewrite E; reflexivity|reflexivity]. }
  rewrite Hc. reflexivity.
Qed.

Lemma round_half_even_Z (z : Z) : Py.round_half_even (inject_Z z) = z.
Proof.
  unfold Py.round_half_even. rewrite Qfloor_Z.
  assert (Hc : Qcompare (inject_Z z - inject_Z z) (1 # 2) = Lt).
  { apply Qlt_alt. setoid_replace (inject_Z z - inject_Z z)%Q with 0%Q by ring.
    reflexivity. }
  rewrite Hc. reflexivity.
Qed.

Lemma Qpower_neg (e : Z) : (2 ^ e == / 2 ^ (- e))%Q.
Proof.
  rewrite <- Qpower_opp. replace (- - e) with e by lia. reflexivity.
Qed.

Lemma pow2_Qpower (e : Z) : (Py.pow2 e == 2 ^ e)%Q.
Proof.
  unfold Py.pow2. destruct (Z.leb_spec 0 e) as [He|He].
  - rewrite Zpower_Qpower by exact He. reflexivity.
  - rewrite Qmake_Qdiv.
    rewrite Z2Pos.id by (apply Z.pow_pos_nonneg; lia).
    rewrite Zpower_Qpower by lia.
    rewrite (Qpower_neg e). change (inject_Z 1) with 1%Q.
    change (inject_Z 2) with 2%Q.
    unfold Qdiv. rewrite Qmult_1_l. reflexivity.
Qed.

Lemma f32_value_Qpower (m e : Z) : (f32_value m e == inject_Z m * 2 ^ e)%Q.
Proof.
  unfold f32_value. destruct (Z.leb_spec 0 e) as [He|He].
  - rewrite inject_Z_mult, Zpower_Qpower by exact He. reflexivity.
  - rewrite Qmake_Qdiv.
    rewrite Z2Pos.id by (apply Z.pow_pos_nonneg; lia).
    rewrite Zpower_Qpower by lia.
    rewrite (Qpower_neg e). change (inject_Z 2) with 2%Q. reflexivity.
Qed.

Lemma two_nonzero : ~ (2 == 0)%Q.
Proof. discriminate. Qed.

Lemma Qpower2_pos (e : Z) : (0 < 2 ^ e)%Q.
Proof. apply Qpower_0_lt. reflexivity. Qed.

(** [2 ^ ilog2 q] does not exceed [q]. *)
Lemma ilog2_le (q : Q) : (0 < q)%Q -> (2 ^ Py.ilog2 q <= q)%Q.
Proof.
  intros Hq. unfold Py.ilog2.
  set (a := Z.log2 (Qnum q) - Z.log2 (Z.pos (Qden q))).
  destruct (Qle_bool (Py.pow2 a) q) eqn:E.
  - apply Qle_bool_iff in E. rewrite pow2_Qpower in E. exact E.
  - destruct q as [n d]. cbn [Qnum Qden] in *.
    assert (Hn : 0 < n) by (unfold Qlt in Hq; simpl in Hq; lia).
    pose proof (Z.log2_spec n Hn) as [Hn1 _].
    pose proof (Z.log2_spec (Z.pos d) ltac:(lia)) as [_ Hd2].
    pose proof (Z.log2_nonneg n) as Hln. pose proof (Z.log2_nonneg (Z.pos d)) as Hld.
    rewrite (Qmake_Qdiv n d).
    apply Qle_shift_div_l; [reflexivity|].
    assert (Hd : (inject_Z (Z.pos d) <= 2 ^ (Z.log2 (Z.pos d) + 1))%Q).
    { change 2%Q with (inject_Z 2). rewrite <- Zpower_Qpower by lia.
      rewrite <- Zle_Qle. unfold Z.succ in Hd2. lia. }
    assert (Hnq : (2 ^ Z.log2 n <= inject_Z n)%Q).
    { change 2%Q with (inject_Z 2). rewrite <- Zpower_Qpower by lia.
      rewrite <- Zle_Qle. exact Hn1. }
    eapply Qle_trans; [|exact Hnq].
    eapply Qle_trans.
    { apply Qmult_le_l; [apply Qpower2_pos|exact Hd]. }
    rewrite <- Qpower_plus by exact two_nonzero.
    replace (a - 1 + (Z.log2 (Z.pos d) + 1)) with (Z.log2 n) by (unfold a; lia).
    apply Qle_refl.
Qed.

(** A positive number with a significand of at most 53 bits is a
    binary64 number: rounding leaves it as it is. *)
Lemma fl64_exact (q : Q) (M E : Z) :
  0 < M < 2 ^ 53 -> (q == inject_Z M * 2 ^ E)%Q -> (Py.fl64 q == q)%Q.
Proof.
  intros HM Hq.
  assert (Hpos : (0 < q)%Q).
  { rewrite Hq. apply Qmult_lt_0_compat; [|apply Qpower2_pos].
    change 0%Q with (inject_Z 0). rewrite <- Zlt_Qlt. lia. }
  unfold Py.fl64.
  assert (Hc : Qcompare q 0 = Gt) by (apply Qgt_alt; exact Hpos).
  rewrite Hc. cbv zeta.
  pose proof (ilog2_le q Hpos) as Hlo.
  set (L := Py.ilog2 q) in *.
  assert (HL : L < 53 + E).
  { apply (Qpower_lt_compat_l_inv 2); [|reflexivity].
    eapply Qle_lt_trans; [exact Hlo|]. rewrite Hq.
    rewrite Qpower_plus by exact two_nonzero.
    apply Qmult_lt_compat_r; [apply Qpower2_pos|].
    change 2%Q with (inject_Z 2). rewrite <- Zpower_Qpower by lia.
    rewrite <- Zlt_Qlt. lia. }
  assert (Hk : (q / Py.pow2 (L - 52) == inject_Z (M * 2 ^ (E - (L - 52))))%Q).
  { rewrite pow2_Qpower, Hq, inject_Z_mult, Zpower_Qpower by lia.
    change (inject_Z 2) with 2%Q.
    rewrite (Qpower_minus 2 E (L - 52)) by exact two_nonzero.
    field. pose proof (Qpower2_pos (L - 52)) as Hp. intros Hz. rewrite Hz in Hp.
    exact (Qlt_irrefl _ Hp). }
  rewrite (round_half_even_comp _ _ Hk), round_half_even_Z.
  rewrite pow2_Qpower, Hq, inject_Z_mult, Zpower_Qpower by lia.
  change (inject_Z 2) with 2%Q.
  rewrite <- Qmult_assoc, <- Qpower_plus by exact two_nonzero.
  replace (E - (L - 52) + (L - 52)) with E by lia. reflexivity.
Qed.


(** For a float32 probability the product [confidence * 100] is exact,
    so that the percentage in the message is the integer number of
    hundredths nearest to the percentage itself. *)
Lemma percent_str_value (p : Q) :
  is_float32 p -> (0 < p)%Q ->
  exists z,
    Main.percent_str p = Py.str_hundredths z
    /\ (- (1 # 2) <= inject_Z z - p * 10000 <= 1 # 2)%Q.
Proof.
  intros (m & e & Hm & He & Hp) Hpos.
  rewrite f32_value_Qpower in Hp.
  assert (Hmpos : 0 < m).
  { destruct (Z_lt_le_dec 0 m) as [Hlt|Hle]; [exact Hlt|]. exfalso.
    apply (Qlt_not_le _ _ Hpos). rewrite Hp.
    setoid_replace 0%Q with (0 * 2 ^ e)%Q by ring.
    apply Qmult_le_compat_r; [|apply Qlt_le_weak; apply Qpower2_pos].
    change 0%Q with (inject_Z 0). rewrite <- Zle_Qle. exact Hle. }
  assert (Hex : (Py.float_mul p 100 == p * 100)%Q).
  { unfold Py.float_mul. apply (fl64_exact _ (m * 100) e).
    - assert (Hm' : m < 2 ^ 24) by lia.
      change (2 ^ 24) with 16777216 in Hm'.
      change (2 ^ 53) with 9007199254740992. lia.
    - rewrite Hp, inject_Z_mult. change (inject_Z 100) with 100%Q. ring. }
  exists (Py.round_half_even (p * 10000)).
  split; [|apply round_half_even_close].
  unfold Main.percent_str, Py.round. f_equal.
  change (inject_Z (10 ^ 2)) with 100%Q.
  assert (Hr : Py.round_half_even (Py.float_mul p 100 * 100)
               = Py.round_half_even (p * 10000)).
  { apply round_half_even_comp. rewrite Hex. ring. }
  rewrite Hr.
  rewrite <- (Qfloor_Z (Py.round_half_even (p * 10000))) at 2.
  apply Qfloor_comp. field.
Qed.


Lemma uint_acc_pos (d : Decimal.uint) (acc : positive) :
  uint_acc d (Z.pos acc) = Z.pos (Pos.of_uint_acc d acc).
Proof.
  revert acc. induction d; intros acc; cbn [uint_acc Pos.of_uint_acc];
    [reflexivity|..]; rewrite <- IHd; f_equal; lia.
Qed.

Lemma uint_acc_of_uint (d : Decimal.uint) :
  uint_acc d 0 = Z.of_N (N.of_uint d).
Proof.
  unfold N.of_uint.
  induction d; cbn [uint_acc Pos.of_uint]; [reflexivity|exact IHd|..];
    cbn [Z.of_N]; rewrite <- uint_acc_pos; reflexivity.
Qed.

Lemma parse_uint (d : Decimal.uint) (w : Z) (rest : string) :
  decimal_parse w (NilEmpty.string_of_uint d ++ rest)
  = decimal_parse (uint_acc d w) rest.
Proof.
  revert w. induction d; intros w;
    cbn [NilEmpty.string_of_uint uint_acc append]; [reflexivity|..];
    cbn [decimal_parse]; rewrite <- IHd; reflexivity.
Qed.

Lemma parse_numeral (n : N) (rest : string) :
  decimal_parse 0 (NilZero.string_of_uint (N.to_uint n) ++ rest)
  = decimal_parse (Z.of_N n) rest.
Proof.
  assert (Hnn : N.to_uint n <> Decimal.Nil).
  { destruct n; [discriminate|]. apply Unsigned.to_uint_nonnil. }
  assert (Hs : NilZero.string_of_uint (N.to_uint n)
               = NilEmpty.string_of_uint (N.to_uint n)).
  { destruct (N.to_uint n); [congruence|reflexivity..]. }
  rewrite Hs, parse_uint, uint_acc_of_uint, DecimalN.Unsigned.of_to.
  reflexivity.
Qed.

Lemma digits_digit (acc d : Z) (rest : string) :
  0 <= d <= 9 ->
  digits_value acc (Py.digit d ++ rest) = digits_value (10 * acc + d) rest.
Proof.
  intros Hd.
  assert (Hc : d = 0 \/ d = 1 \/ d = 2 \/ d = 3 \/ d = 4 \/ d = 5 \/ d = 6
               \/ d = 7 \/ d = 8 \/ d = 9) by lia.
  repeat (destruct Hc as [->|Hc]; [reflexivity|]). subst d. reflexivity.
Qed.

(** Reading back the text of a number of hundredths gives that number. *)
Lemma decimal_value_hundredths (z : Z) :
  0 <= z ->
  exists v, decimal_value (Py.str_hundredths z) = Some v
            /\ (v == inject_Z z / 100)%Q.
Proof.
  intros Hz. unfold decimal_value, Py.str_hundredths.
  rewrite Z.abs_eq by exact Hz.
  destruct (Z.ltb_spec z 0) as [Hneg|_]; [lia|].
  cbn [append]. rewrite parse_numeral.
  rewrite Z2N.id by (apply Z.div_pos; lia).
  pose proof (Z.mod_pos_bound z 100 ltac:(lia)) as Hm100.
  pose proof (Z.mod_pos_bound z 10 ltac:(lia)) as Hm10.
  assert (Ht : 0 <= z mod 100 / 10 <= 9).
  { split; [apply Z.div_pos; lia|].
    apply Z.lt_succ_r. apply Z.div_lt_upper_bound; lia. }
  assert (Hsplit : z = 100 * (z / 100) + 10 * (z mod 100 / 10) + z mod 10).
  { pose proof (Z.div_mod z 100 ltac:(lia)) as H1.
    pose proof (Z.div_mod (z mod 100) 10 ltac:(lia)) as H2.
    assert (H3 : (z mod 100) mod 10 = z mod 10).
    { apply Z.mod_mod_divide. exists 10. reflexivity. }
    lia. }
  set (w := z / 100) in *. set (t := z mod 100 / 10) in *.
  set (u := z mod 10) in *.
  cbn [decimal_parse append]. cbn [Ascii.eqb Bool.eqb].
  destruct (Z.eqb_spec u 0) as [Hu|Hu].
  - rewrite (digits_digit 0 t "") by exact Ht. cbn [digits_value].
    eexists. split; [reflexivity|].
    change (String.length (Py.digit t ++ "")) with 1%nat.
    rewrite Hsplit, Hu.
    change (inject_Z (10 ^ Z.of_nat 1)) with 10%Q.
    rewrite !inject_Z_plus, !inject_Z_mult.
    change (inject_Z 100) with 100%Q. change (inject_Z 10) with 10%Q.
    change (inject_Z 0) with 0%Q. field.
  - rewrite digits_digit by exact Ht.
    change (Py.digit u) with (Py.digit u ++ "") at 1.
    rewrite digits_digit by lia. cbn [digits_value].
    eexists. split; [reflexivity|].
    rewrite Hsplit. change (10 * 0 + t) with t.
    change (String.length (Py.digit t ++ Py.digit u)) with 2%nat.
    change (inject_Z (10 ^ Z.of_nat 2)) with 100%Q.
    rewrite !inject_Z_plus, !inject_Z_mult.
    change (inject_Z 100) with 100%Q. change (inject_Z 10) with 10%Q.
    change (inject_Z 0) with 0%Q. field.
Qed.

End PercentFacts.

(** ** The confidence gate and the top-3 list of main.py *)

Section GateFacts.

Context {F : Type} `{Scalar F} `{Torch F} `{Vision F}.

Import TopkContract.

(** The route answers with the body built from the probabilities. *)
Lemma predict_respond (svc : Main.Service) (file : Py.UploadFile) (now : string)
      (g g' : Generator) (probs : list Q) (body : Py.json) :
  Main.infer (Main.model svc) file g = (Ok probs, g') ->
  Main.respond (Main.CLASS_NAMES svc) (Py.filename file) now probs = Ok body ->
  Main.predict svc file now g
  = ({| Py.content := body; Py.status_code := 200 |}, g').
Proof.
  intros Hi Hr. unfold Main.predict. rewrite Hi. cbn [bind]. rewrite Hr.
  reflexivity.
Qed.

(** C1.  For a non-empty row of float32 probabilities, one per class name
    (with [torch.topk] meeting its contract on it), let [a] be the arg-max
    position: the first position that holds the largest probability of the
    row.  When that probability is strictly below 0.65 the reported label
    is "uncertain" and the message is the explanatory one; when it is 0.65
    or more the reported label is the class name at [a] and the message
    reads "Detected <label> with <pct>% confidence.", where <pct> is a
    decimal numeral of at most two decimals whose value is the percentage
    (100 times the probability) rounded to hundredths.  This body is the
    content of the 200 response of [predict] whenever the network and
    softmax produced that row. *)
Theorem predict_confidence_gate (names : list string) (fname now : string)
        (probs : list Q) :
  probs <> [] ->
  Py.len probs = Py.len names ->
  holds probs (Z.min 3 (Py.len names)) (topk probs (Z.min 3 (Py.len names))) = true ->
  Forall is_float32 probs ->
  exists a body,
    is_first_max probs a
    /\ Main.respond names fname now probs = Ok body
    /\ ((prob_at probs a < 0.65)%Q ->
        Py.lookup "prediction" body = Some (Py.JStr "uncertain")
        /\ Py.lookup "message" body =
           Some (Py.JStr "Image does not appear to contain a recognizable retina pattern."))
    /\ ((0.65 <= prob_at probs a)%Q ->
        Py.lookup "prediction" body = Some (Py.JStr (nth (Z.to_nat a) names ""))
        /\ exists text pct,
             Py.lookup "message" body =
             Some (Py.JStr ("Detected " ++ nth (Z.to_nat a) names "" ++ " with "
                              ++ text ++ "% confidence."))
             /\ decimal_value text = Some pct
             /\ (exists z, pct == inject_Z z / 100)%Q
             /\ (- (1 # 200) <= pct - 100 * prob_at probs a <= 1 # 200)%Q)
    /\ (forall svc file g g',
           Main.CLASS_NAMES svc = names ->
           Py.filename file = fname ->
           Main.infer (Main.model svc) file g = (Ok probs, g') ->
           Main.predict svc file now g
           = ({| Py.content := body; Py.status_code := 200 |}, g')).
Proof.
  intros Hne Hlen Hholds Hf32.
  destruct (respond_ok names fname now probs Hne Hlen Hholds)
    as (a & Ha & Hmax & Hbody).
  eexists a, _. split; [exact Hmax|]. split; [exact Hbody|].
  assert (Hfa : is_float32 (prob_at probs a)).
  { rewrite Forall_forall in Hf32. apply Hf32. apply nth_In.
    destruct Hmax as (Hr & _). unfold Py.len in Hr. lia. }
  pose proof (threshold_on_float32 _ Hfa) as Hthr.
  split; [|split].
  - intros Hlow. apply Hthr in Hlow. apply Qltb_lt in Hlow.
    cbn. rewrite Hlow. split; reflexivity.
  - intros Hhigh.
    assert (Hb : Main.Qltb (prob_at probs a) Main.confidence_threshold = false).
    { destruct (Main.Qltb (prob_at probs a) Main.confidence_threshold) eqn:E;
        [|reflexivity].
      apply Qltb_lt in E. apply Hthr in E.
      exfalso. exact (Qlt_not_le _ _ E Hhigh). }
    cbn. rewrite Hb. split; [reflexivity|].
    assert (Hpos : (0 < prob_at probs a)%Q) by lra.
    destruct (percent_str_value _ Hfa Hpos) as (z & Htext & Hz).
    assert (Hz0 : 0 <= z).
    { assert (Hq : (inject_Z 0 <= inject_Z z)%Q)
        by (change (inject_Z 0) with 0%Q; lra).
      rewrite <- Zle_Qle in Hq. exact Hq. }
    destruct (decimal_value_hundredths z Hz0) as (v & Hv & Hvz).
    exists (Main.percent_str (prob_at probs a)), v.
    split; [reflexivity|]. split; [rewrite Htext; exact Hv|].
    split; [exists z; exact Hvz|].
    rewrite Hvz.
    assert (Hd : (inject_Z z / 100 - 100 * prob_at probs a
                  == (inject_Z z - prob_at probs a * 10000) / 100)%Q) by field.
    rewrite Hd. split.
    + apply Qle_shift_div_l; [reflexivity|]. lra.
    + apply Qle_shift_div_r; [reflexivity|]. lra.
  - intros svc file g g' Hn Hfn Hinf. subst names fname.
    apply (predict_respond svc file now g g' probs); assumption.
Qed.

(** C2, amended.  For a non-empty row of probabilities, one per class
    name (N names), on which [torch.topk] meets its contract: the list
    [top_predictions] has min(3, N) entries, at distinct positions of the
    row, in non-increasing order of probability; every entry carries the
    class name and the probability of its own position, also when the
    reported prediction is "uncertain"; the first entry has the arg-max
    probability, and carries the arg-max label whenever that maximum is
    attained at one position only.  (The order of equal probabilities is
    the one [torch.topk] returns.) *)
Theorem top_predictions_ranked (names : list string) (fname now : string)
        (probs : list Q) :
  probs <> [] ->
  Py.len probs = Py.len names ->
  holds probs (Z.min 3 (Py.len names)) (topk probs (Z.min 3 (Py.len names))) = true ->
  exists a body idxs,
    Py.argmax probs = Ok a
    /\ Main.respond names fname now probs = Ok body
    /\ Py.lookup "top_predictions" body
       = Some (Py.JList (map (top_entry names probs) idxs))
    /\ Py.len idxs = Z.min 3 (Py.len names)
    /\ Forall (fun i => 0 <= i < Py.len names) idxs
    /\ NoDup idxs
    /\ nonincreasing (map (prob_at probs) idxs) = true
    /\ (exists i0 rest,
           idxs = i0 :: rest
           /\ (prob_at probs i0 == prob_at probs a)%Q
           /\ ((forall j, 0 <= j < Py.len probs -> j <> a ->
                          (prob_at probs j < prob_at probs a)%Q) ->
               i0 = a /\ first_label_is_argmax names probs body))
    /\ ((prob_at probs a < Main.confidence_threshold)%Q ->
        Py.lookup "prediction" body = Some (Py.JStr "uncertain")).
Proof.
  intros Hne Hlen Hholds.
  destruct (respond_ok names fname now probs Hne Hlen Hholds)
    as (a & Ha & Hmax & Hbody).
  destruct (topk probs (Z.min 3 (Py.len names))) as [vals idxs] eqn:Etk.
  destruct (holds_props _ _ _ _ Hholds) as (Hk & Hin & Hnd & Hvals & Hsorted & Hcover).
  cbn [snd] in Hbody.
  eexists a, _, idxs. split; [exact Ha|]. split; [exact Hbody|].
  split; [reflexivity|]. split; [exact Hk|].
  split; [rewrite <- Hlen; exact Hin|]. split; [exact Hnd|].
  split; [exact Hsorted|]. split.
  - destruct idxs as [|i0 rest].
    { exfalso. unfold Py.len in Hk, Hlen. simpl in Hk.
      destruct probs; [congruence|]. simpl in Hlen. lia. }
    exists i0, rest. split; [reflexivity|].
    destruct (topk_head_is_max probs _ vals i0 rest a Hholds Hmax) as (Heq & Huniq).
    split; [exact Heq|].
    intros Hu. specialize (Huniq Hu). split; [exact Huniq|].
    exists a, (top_entry names probs i0), (map (top_entry names probs) rest).
    split; [exact Ha|]. split; [reflexivity|]. subst i0. reflexivity.
  - intros Hlow. apply Qltb_lt in Hlow. cbn. rewrite Hlow. reflexivity.
Qed.

End GateFacts.

(** ** The route of app.py *)

Section AppFacts.

Context {F : Type} `{Scalar F} `{Torch F} `{Vision F}.

Import TopkContract.

(** C10.  For a non-empty row of probabilities, one per class name, the
    body returned by app.py has exactly the keys filename, prediction,
    confidence and timestamp: the prediction is the class name at the
    arg-max position (the first position that holds the largest
    probability of the row), however small that probability (so it is
    "uncertain" only if a class bears that name); there is no
    [top_predictions] and no [message].  This body is what [predict]
    returns whenever the network and softmax produced that row. *)
Theorem app_predict_reports_argmax (names : list string) (fname now : string)
        (probs : list Q) :
  probs <> [] ->
  Py.len probs = Py.len names ->
  exists a body,
    is_first_max probs a
    /\ App.respond names fname now probs = Ok body
    /\ Py.lookup "prediction" body = Some (Py.JStr (nth (Z.to_nat a) names ""))
    /\ In (nth (Z.to_nat a) names "") names
    /\ (~ In "uncertain" names ->
        Py.lookup "prediction" body <> Some (Py.JStr "uncertain"))
    /\ Py.lookup "confidence" body = Some (Py.JNum (Py.round (prob_at probs a) 4))
    /\ Py.keys body = ["filename"; "prediction"; "confidence"; "timestamp"]
    /\ Py.lookup "top_predictions" body = None
    /\ Py.lookup "message" body = None
    /\ (forall svc file g g',
           Main.CLASS_NAMES svc = names ->
           Py.filename file = fname ->
           Main.infer (Main.model svc) file g = (Ok probs, g') ->
           App.predict svc file now g = (Ok body, g')).
Proof.
  intros Hne Hlen.
  destruct (argmax_first_max probs Hne) as (a & Ha & Hmax).
  pose proof Hmax as (Hrange & _).
  assert (Hresp : App.respond names fname now probs =
                  Ok (Py.JDict
                        [ ("filename", Py.JStr fname);
                          ("prediction", Py.JStr (nth (Z.to_nat a) names ""));
                          ("confidence", Py.JNum (Py.round (prob_at probs a) 4));
                          ("timestamp", Py.JStr now) ])).
  { unfold App.respond. rewrite Ha. cbn [bind].
    rewrite (getitem_in_range probs a 0%Q) by exact Hrange. cbn [bind].
    rewrite (getitem_in_range names a "") by lia. reflexivity. }
  assert (Hin : In (nth (Z.to_nat a) names "") names).
  { apply nth_In. unfold Py.len in *. lia. }
  eexists a, _. split; [exact Hmax|]. split; [exact Hresp|].
  split; [reflexivity|]. split; [exact Hin|]. split.
  { intros Hnot. cbn. intros [= E]. apply Hnot. rewrite <- E. exact Hin. }
  split; [reflexivity|]. split; [reflexivity|].
  split; [reflexivity|]. split; [reflexivity|].
  intros svc file g g' Hn Hfn Hinf. subst names fname.
  unfold App.predict. rewrite Hinf. cbn [bind]. rewrite Hresp. reflexivity.
Qed.

End AppFacts.

(** ** Two calls of [predict] in evaluation mode *)

Section IdempotenceFacts.

Context {F : Type} `{Scalar F} `{Torch F} `{Vision F}.

(** In evaluation mode [forward] neither reads nor advances the
    generator. *)
Lemma forward_eval (m : Net.RetinaCNN F) (x : Net.Tensor F) (g : Generator) :
  Net.training m = false ->
  Net.forward m x g
  = (h <- Net.features m x ;; Net.linear (Net.fc2 m) h, g).
Proof.
  intros Hm. unfold Net.forward. rewrite Hm.
  destruct (Net.features m x); reflexivity.
Qed.

Lemma infer_eval (m : Net.RetinaCNN F) (file : Py.UploadFile) (g1 g2 : Generator) :
  Net.training m = false ->
  snd (Main.infer m file g1) = g1
  /\ fst (Main.infer m file g1) = fst (Main.infer m file g2).
Proof.
  intros Hm. unfold Main.infer.
  destruct (Image_open_RGB (Py.contents file)); [|split; reflexivity].
  rewrite !forward_eval by exact Hm. split; reflexivity.
Qed.

(** A body of main.py: but for the time stamp, its fields do not depend
    on the time of the call. *)
Lemma respond_fields (names : list string) (fname : string) (probs : list Q) :
  (exists e, forall now, Main.respond names fname now probs = Raise e)
  \/ (exists label conf tops message,
         forall now,
           Main.respond names fname now probs
           = Ok (Py.JDict [ ("filename", Py.JStr fname);
                            ("prediction", Py.JStr label);
                            ("confidence", Py.JNum conf);
                            ("top_predictions", Py.JList tops);
                            ("message", Py.JStr message);
                            ("timestamp", Py.JStr now) ])).
Proof.
  unfold Main.respond.
  destruct (Py.argmax probs) as [a|e]; [|left; exists e; reflexivity].
  cbn [bind].
  destruct (Py.getitem probs a) as [c|e]; [|left; exists e; reflexivity].
  cbn [bind].
  destruct (Py.getitem names a) as [l|e]; [|left; exists e; reflexivity].
  cbn [bind].
  destruct (Main.torch_topk probs (Z.min 3 (Py.len names))) as [tk|e];
    [|left; exists e; reflexivity].
  cbn [bind].
  destruct (Main.top_entries names (fst tk) 0 (snd tk)) as [tops|e];
    [|left; exists e; reflexivity].
  cbn [bind]. right. eexists _, _, _, _. intros now. reflexivity.
Qed.

(** C8.  With the module in evaluation mode, two successive calls of
    [predict] on the same upload, at any two times and starting from any
    generator state, leave the generator as it was and answer with the
    same status; when that status is 200 (the upload was decoded and a
    prediction made), the two bodies hold the same prediction label, the
    same confidence and the same [top_predictions] in the same order, and
    differ in nothing but the time stamp, which is that of each call. *)
Theorem predict_twice_same_result (svc : Main.Service) (file : Py.UploadFile)
        (t1 t2 : string) (g : Generator) :
  Net.training (Main.model svc) = false ->
  let r1 := Main.predict svc file t1 g in
  let r2 := Main.predict svc file t2 (snd r1) in
  snd r1 = g /\ snd r2 = g
  /\ Py.status_code (fst r1) = Py.status_code (fst r2)
  /\ (Py.status_code (fst r1) = 200 ->
      exists label conf tops,
        Py.lookup "prediction" (Py.content (fst r1)) = Some (Py.JStr label)
        /\ Py.lookup "prediction" (Py.content (fst r2)) = Some (Py.JStr label)
        /\ Py.lookup "confidence" (Py.content (fst r1)) = Some (Py.JNum conf)
        /\ Py.lookup "confidence" (Py.content (fst r2)) = Some (Py.JNum conf)
        /\ Py.lookup "top_predictions" (Py.content (fst r1)) = Some (Py.JList tops)
        /\ Py.lookup "top_predictions" (Py.content (fst r2)) = Some (Py.JList tops)
        /\ strip_timestamp (Py.content (fst r1))
           = strip_timestamp (Py.content (fst r2))
        /\ Py.lookup "timestamp" (Py.content (fst r1)) = Some (Py.JStr t1)
        /\ Py.lookup "timestamp" (Py.content (fst r2)) = Some (Py.JStr t2)).
Proof.
  intros Hm.
  assert (Hgen : forall t g0, snd (Main.predict svc file t g0) = g0).
  { intros t g0. unfold Main.predict.
    destruct (infer_eval (Main.model svc) file g0 g0 Hm) as (Hs & _).
    destruct (Main.infer (Main.model svc) file g0) as [p g']. simpl in Hs. subst g'.
    destruct (p0 <- p ;; Main.respond (Main.CLASS_NAMES svc) (Py.filename file) t p0);
      reflexivity. }
  cbv zeta. rewrite !Hgen. split; [reflexivity|]. split; [reflexivity|].
  unfold Main.predict.
  destruct (Main.infer (Main.model svc) file g) as [[probs|e] g'];
    cbn [bind fst snd Py.content Py.status_code].
  2:{ split; [reflexivity|discriminate]. }
  destruct (respond_fields (Main.CLASS_NAMES svc) (Py.filename file) probs)
    as [(e & He)|(label & conf & tops & message & Hok)].
  - rewrite !He. cbn [fst snd Py.content Py.status_code].
    split; [reflexivity|discriminate].
  - rewrite !Hok. cbn [fst snd Py.content Py.status_code].
    split; [reflexivity|]. intros _. exists label, conf, tops.
    repeat (split; [reflexivity|]). reflexivity.
Qed.

End IdempotenceFacts.

(** ** From the upload to the row of probabilities *)

Section InferFacts.

Context {F : Type} `{Scalar F} `{Torch F} `{Vision F}.

Import Net Arch.

(** A module with the sizes of [RetinaCNN(N)], in evaluation mode, fed a
    decodable image, computes [N] probabilities, provided [softmax] keeps
    the length of its row and [transform] resizes to 3 x 224 x 224. *)
Lemma infer_row_length_arch (m : RetinaCNN F) (N : Z)
      (file : Py.UploadFile) (image : Image) (g : Generator) :
  (forall l, length (softmax l) = length l) ->
  (forall im, shape (transform im) = [3; 224; 224]) ->
  arch m = arch (RetinaCNN_init N) ->
  0 <= N ->
  training m = false ->
  Image_open_RGB (Py.contents file) = Ok image ->
  exists probs,
    Main.infer m file g = (Ok probs, g) /\ Py.len probs = N.
Proof.
  intros Hsoft Htrans Harch HN Heval Himg.
  unfold Main.infer. rewrite Himg.
  destruct (forward_batch_shape m N 1 (unsqueeze0 (transform image)) g Harch)
    as (y & g' & Ey & Sy & Fy).
  - exact HN.
  - lia.
  - unfold unsqueeze0. cbn [shape]. rewrite Htrans. reflexivity.
  - pose proof (forward_eval m (unsqueeze0 (transform image)) g Heval) as Hfe.
    rewrite Ey in Hfe. injection Hfe as _ Hg. subst g'.
    rewrite Ey. cbn [bind]. unfold Main.softmax_row0. rewrite Sy.
    cbn [Z.ltb Z.compare]. eexists. split; [reflexivity|].
    unfold Py.len. rewrite Hsoft, length_firstn.
    unfold full, numel in Fy. rewrite Sy in Fy. cbn [fold_right] in Fy.
    unfold Py.len in *. lia.
Qed.

(** A service that came out of the start-up, fed a decodable image,
    computes one probability per class name. *)
Lemma infer_row_length (fs : Main.FileSystem) (svc : Main.Service)
      (file : Py.UploadFile) (image : Image) (g : Generator) :
  (forall l, length (softmax l) = length l) ->
  (forall im, shape (transform im) = [3; 224; 224]) ->
  Main.startup fs = Ok svc ->
  Image_open_RGB (Py.contents file) = Ok image ->
  exists probs,
    Main.infer (Main.model svc) file g = (Ok probs, g)
    /\ Py.len probs = Py.len (Main.CLASS_NAMES svc).
Proof.
  intros Hsoft Htrans Hstart Himg.
  assert (Hsvc : arch (Main.model svc)
                 = arch (RetinaCNN_init (Py.len (Main.CLASS_NAMES svc)))
                 /\ training (Main.model svc) = false).
  { unfold Main.startup in Hstart.
    destruct (Registry.CLASS_NAMES (Main.DATASET_DIR fs)) as [names|] eqn:En;
      [|discriminate].
    cbn [bind] in Hstart.
    destruct (Main.MODEL_PATH fs) as [sd|] eqn:Ep; [|discriminate].
    pose proof (startup_ok fs names sd svc En Ep) as Hok.
    unfold Main.startup in Hok. rewrite En, Ep in Hok. cbn [bind] in Hok.
    destruct (Hok Hstart) as (-> & _ & Harch & Htr). split; assumption. }
  destruct Hsvc as (Harch & Heval).
  apply (infer_row_length_arch _ _ file image g Hsoft Htrans Harch
                               (len_nonneg _) Heval Himg).
Qed.

End InferFacts.

(** ** The training script on an empty dataset *)

Section TrainFacts.

Context {F : Type} `{Scalar F} `{Torch F} `{@TrainCnn.Optim F _}.

Import TrainCnn.

Lemma image_folder_rejects_empty (d : DataDir) :
  image_count d = 0 -> ImageFolder d = Raise FileNotFoundError.
Proof.
  destruct d as [|l]; [reflexivity|].
  unfold image_count, ImageFolder.
  destruct l as [|cf l]; [reflexivity|]. intros Hcount. cbn [is_nil].
  assert (Hnil : images cf = []).
  { unfold Py.len in Hcount. simpl in Hcount. rewrite length_app in Hcount.
    destruct (images cf); [reflexivity|]. simpl in Hcount. lia. }
  cbn [existsb]. rewrite Hnil. reflexivity.
Qed.

(** C3, amended.  When the dataset is empty (the data directory is
    missing, has no class folder, or holds no image at all), the script
    fails before the first epoch.  It has no check and no exception class
    of its own: the run ends with the [FileNotFoundError] that
    [ImageFolder] raises while the dataset is built.  Only the device line
    has been printed by then: no epoch began, no batch ran, nothing was
    saved. *)
Theorem training_fails_on_empty_dataset (d : DataDir) (g : Generator) :
  image_count d = 0 ->
  main d g = ([UsingDevice DEVICE], Raise FileNotFoundError)
  /\ ImageFolder d = Raise FileNotFoundError
  /\ (forall epoch, ~ In (EpochBegin epoch) (fst (main d g)))
  /\ (forall epoch, ~ In (BatchDone epoch) (fst (main d g)))
  /\ ~ In ModelSaved (fst (main d g)).
Proof.
  intros Hempty.
  pose proof (image_folder_rejects_empty d Hempty) as Hds.
  assert (Hmain : main d g = ([UsingDevice DEVICE], Raise FileNotFoundError)).
  { unfold main. rewrite Hds. reflexivity. }
  rewrite Hmain. split; [reflexivity|]. split; [exact Hds|].
  cbn [fst].
  split; [intros epoch|split; [intros epoch|]];
    (intros [Hin|[]]; discriminate Hin).
Qed.

End TrainFacts.

(** ** The reference [topk] meets the contract on every row *)

Section RefTopkFacts.

Import TopkContract Ref.

Variable ties_last : bool.
Variable probs : list Q.

Let ge (i j : Z) : Prop := (prob_at probs j <= prob_at probs i)%Q.

Lemma insert_desc_perm (i : Z) (l : list Z) :
  Permutation (i :: l) (insert_desc ties_last probs i l).
Proof.
  induction l as [|j l IH]; simpl; [apply Permutation_refl|].
  destruct (if ties_last
            then Main.Qltb (prob_at probs j) (prob_at probs i)
            else Qle_bool (prob_at probs j) (prob_at probs i)).
  - apply Permutation_refl.
  - eapply perm_trans; [apply perm_swap|]. apply perm_skip. exact IH.
Qed.

Lemma insert_desc_sorted (i : Z) (l : list Z) :
  StronglySorted ge l -> StronglySorted ge (insert_desc ties_last probs i l).
Proof.
  induction l as [|j l IH]; intros Hs; simpl.
  - constructor; constructor.
  - inversion Hs as [|? ? Hl Hj]; subst.
    destruct (if ties_last
              then Main.Qltb (prob_at probs j) (prob_at probs i)
              else Qle_bool (prob_at probs j) (prob_at probs i)) eqn:E.
    + assert (Hji : ge i j).
      { unfold ge. destruct ties_last.
        - apply Qlt_le_weak. apply Qltb_lt. exact E.
        - apply Qle_bool_iff. exact E. }
      constructor; [exact Hs|]. constructor; [exact Hji|].
      eapply Forall_impl; [|exact Hj]. intros x Hx. unfold ge in *.
      eapply Qle_trans; eassumption.
    + assert (Hij : ge j i).
      { unfold ge. destruct ties_last.
        - apply Qltb_ge. exact E.
        - apply Qlt_le_weak. apply Qnot_le_lt. intros Hc.
          apply Qle_bool_iff in Hc. congruence. }
      constructor; [apply IH; exact Hl|].
      apply Forall_forall. intros x Hx.
      apply (Permutation_in _ (Permutation_sym (insert_desc_perm i l))) in Hx.
      destruct Hx as [<-|Hx]; [exact Hij|].
      rewrite Forall_forall in Hj. apply Hj. exact Hx.
Qed.

Lemma order_perm (l : list Z) :
  Permutation l (fold_right (insert_desc ties_last probs) [] l).
Proof.
  induction l as [|i l IH]; simpl; [constructor|].
  eapply perm_trans; [apply perm_skip; exact IH|]. apply insert_desc_perm.
Qed.

Lemma order_sorted (l : list Z) :
  StronglySorted ge (fold_right (insert_desc ties_last probs) [] l).
Proof.
  induction l as [|i l IH]; simpl; [constructor|].
  apply insert_desc_sorted. exact IH.
Qed.

Lemma zrange_NoDup (n : Z) : NoDup (Net.zrange n).
Proof.
  unfold Net.zrange. apply Finite.Injective_map_NoDup; [|apply seq_NoDup].
  intros a b Hab. lia.
Qed.

Lemma sorted_nonincreasing (l : list Z) :
  StronglySorted ge l -> nonincreasing (map (prob_at probs) l) = true.
Proof.
  induction 1 as [|i l Hl IH Hi]; [reflexivity|].
  destruct l as [|j l]; [reflexivity|].
  change (Qle_bool (prob_at probs j) (prob_at probs i)
          && nonincreasing (map (prob_at probs) (j :: l)) = true).
  rewrite IH, andb_true_r. apply Qle_bool_iff.
  inversion Hi; assumption.
Qed.

Lemma NoDup_distinct (l : list Z) : NoDup l -> distinct l = true.
Proof.
  induction 1 as [|i l Hi Hl IH]; [reflexivity|]. simpl.
  rewrite IH, andb_true_r. apply negb_true_iff.
  destruct (existsb (Z.eqb i) l) eqn:E; [|reflexivity].
  apply existsb_exists in E as (j & Hj & Hij).
  apply Z.eqb_eq in Hij. subst j. contradiction.
Qed.

Lemma Qsame_refl (x : Q) : Qsame x x = true.
Proof. unfold Qsame. rewrite !Z.eqb_refl. reflexivity. Qed.

Lemma combine_map_same (l : list Z) :
  forallb (fun vi : Q * Z => Qsame (fst vi) (prob_at probs (snd vi)))
          (combine (map (prob_at probs) l) l) = true.
Proof.
  induction l as [|i l IH]; [reflexivity|].
  simpl. rewrite Qsame_refl. exact IH.
Qed.

Lemma StronglySorted_app (l1 l2 : list Z) :
  StronglySorted ge (l1 ++ l2) ->
  StronglySorted ge l1 /\ (forall x y, In x l1 -> In y l2 -> ge x y).
Proof.
  induction l1 as [|i l1 IH]; simpl; intros Hs.
  - split; [constructor|]. intros x y [].
  - inversion Hs as [|? ? Hl Hi]; subst.
    destruct (IH Hl) as (Hs1 & Hcross).
    rewrite Forall_app in Hi. destruct Hi as (Hi1 & Hi2).
    split; [constructor; assumption|].
    intros x y [<-|Hx] Hy; [|apply Hcross; assumption].
    rewrite Forall_forall in Hi2. apply Hi2. exact Hy.
Qed.

(** Whatever the rule for equal entries, sorting the positions and keeping
    the first [k] meets the contract of [torch.topk]. *)
Lemma topk_sort_meets_contract (k : Z) :
  0 <= k <= Py.len probs ->
  holds probs k (topk_sort ties_last probs k) = true.
Proof.
  intros Hk. unfold topk_sort, holds.
  set (order := fold_right (insert_desc ties_last probs) [] (Net.zrange (Py.len probs))).
  assert (Hperm : Permutation (Net.zrange (Py.len probs)) order) by apply order_perm.
  assert (Hsorted : StronglySorted ge order) by apply order_sorted.
  assert (Hlen : length order = Z.to_nat (Py.len probs)).
  { rewrite <- (Permutation_length Hperm). apply length_zrange. }
  assert (Hnd : NoDup order).
  { eapply Permutation_NoDup; [exact Hperm|apply zrange_NoDup]. }
  rewrite <- (firstn_skipn (Z.to_nat k) order) in Hsorted, Hnd.
  destruct (StronglySorted_app _ _ Hsorted) as (Hs1 & Hcross).
  set (idxs := firstn (Z.to_nat k) order) in *.
  assert (Hlk : Py.len idxs = k).
  { unfold Py.len, idxs. rewrite length_firstn, Hlen. lia. }
  repeat (apply andb_true_iff; split).
  - apply Z.eqb_eq. exact Hlk.
  - apply Z.eqb_eq. unfold Py.len in *. rewrite length_map. exact Hlk.
  - apply forallb_forall. intros i Hi.
    assert (Hin : In i (Net.zrange (Py.len probs))).
    { apply (Permutation_in _ (Permutation_sym Hperm)).
      rewrite <- (firstn_skipn (Z.to_nat k) order).
      apply in_or_app. left. exact Hi. }
    apply in_zrange in Hin. lia.
  - apply NoDup_distinct. eapply NoDup_app_remove_r. exact Hnd.
  - apply combine_map_same.
  - apply sorted_nonincreasing. exact Hs1.
  - apply forallb_forall. intros i Hi.
    apply (Permutation_in _ Hperm) in Hi.
    rewrite <- (firstn_skipn (Z.to_nat k) order) in Hi.
    apply in_app_or in Hi. apply orb_true_iff. destruct Hi as [Hi|Hi].
    + left. apply existsb_exists. exists i. split; [exact Hi|apply Z.eqb_refl].
    + right. apply forallb_forall. intros v Hv.
      apply in_map_iff in Hv as (x & <- & Hx).
      apply Qle_bool_iff. apply (Hcross x i Hx Hi).
Qed.

End RefTopkFacts.

(** ** The statements at concrete inputs *)

Section Instances.

Import TopkContract Ref.

Ltac float32 m e :=
  exists m, e; split; [reflexivity|split; [lia|reflexivity]].

(** The two end-to-end scenarios of the specification. *)
Example respond_confident :
  @Main.respond Z torch_first retina_classes "eye.png" "T" [0.70; 0.10; 0.12; 0.08]%Q
  = Ok (Py.JDict
          [ ("filename", Py.JStr "eye.png");
            ("prediction", Py.JStr "cataract");
            ("confidence", Py.JNum (7000 # 10000));
            ("top_predictions",
             Py.JList
               [ Py.JDict [("class", Py.JStr "cataract"); ("confidence", Py.JNum 0.70)];
                 Py.JDict [("class", Py.JStr "glaucoma"); ("confidence", Py.JNum 0.12)];
                 Py.JDict [("class", Py.JStr "dr"); ("confidence", Py.JNum 0.10)] ]);
            ("message", Py.JStr "Detected cataract with 70.0% confidence.");
            ("timestamp", Py.JStr "T") ]).
Proof. vm_compute. reflexivity. Qed.

Example respond_uncertain :
  exists tops,
    @Main.respond Z torch_first retina_classes "eye.png" "T" [0.40; 0.35; 0.15; 0.10]%Q
    = Ok (Py.JDict
            [ ("filename", Py.JStr "eye.png");
              ("prediction", Py.JStr "uncertain");
              ("confidence", Py.JNum (4000 # 10000));
              ("top_predictions",
               Py.JList
                 (Py.JDict [("class", Py.JStr "cataract"); ("confidence", Py.JNum 0.40)]
                  :: tops));
              ("message", Py.JStr Main.UNCERTAIN_MESSAGE);
              ("timestamp", Py.JStr "T") ]).
Proof. eexists. vm_compute. reflexivity. Qed.

(** The layers on small tensors. *)
Example conv2d_shifts_by_kernel_corner :
  @Net.conv2d Z scalar_Z
    {| Net.conv_weight := {| Net.shape := [1; 1; 3; 3];
                             Net.data := [1; 0; 0; 0; 0; 0; 0; 0; 0] |};
       Net.conv_bias := {| Net.shape := [1]; Net.data := [10] |};
       Net.conv_stride := 1; Net.conv_padding := 1 |}
    {| Net.shape := [1; 1; 3; 3]; Net.data := [1; 2; 3; 4; 5; 6; 7; 8; 9] |}
  = Ok {| Net.shape := [1; 1; 3; 3];
          Net.data := [10; 10; 10; 10; 11; 12; 10; 14; 15] |}.
Proof. reflexivity. Qed.

Example max_pool2d_halves :
  @Net.max_pool2d Z scalar_Z 2 2
    {| Net.shape := [1; 1; 4; 4];
       Net.data := [1; 2; 3; 4; 5; 6; 7; 8; 9; 10; 11; 12; 13; 14; 15; 16] |}
  = Ok {| Net.shape := [1; 1; 2; 2]; Net.data := [6; 8; 14; 16] |}.
Proof. reflexivity. Qed.

Example linear_rows :
  @Net.linear Z scalar_Z
    {| Net.fc_weight := {| Net.shape := [3; 2]; Net.data := [1; 2; 3; 4; 5; 6] |};
       Net.fc_bias := {| Net.shape := [3]; Net.data := [1; 1; 1] |} |}
    {| Net.shape := [2; 2]; Net.data := [1; 1; 0; -1] |}
  = Ok {| Net.shape := [2; 3]; Net.data := [4; 8; 12; -1; -3; -5] |}.
Proof. reflexivity. Qed.

Example linear_rejects_other_width :
  @Net.linear Z scalar_Z
    {| Net.fc_weight := {| Net.shape := [3; 2]; Net.data := [1; 2; 3; 4; 5; 6] |};
       Net.fc_bias := {| Net.shape := [3]; Net.data := [1; 1; 1] |} |}
    {| Net.shape := [1; 3]; Net.data := [1; 1; 1] |}
  = Raise RuntimeError.
Proof. reflexivity. Qed.

(** Start-up with a checkpoint of the right sizes succeeds, in evaluation
    mode. *)
Example startup_four_classes :
  exists svc,
    @Main.startup Z torch_first four_class_deployment = Ok svc
    /\ Main.CLASS_NAMES svc = Registry.DEFAULT_CLASS_NAMES
    /\ Net.training (Main.model svc) = false.
Proof. eexists. split; [reflexivity|]. split; reflexivity. Qed.

(** The gate at the threshold itself, and at the float32 nearest to 0.65
    (10905190 / 2^24, which lies below 0.65). *)
Example gate_passes_at_threshold :
  @Main.respond Z torch_first ["a"; "b"] "eye.png" "T"
                [Main.confidence_threshold; (1 - Main.confidence_threshold)%Q]
  = Ok (Py.JDict
          [ ("filename", Py.JStr "eye.png");
            ("prediction", Py.JStr "a");
            ("confidence", Py.JNum (6500 # 10000));
            ("top_predictions",
             Py.JList
               [ Py.JDict [("class", Py.JStr "a");
                           ("confidence", Py.JNum Main.confidence_threshold)];
                 Py.JDict [("class", Py.JStr "b");
                           ("confidence", Py.JNum (1 - Main.confidence_threshold)%Q)] ]);
            ("message", Py.JStr "Detected a with 65.0% confidence.");
            ("timestamp", Py.JStr "T") ]).
Proof. vm_compute. reflexivity. Qed.

Example gate_below_threshold :
  is_float32 (10905190 # 16777216)
  /\ Py.lookup "prediction"
       (match @Main.respond Z torch_first ["a"; "b"] "eye.png" "T"
                [10905190 # 16777216; 5872026 # 16777216]%Q with
        | Ok body => body
        | Raise _ => Py.JStr ""
        end)
     = Some (Py.JStr "uncertain").
Proof.
  split; [float32 10905190 (-24)|]. vm_compute. reflexivity.
Qed.

Lemma late_confident_row_float32 : Forall is_float32 late_confident_row.
Proof.
  unfold late_confident_row. repeat constructor.
  - float32 1 (-4).
  - float32 1 (-3).
  - float32 3 (-2).
  - float32 1 (-4).
Qed.

(** A row whose largest entry is the third one, and a percentage with two
    decimals. *)
Example respond_third_class :
  exists tops,
    @Main.respond Z torch_first retina_classes "eye.png" "T" late_confident_row
    = Ok (Py.JDict
            [ ("filename", Py.JStr "eye.png");
              ("prediction", Py.JStr "glaucoma");
              ("confidence", Py.JNum (7500 # 10000));
              ("top_predictions", Py.JList tops);
              ("message", Py.JStr "Detected glaucoma with 75.0% confidence.");
              ("timestamp", Py.JStr "T") ]).
Proof. eexists. vm_compute. reflexivity. Qed.

Example percentage_with_two_decimals :
  Main.detected_message "dr" (11 # 16) = "Detected dr with 68.75% confidence."
  /\ decimal_value "68.75" = Some (inject_Z 68 + inject_Z 75 / inject_Z 100)%Q
  /\ Main.detected_message "normal" 1 = "Detected normal with 100.0% confidence.".
Proof. repeat split; vm_compute; reflexivity. Qed.

Lemma predict_confidence_gate_witness :
  exists a body,
    is_first_max late_confident_row a
    /\ @Main.respond Z torch_first retina_classes "eye.png" "T" late_confident_row
       = Ok body
    /\ ((prob_at late_confident_row a < 0.65)%Q ->
        Py.lookup "prediction" body = Some (Py.JStr "uncertain")
        /\ Py.lookup "message" body =
           Some (Py.JStr "Image does not appear to contain a recognizable retina pattern."))
    /\ ((0.65 <= prob_at late_confident_row a)%Q ->
        Py.lookup "prediction" body
        = Some (Py.JStr (nth (Z.to_nat a) retina_classes ""))
        /\ exists text pct,
             Py.lookup "message" body =
             Some (Py.JStr ("Detected " ++ nth (Z.to_nat a) retina_classes ""
                              ++ " with " ++ text ++ "% confidence."))
             /\ decimal_value text = Some pct
             /\ (exists z, pct == inject_Z z / 100)%Q
             /\ (- (1 # 200) <= pct - 100 * prob_at late_confident_row a <= 1 # 200)%Q)
    /\ (forall svc file g g',
           Main.CLASS_NAMES svc = retina_classes ->
           Py.filename file = "eye.png" ->
           @Main.infer Z scalar_Z torch_first vision_Z (Main.model svc) file g
           = (Ok late_confident_row, g') ->
           Main.predict svc file "T" g
           = ({| Py.content := body; Py.status_code := 200 |}, g')).
Proof.
  apply (@predict_confidence_gate Z scalar_Z torch_first vision_Z
           retina_classes "eye.png" "T" late_confident_row).
  - discriminate.
  - reflexivity.
  - vm_compute. reflexivity.
  - exact late_confident_row_float32.
Defined.

Lemma top_predictions_ranked_witness :
  exists a body idxs,
    Py.argmax uncertain_row = Ok a
    /\ @Main.respond Z torch_first retina_classes "eye.png" "T" uncertain_row = Ok body
    /\ Py.lookup "top_predictions" body
       = Some (Py.JList (map (top_entry retina_classes uncertain_row) idxs))
    /\ Py.len idxs = Z.min 3 (Py.len retina_classes)
    /\ Forall (fun i => 0 <= i < Py.len retina_classes) idxs
    /\ NoDup idxs
    /\ nonincreasing (map (prob_at uncertain_row) idxs) = true
    /\ (exists i0 rest,
           idxs = i0 :: rest
           /\ (prob_at uncertain_row i0 == prob_at uncertain_row a)%Q
           /\ ((forall j, 0 <= j < Py.len uncertain_row -> j <> a ->
                          (prob_at uncertain_row j < prob_at uncertain_row a)%Q) ->
               i0 = a /\ first_label_is_argmax retina_classes uncertain_row body))
    /\ ((prob_at uncertain_row a < Main.confidence_threshold)%Q ->
        Py.lookup "prediction" body = Some (Py.JStr "uncertain")).
Proof.
  apply (@top_predictions_ranked Z torch_first
           retina_classes "eye.png" "T" uncertain_row).
  - discriminate.
  - reflexivity.
  - vm_compute. reflexivity.
Defined.

(** C2, as stated, fails.  On the row 1/2, 1/2, 0, 0 a [torch.topk] that
    meets its contract on every row may return the positions 1, 0, 3: the
    two equal entries are then not in ascending position, and the first
    entry carries the label "dr" while the arg-max position is 0,
    "cataract". *)
Lemma top_predictions_tie_order_not_fixed :
  (forall probs k,
      0 <= k <= Py.len probs ->
      holds probs k (@topk Z (torch_Z true) probs k) = true)
  /\ snd (@topk Z (torch_Z true) tied_row 3) = [1; 0; 3]
  /\ ~ ties_ascending tied_row (snd (@topk Z (torch_Z true) tied_row 3))
  /\ Py.argmax tied_row = Ok 0
  /\ (exists body,
         @Main.respond Z (torch_Z true) retina_classes "eye.png" "T" tied_row = Ok body
         /\ Py.lookup "top_predictions" body
            = Some (Py.JList (map (top_entry retina_classes tied_row) [1; 0; 3]))
         /\ ~ first_label_is_argmax retina_classes tied_row body).
Proof.
  split; [intros probs k Hk; apply (topk_sort_meets_contract true probs k Hk)|].
  split; [vm_compute; reflexivity|].
  split.
  { intros Hties. vm_compute in Hties. destruct Hties as (Hlt & _).
    specialize (Hlt eq_refl). discriminate Hlt. }
  split; [reflexivity|].
  eexists. split; [vm_compute; reflexivity|]. split; [reflexivity|].
  intros (a & first & rest & Ha & Hl & Hc).
  vm_compute in Ha. injection Ha as <-.
  vm_compute in Hl. injection Hl as <- _.
  vm_compute in Hc. discriminate Hc.
Qed.

Lemma app_predict_reports_argmax_witness :
  exists a body,
    is_first_max late_uncertain_row a
    /\ App.respond retina_classes "eye.png" "T" late_uncertain_row = Ok body
    /\ Py.lookup "prediction" body
       = Some (Py.JStr (nth (Z.to_nat a) retina_classes ""))
    /\ In (nth (Z.to_nat a) retina_classes "") retina_classes
    /\ (~ In "uncertain" retina_classes ->
        Py.lookup "prediction" body <> Some (Py.JStr "uncertain"))
    /\ Py.lookup "confidence" body
       = Some (Py.JNum (Py.round (prob_at late_uncertain_row a) 4))
    /\ Py.keys body = ["filename"; "prediction"; "confidence"; "timestamp"]
    /\ Py.lookup "top_predictions" body = None
    /\ Py.lookup "message" body = None
    /\ (forall svc file g g',
           Main.CLASS_NAMES svc = retina_classes ->
           Py.filename file = "eye.png" ->
           @Main.infer Z scalar_Z torch_first vision_Z (Main.model svc) file g
           = (Ok late_uncertain_row, g') ->
           App.predict svc file "T" g = (Ok body, g')).
Proof.
  apply (@app_predict_reports_argmax Z scalar_Z torch_first vision_Z
           retina_classes "eye.png" "T" late_uncertain_row).
  - discriminate.
  - reflexivity.
Defined.

(** On that row the arg-max position is the second one: the prediction
    is "dr", with a probability of 0.375. *)
Example app_reports_second_class :
  App.respond retina_classes "eye.png" "T" late_uncertain_row
  = Ok (Py.JDict [ ("filename", Py.JStr "eye.png");
                   ("prediction", Py.JStr "dr");
                   ("confidence", Py.JNum (Py.round (3 # 8) 4));
                   ("timestamp", Py.JStr "T") ]).
Proof. reflexivity. Qed.

Lemma forward_logits_length_witness :
  exists y g',
    @Net.forward Z scalar_Z torch_first (Net.RetinaCNN_init 4)
                 (Net.unsqueeze0 (@transform Z vision_Z [])) 0
    = (Ok y, g')
    /\ Net.shape y = [1; 4]
    /\ Z.of_nat (length (Net.data y)) = 4
    /\ 128 * 28 * 28 = 100352.
Proof.
  apply (@forward_logits_length Z scalar_Z torch_first
           (Net.RetinaCNN_init 4) 4 (@transform Z vision_Z []) 0).
  - reflexivity.
  - lia.
  - reflexivity.
Defined.

Lemma checkpoint_shape_mismatch_is_fatal_witness :
  Registry.CLASS_NAMES (Main.DATASET_DIR three_class_deployment)
  = Ok Registry.DEFAULT_CLASS_NAMES
  /\ Main.MODEL_PATH three_class_deployment = Some three_class_checkpoint
  /\ @Main.startup Z torch_first three_class_deployment = Raise RuntimeError.
Proof.
  split; [reflexivity|]. split; [reflexivity|].
  destruct (@checkpoint_shape_mismatch_is_fatal Z torch_first
              three_class_deployment Registry.DEFAULT_CLASS_NAMES
              three_class_checkpoint eq_refl eq_refl) as (_ & Hfc2 & _).
  apply (Hfc2 {| Net.shape := [3; 256]; Net.data := [] |} 3).
  - reflexivity.
  - reflexivity.
  - discriminate.
Defined.

Lemma training_fails_on_empty_dataset_witness :
  @TrainCnn.main Z scalar_Z torch_first optim_Z empty_folders 0
  = ([TrainCnn.UsingDevice "cpu"], Raise FileNotFoundError)
  /\ TrainCnn.ImageFolder empty_folders = Raise FileNotFoundError
  /\ (forall epoch,
         ~ In (TrainCnn.EpochBegin epoch)
              (fst (@TrainCnn.main Z scalar_Z torch_first optim_Z empty_folders 0)))
  /\ (forall epoch,
         ~ In (TrainCnn.BatchDone epoch)
              (fst (@TrainCnn.main Z scalar_Z torch_first optim_Z empty_folders 0)))
  /\ ~ In TrainCnn.ModelSaved
          (fst (@TrainCnn.main Z scalar_Z torch_first optim_Z empty_folders 0)).
Proof.
  apply (@training_fails_on_empty_dataset Z scalar_Z torch_first optim_Z
           empty_folders 0).
  reflexivity.
Defined.

(** C3, as stated, fails: the exception that ends the run on an empty
    dataset is the built-in [FileNotFoundError]; neither it nor any other
    exception of the three programs is a [ConfigurationError]. *)
Lemma training_failure_is_no_configuration_error :
  exists e,
    snd (@TrainCnn.main Z scalar_Z torch_first optim_Z empty_folders 0) = Raise e
    /\ class_name e = "FileNotFoundError"
    /\ class_name e <> "ConfigurationError"
    /\ (forall e', class_name e' <> "ConfigurationError").
Proof.
  exists FileNotFoundError. split; [reflexivity|]. split; [reflexivity|].
  split; [discriminate|]. intros e'; destruct e'; discriminate.
Qed.

End Instances.

(** * Further properties of the three programs *)

(** ** The input sizes [forward] accepts *)

Section InputFacts.

Context {F : Type} `{Scalar F} `{Torch F}.

Import Net Arch.

Lemma window_same (h : Z) : window_out h 3 1 1 = h.
Proof. unfold window_out. rewrite Z.div_1_r. lia. Qed.

Lemma window_half (h : Z) : window_out h 2 2 0 = h / 2.
Proof.
  unfold window_out. replace (h + 2 * 0 - 2) with (h + (-1) * 2) by lia.
  rewrite Z.div_add by lia. lia.
Qed.

(** One block of [forward]: a 3 x 3 convolution with stride 1 and padding
    1, ReLU, and the 2 x 2 pooling. *)
Lemma block_ok (l : Conv2d F) (x : Tensor F) (B C Hi Wi Co : Z) :
  shape x = [B; C; Hi; Wi] ->
  shape (conv_weight l) = [Co; C; 3; 3] ->
  conv_stride l = 1 -> conv_padding l = 1 ->
  0 <= B -> 0 <= Co -> 2 <= Hi -> 2 <= Wi ->
  exists x1 y, conv2d l x = Ok x1
    /\ max_pool2d 2 2 (relu x1) = Ok y
    /\ shape y = [B; Co; Hi / 2; Wi / 2].
Proof.
  intros Hx Hw Hs Hp HB HCo HH HW.
  destruct (conv2d_shape l x B C Hi Wi Co 3 3 Hx Hw HB HCo)
    as (x1 & E1 & S1 & _); try (rewrite Hs, Hp, window_same; lia).
  rewrite Hs, Hp, !window_same in S1.
  destruct (max_pool2d_shape 2 2 (relu x1) B Co Hi Wi S1 HB HCo)
    as (y & E2 & S2 & _); try (rewrite window_half; apply Z.div_str_pos; lia).
  rewrite !window_half in S2. exists x1, y. auto.
Qed.

Lemma block_fail (l : Conv2d F) (x : Tensor F) (B C Hi Wi Co Ci : Z) :
  shape x = [B; C; Hi; Wi] ->
  shape (conv_weight l) = [Co; Ci; 3; 3] ->
  conv_stride l = 1 -> conv_padding l = 1 ->
  C <> Ci \/ Hi < 2 \/ Wi < 2 ->
  (x1 <- conv2d l x ;; max_pool2d 2 2 (relu x1)) = Raise RuntimeError.
Proof.
  intros Hx Hw Hs Hp Hbad.
  unfold conv2d. rewrite Hx, Hw, Hs, Hp, !window_same.
  destruct (Z.eqb_spec C Ci) as [Heq|Hne]; [|reflexivity].
  destruct (Z.ltb_spec 0 Hi); [|reflexivity].
  destruct (Z.ltb_spec 0 Wi); [|reflexivity].
  cbn [andb bind]. unfold max_pool2d. cbn [shape relu]. rewrite !window_half.
  destruct (Z.ltb_spec 0 (Hi / 2)); [|reflexivity].
  destruct (Z.ltb_spec 0 (Wi / 2)); [|reflexivity].
  exfalso. destruct Hbad as [Hc|[Hh|Hw']]; [congruence| |].
  - assert (Hi / 2 = 0) by (apply Z.div_small; lia). lia.
  - assert (Wi / 2 = 0) by (apply Z.div_small; lia). lia.
Qed.

Lemma bind_assoc {A B C : Type} (r : result A) (k1 : A -> result B)
      (k2 : B -> result C) :
  (b <- (a <- r ;; k1 a) ;; k2 b) = (a <- r ;; b <- k1 a ;; k2 b).
Proof. destruct r; reflexivity. Qed.

Lemma input_ok_spec (B C Hi Wi : Z) :
  input_ok [B; C; Hi; Wi] = true <->
  C = 3 /\ 8 <= Hi /\ 8 <= Wi /\ (Hi / 8) * (Wi / 8) = 784.
Proof.
  unfold input_ok. rewrite !andb_true_iff, !Z.eqb_eq, !Z.leb_le. tauto.
Qed.

Lemma eighth (h : Z) : h / 2 / 2 / 2 = h / 8.
Proof. rewrite !Z.div_div by lia. reflexivity. Qed.

(** [forward] up to the first linear layer, on a batch of any size. *)
Lemma features_outcome (m : RetinaCNN F) (N B C Hi Wi : Z) (x : Tensor F) :
  arch m = arch (RetinaCNN_init N) ->
  0 <= B ->
  shape x = [B; C; Hi; Wi] ->
  (input_ok (shape x) = true ->
   exists h, features m x = Ok h /\ shape h = [B; 256])
  /\ (input_ok (shape x) = false -> features m x = Raise RuntimeError).
Proof.
  intros Harch HB Hx.
  destruct (arch_inv m N Harch)
    as ((W1 & S1 & P1) & (W2 & S2 & P2) & (W3 & S3 & P3) & W4 & W5).
  unfold features. rewrite Hx.
  rewrite <- (bind_assoc (conv2d (conv1 m) x)).
  destruct (Z.eq_dec C 3) as [->|HC];
    [|split; [intros Hok; apply input_ok_spec in Hok; lia|intros _];
      rewrite (block_fail (conv1 m) x B C Hi Wi 32 3 Hx W1 S1 P1); auto].
  destruct (Z.le_gt_cases 2 Hi) as [H1|H1];
    [|split; [intros Hok; apply input_ok_spec in Hok; lia|intros _];
      rewrite (block_fail (conv1 m) x B 3 Hi Wi 32 3 Hx W1 S1 P1); auto; lia].
  destruct (Z.le_gt_cases 2 Wi) as [H1'|H1'];
    [|split; [intros Hok; apply input_ok_spec in Hok; lia|intros _];
      rewrite (block_fail (conv1 m) x B 3 Hi Wi 32 3 Hx W1 S1 P1); auto; lia].
  destruct (block_ok (conv1 m) x B 3 Hi Wi 32 Hx W1 S1 P1)
    as (a1 & x2 & E1 & E2 & Sh2); try lia.
  rewrite E1. cbn [bind]. rewrite E2. cbn [bind].
  rewrite <- (bind_assoc (conv2d (conv2 m) x2)).
  destruct (Z.le_gt_cases 4 Hi) as [H2|H2];
    [|split; [intros Hok; apply input_ok_spec in Hok; lia|intros _];
      rewrite (block_fail (conv2 m) x2 B 32 (Hi / 2) (Wi / 2) 64 32 Sh2 W2 S2 P2);
      auto; right; left; apply Z.div_lt_upper_bound; lia].
  destruct (Z.le_gt_cases 4 Wi) as [H2'|H2'];
    [|split; [intros Hok; apply input_ok_spec in Hok; lia|intros _];
      rewrite (block_fail (conv2 m) x2 B 32 (Hi / 2) (Wi / 2) 64 32 Sh2 W2 S2 P2);
      auto; right; right; apply Z.div_lt_upper_bound; lia].
  destruct (block_ok (conv2 m) x2 B 32 (Hi / 2) (Wi / 2) 64 Sh2 W2 S2 P2)
    as (a2 & x4 & E3 & E4 & Sh4); try lia;
    try (apply Z.div_le_lower_bound; lia).
  rewrite E3. cbn [bind]. rewrite E4. cbn [bind].
  rewrite <- (bind_assoc (conv2d (conv3 m) x4)).
  destruct (Z.le_gt_cases 8 Hi) as [H3|H3];
    [|split; [intros Hok; apply input_ok_spec in Hok; lia|intros _];
      rewrite (block_fail (conv3 m) x4 B 64 (Hi / 2 / 2) (Wi / 2 / 2) 128 64
                          Sh4 W3 S3 P3);
      auto; right; left; rewrite Z.div_div by lia;
      apply Z.div_lt_upper_bound; lia].
  destruct (Z.le_gt_cases 8 Wi) as [H3'|H3'];
    [|split; [intros Hok; apply input_ok_spec in Hok; lia|intros _];
      rewrite (block_fail (conv3 m) x4 B 64 (Hi / 2 / 2) (Wi / 2 / 2) 128 64
                          Sh4 W3 S3 P3);
      auto; right; right; rewrite Z.div_div by lia;
      apply Z.div_lt_upper_bound; lia].
  destruct (block_ok (conv3 m) x4 B 64 (Hi / 2 / 2) (Wi / 2 / 2) 128 Sh4 W3 S3 P3)
    as (a3 & x6 & E5 & E6 & Sh6); try lia;
    try (rewrite Z.div_div by lia; apply Z.div_le_lower_bound; lia).
  rewrite E5. cbn [bind]. rewrite E6. cbn [bind].
  rewrite !eighth in Sh6.
  destruct (flatten1_shape x6 B 128 (Hi / 8) (Wi / 8) Sh6) as (x7 & E7 & Sh7 & _).
  rewrite E7. cbn [bind].
  destruct (Z.eq_dec ((Hi / 8) * (Wi / 8)) 784) as [Hfit|Hfit].
  - split; [intros _|intros Hbad].
    + rewrite Hfit in Sh7. change (128 * 784) with 100352 in Sh7.
      destruct (linear_shape (fc1 m) x7 B 100352 256 Sh7 W4)
        as (x8 & E8 & Sh8 & _); try lia.
      rewrite E8. cbn [bind]. exists (relu x8). auto.
    + exfalso.
      assert (Hok : input_ok [B; 3; Hi; Wi] = true)
        by (apply input_ok_spec; auto).
      congruence.
  - split; [intros Hok; apply input_ok_spec in Hok; lia|intros _].
    unfold linear. rewrite Sh7, W4.
    destruct (Z.eqb_spec (128 * (Hi / 8 * (Wi / 8))) 100352) as [E|_]; [lia|].
    reflexivity.
Qed.

(** [forward] on a batch of [B] images of [C] channels and [Hi] x [Wi]
    pixels returns [B] rows of [N] logits when the size is one of
    [input_ok], and raises [RuntimeError], without drawing from the
    generator, for any other size: another number of channels, an image
    smaller than 8 x 8, or a size that does not leave 28 x 28 positions
    for the first linear layer. *)
Theorem forward_accepts_exactly (m : RetinaCNN F) (N B C Hi Wi : Z)
        (x : Tensor F) (g : Generator) :
  arch m = arch (RetinaCNN_init N) ->
  0 <= N -> 0 <= B ->
  shape x = [B; C; Hi; Wi] ->
  (input_ok (shape x) = true ->
   exists y g', forward m x g = (Ok y, g')
                /\ shape y = [B; N]
                /\ Z.of_nat (length (data y)) = B * N)
  /\ (input_ok (shape x) = false -> forward m x g = (Raise RuntimeError, g)).
Proof.
  intros Harch HN HB Hx.
  destruct (features_outcome m N B C Hi Wi x Harch HB Hx) as (Hok & Hbad).
  destruct (arch_inv m N Harch) as (_ & _ & _ & _ & W5).
  unfold forward. split.
  - intros Hin. destruct (Hok Hin) as (h & Eh & Sh). rewrite Eh.
    pose proof (dropout_shape (training m) h g) as Hd.
    destruct (dropout (training m) h g) as [h' g']. simpl in Hd. rewrite Sh in Hd.
    destruct (linear_shape (fc2 m) h' B 256 N Hd W5) as (y & Ey & Sy & Fy); try lia.
    exists y, g'. rewrite Ey. repeat split; auto.
    unfold full, numel in Fy. rewrite Sy in Fy. cbn [fold_right] in Fy. lia.
  - intros Hin. rewrite (Hbad Hin). reflexivity.
Qed.

End InputFacts.

(** ** Saving and loading the parameters *)

Section CheckpointFacts.

Context {F : Type} `{Scalar F} `{Torch F}.

Import Net Arch.

Lemma shape_eqb_refl (s : list Z) : shape_eqb s s = true.
Proof. apply shape_eqb_true. reflexivity. Qed.

Lemma load_param_present (sd : StateDict F) (key : string) (p t : Tensor F) :
  get key sd = Some t -> shape t = shape p -> load_param sd key p = Ok t.
Proof.
  intros Hget Hs. unfold load_param. rewrite Hget, Hs, shape_eqb_refl.
  destruct t as [s d]. simpl in *. subst s. reflexivity.
Qed.

Lemma state_dict_keys (m : RetinaCNN F) :
  map fst (state_dict m)
  = [ "conv1.weight"; "conv1.bias"; "conv2.weight"; "conv2.bias";
      "conv3.weight"; "conv3.bias"; "fc1.weight"; "fc1.bias";
      "fc2.weight"; "fc2.bias" ].
Proof. reflexivity. Qed.

Ltac present_step Hall :=
  match goal with
  | |- context [load_param ?sd ?k ?p] =>
      let t := fresh "t" in
      let Hg := fresh "Hg" in
      let Hs := fresh "Hs" in
      destruct (Hall k (shape p)) as (t & Hg & Hs);
      [cbn; tauto|];
      rewrite (load_param_present sd k p t Hg Hs); cbn [bind]
  end.

(** [load_state_dict] succeeds exactly on the state dicts that hold no
    unknown key and hold, under every key of the module, a tensor of the
    parameter's size; in every other case it raises [RuntimeError]. *)
Theorem load_state_dict_strict (m : RetinaCNN F) (sd : StateDict F) :
  ((forall k t, In (k, t) sd -> In k (map fst (state_dict m)))
   /\ (forall k s, In (k, s) (sizes m) ->
                   exists t, get k sd = Some t /\ shape t = s)
   -> exists m', load_state_dict m sd = Ok m'
                 /\ (forall k p, In (k, p) (state_dict m') -> get k sd = Some p)
                 /\ training m' = training m)
  /\ (~ ((forall k t, In (k, t) sd -> In k (map fst (state_dict m)))
         /\ (forall k s, In (k, s) (sizes m) ->
                         exists t, get k sd = Some t /\ shape t = s))
      -> load_state_dict m sd = Raise RuntimeError).
Proof.
  assert (Hsuff : (forall k t, In (k, t) sd -> In k (map fst (state_dict m)))
                  /\ (forall k s, In (k, s) (sizes m) ->
                                  exists t, get k sd = Some t /\ shape t = s)
                  -> exists m', load_state_dict m sd = Ok m').
  { intros (Hknown & Hall).
    unfold load_state_dict.
    assert (Hk : forallb (fun kv => known_key m (fst kv)) sd = true).
    { apply forallb_forall. intros [k t] Hin. unfold known_key.
      apply existsb_exists. exists k. split; [|apply String.eqb_refl].
      apply (Hknown k t Hin). }
    rewrite Hk. unfold load_conv, load_linear. cbn [append].
    unfold sizes, state_dict in Hall.
    repeat present_step Hall.
    eexists. reflexivity. }
  split.
  - intros Hgood. destruct (Hsuff Hgood) as (m' & Hok).
    exists m'. split; [exact Hok|].
    destruct (load_state_dict_ok m m' sd Hok) as (Hcopy & _ & Htr). auto.
  - intros Hbad.
    destruct (load_state_dict m sd) as [m'|e] eqn:E.
    + exfalso. apply Hbad.
      destruct (load_state_dict_ok m m' sd E) as (Hcopy & Harch & _).
      split.
      * intros k t Hin. unfold load_state_dict in E.
        destruct (forallb (fun kv => known_key m (fst kv)) sd) eqn:Hk; [|discriminate].
        rewrite forallb_forall in Hk. specialize (Hk (k, t) Hin).
        unfold known_key in Hk. apply existsb_exists in Hk as (k' & Hin' & Heq).
        apply String.eqb_eq in Heq. simpl in Heq. subst k'. exact Hin'.
      * intros k s Hin.
        assert (Hs : sizes m' = sizes m) by (unfold arch in Harch; congruence).
        rewrite <- Hs in Hin.
        destruct (sizes_get m' k s Hin) as (p & Hp & Hshape).
        exists p. split; [apply Hcopy; exact Hp|exact Hshape].
    + apply load_state_dict_raises in E. subst e. reflexivity.
Qed.

Lemma load_saved (m saved : RetinaCNN F) :
  arch saved = arch m ->
  load_state_dict m (state_dict saved) = Ok (set_training (training m) saved).
Proof.
  intros Harch.
  unfold arch, sizes, strides, state_dict in Harch. cbn in Harch.
  injection Harch as Hc1w Hc1b Hc2w Hc2b Hc3w Hc3b Hf1w Hf1b Hf2w Hf2b
                      Hs1 Hp1 Hs2 Hp2 Hs3 Hp3.
  unfold load_state_dict.
  assert (Hk : forallb (fun kv => known_key m (fst kv)) (state_dict saved) = true)
    by reflexivity.
  rewrite Hk. unfold load_conv, load_linear. cbn [append].
  repeat match goal with
  | |- context [load_param (state_dict saved) ?k ?p] =>
      rewrite (load_param_present (state_dict saved) k p _ eq_refl)
        by (cbn; congruence);
      cbn [bind]
  end.
  unfold set_training. rewrite <- Hs1, <- Hp1, <- Hs2, <- Hp2, <- Hs3, <- Hp3.
  destruct saved as [[? ? ? ?] [? ? ? ?] [? ? ? ?] [? ?] [? ?] ?].
  reflexivity.
Qed.

(** What [state_dict] saves, [load_state_dict] restores: loading the
    state dict of a module into a module of the same sizes gives back the
    parameters that were saved, and the two modules then compute the same
    [forward] in evaluation mode. *)
Theorem state_dict_round_trip (m saved : RetinaCNN F) :
  arch saved = arch m ->
  exists loaded,
    load_state_dict m (state_dict saved) = Ok loaded
    /\ state_dict loaded = state_dict saved
    /\ training loaded = training m
    /\ forall x g, forward (eval loaded) x g = forward (eval saved) x g.
Proof.
  intros Harch. exists (set_training (training m) saved).
  split; [apply load_saved; exact Harch|]. repeat split.
Qed.

(** A start-up whose checkpoint holds a tensor of another size than the
    module's, under one of its keys, ends in [RuntimeError]. *)
Lemma startup_size_mismatch (fs : Main.FileSystem) (names : list string)
      (sd : StateDict F) (key : string) (t : Tensor F) (s : list Z) :
  Registry.CLASS_NAMES (Main.DATASET_DIR fs) = Ok names ->
  Main.MODEL_PATH fs = Some sd ->
  get key sd = Some t ->
  expected_shape (Py.len names) key = Some s ->
  shape t <> s ->
  Main.startup fs = Raise RuntimeError.
Proof.
  intros Hn Hp Hget Hexp Hne.
  apply (startup_load_failure fs names sd Hn Hp).
  intros svc Hok.
  destruct (startup_ok fs names sd svc Hn Hp Hok) as (_ & Hcopy & Harch & _).
  apply expected_shape_in in Hexp.
  assert (Hs : sizes (Main.model svc) = sizes (RetinaCNN_init (Py.len names)))
    by (unfold arch in Harch; congruence).
  rewrite <- Hs in Hexp.
  destruct (sizes_get _ _ _ Hexp) as (p & Hin & Hshape).
  apply Hcopy in Hin. congruence.
Qed.

End CheckpointFacts.

(** ** More on the class registry *)

Section RegistryOrderFacts.

Import Registry.

Lemma filter_permutation {A : Type} (f : A -> bool) (l l' : list A) :
  Permutation l l' -> Permutation (filter f l) (filter f l').
Proof.
  induction 1 as [|a l l' Hp IH|a b l|l l' l'' H1 IH1 H2 IH2]; simpl.
  - constructor.
  - destruct (f a); [apply perm_skip|]; exact IH.
  - destruct (f a), (f b); try apply Permutation_refl. apply perm_swap.
  - eapply perm_trans; eassumption.
Qed.

(** The registry does not depend on the order in which the file system
    lists the directory: two listings of the same entries give the same
    class names at the same indices. *)
Theorem class_names_ignore_listing_order (es es' : list DirEntry) :
  Permutation es es' ->
  CLASS_NAMES (Directory es) = CLASS_NAMES (Directory es').
Proof.
  intros Hp. unfold CLASS_NAMES. cbn [exists_ iterdir bind]. f_equal.
  apply sorted_unique; try apply sorted_is_sorted.
  eapply perm_trans; [apply Permutation_sym, sorted_is_permutation|].
  eapply perm_trans; [|apply sorted_is_permutation].
  unfold subdir_names. apply Permutation_map. apply filter_permutation. exact Hp.
Qed.

Lemma class_names_ignore_listing_order_witness :
  CLASS_NAMES (Directory [ {| name := "normal"; is_dir := true |};
                           {| name := "dr"; is_dir := true |} ])
  = CLASS_NAMES (Directory [ {| name := "dr"; is_dir := true |};
                             {| name := "normal"; is_dir := true |} ]).
Proof.
  apply class_names_ignore_listing_order. apply perm_swap.
Defined.

Lemma filter_map_NoDup (es : list DirEntry) :
  NoDup (map name es) -> NoDup (subdir_names es).
Proof.
  unfold subdir_names. induction es as [|e es IH]; simpl; intros Hnd; [constructor|].
  inversion Hnd as [|? ? Hnotin Hrest]; subst.
  destruct (is_dir e); [|auto]. simpl. constructor; [|auto].
  intros Hin. apply Hnotin. apply in_map_iff in Hin as (e' & He' & Hf).
  apply filter_In in Hf as (Hf & _). apply in_map_iff. exists e'. auto.
Qed.

(** The entries of one directory bear distinct names; the registry then
    holds each subdirectory name once, nothing else, and no two indices
    give the same label. *)
Theorem class_names_distinct (es : list DirEntry) (names : list string) :
  NoDup (map name es) ->
  CLASS_NAMES (Directory es) = Ok names ->
  NoDup names
  /\ (forall label,
         In label names <->
         exists e, In e es /\ is_dir e = true /\ name e = label)
  /\ (forall i j label,
         0 <= i -> 0 <= j ->
         Py.getitem names i = Ok label -> Py.getitem names j = Ok label ->
         i = j).
Proof.
  intros Hnd Hnames. unfold CLASS_NAMES in Hnames.
  cbn [exists_ iterdir bind] in Hnames. injection Hnames as <-.
  assert (Hnd' : NoDup (sorted (subdir_names es))).
  { eapply Permutation_NoDup; [apply sorted_is_permutation|].
    apply filter_map_NoDup. exact Hnd. }
  split; [exact Hnd'|]. split.
  - intros label. split.
    + intros Hin.
      apply (Permutation_in _ (Permutation_sym (sorted_is_permutation _))) in Hin.
      unfold subdir_names in Hin. apply in_map_iff in Hin as (e & He & Hf).
      apply filter_In in Hf as (Hf & Hd). exists e. auto.
    + intros (e & He & Hd & Hn).
      apply (Permutation_in _ (sorted_is_permutation _)).
      unfold subdir_names. apply in_map_iff. exists e. split; [exact Hn|].
      apply filter_In. auto.
  - intros i j label Hi Hj Gi Gj.
    unfold Py.getitem in Gi, Gj.
    destruct (Z.ltb_spec i 0); [lia|]. destruct (Z.ltb_spec j 0); [lia|].
    destruct ((0 <=? i) && (i <? Z.of_nat (length (sorted (subdir_names es)))))
      eqn:Ei; [|discriminate].
    destruct ((0 <=? j) && (j <? Z.of_nat (length (sorted (subdir_names es)))))
      eqn:Ej; [|discriminate].
    destruct (nth_error (sorted (subdir_names es)) (Z.to_nat i)) as [a|] eqn:Ni;
      [|discriminate].
    destruct (nth_error (sorted (subdir_names es)) (Z.to_nat j)) as [b|] eqn:Nj;
      [|discriminate].
    injection Gi as ->. injection Gj as ->.
    assert (Hlt : (Z.to_nat i < length (sorted (subdir_names es)))%nat).
    { apply nth_error_Some. congruence. }
    assert (Z.to_nat i = Z.to_nat j).
    { apply (proj1 (NoDup_nth_error _) Hnd' _ _ Hlt). congruence. }
    lia.
Qed.

Lemma class_names_distinct_witness :
  NoDup ["cataract"; "dr"]
  /\ (forall label,
         In label ["cataract"; "dr"] <->
         exists e, In e [ {| name := "dr"; is_dir := true |};
                          {| name := "notes.txt"; is_dir := false |};
                          {| name := "cataract"; is_dir := true |} ]
                   /\ is_dir e = true /\ name e = label)
  /\ (forall i j label,
         0 <= i -> 0 <= j ->
         Py.getitem ["cataract"; "dr"] i = Ok label ->
         Py.getitem ["cataract"; "dr"] j = Ok label ->
         i = j).
Proof.
  apply (class_names_distinct
           [ {| name := "dr"; is_dir := true |};
             {| name := "notes.txt"; is_dir := false |};
             {| name := "cataract"; is_dir := true |} ]).
  - repeat constructor; simpl; intuition discriminate.
  - reflexivity.
Defined.

End RegistryOrderFacts.

(** ** Start-up and the routes of a started service *)

Section ServiceFacts.

Context {F : Type} `{Scalar F} `{Torch F} `{Vision F}.

Import Net Arch TopkContract.

Lemma started_service (fs : Main.FileSystem) (svc : Main.Service) :
  Main.startup fs = Ok svc ->
  Registry.CLASS_NAMES (Main.DATASET_DIR fs) = Ok (Main.CLASS_NAMES svc)
  /\ training (Main.model svc) = false
  /\ arch (Main.model svc) = arch (RetinaCNN_init (Py.len (Main.CLASS_NAMES svc))).
Proof.
  intros Hstart. pose proof Hstart as Hs. unfold Main.startup in Hs.
  destruct (Registry.CLASS_NAMES (Main.DATASET_DIR fs)) as [names|] eqn:En;
    [|discriminate].
  cbn [bind] in Hs.
  destruct (Main.MODEL_PATH fs) as [sd|] eqn:Ep; [|discriminate].
  destruct (startup_ok fs names sd svc En Ep Hstart) as (-> & _ & Harch & Htr).
  auto.
Qed.

(** How the import of main.py (and of app.py, which starts up in the
    same way) ends, when the checkpoint file, if there is one, holds a
    state dict.  A path that exists but is no directory is not replaced by
    the default labels: the import fails with [NotADirectoryError].  With a
    usable path and no checkpoint file it fails with [FileNotFoundError].
    When it succeeds the service holds the registry computed from the
    directory, a module in evaluation mode, and a final layer as wide as
    the registry is long. *)
Theorem startup_outcomes (fs : Main.FileSystem) :
  (Main.DATASET_DIR fs = Registry.NotDir ->
   Main.startup fs = Raise NotADirectoryError)
  /\ (Main.DATASET_DIR fs <> Registry.NotDir -> Main.MODEL_PATH fs = None ->
      Main.startup fs = Raise FileNotFoundError)
  /\ (forall svc, Main.startup fs = Ok svc ->
        Registry.CLASS_NAMES (Main.DATASET_DIR fs) = Ok (Main.CLASS_NAMES svc)
        /\ training (Main.model svc) = false
        /\ shape (fc_weight (fc2 (Main.model svc)))
           = [Py.len (Main.CLASS_NAMES svc); 256])
  /\ App.startup fs = Main.startup fs.
Proof.
  split; [|split; [|split]].
  - intros Hd. unfold Main.startup. rewrite Hd. reflexivity.
  - intros Hd Hp. unfold Main.startup.
    destruct (Main.DATASET_DIR fs); [| congruence |]; rewrite Hp; reflexivity.
  - intros svc Hs. destruct (started_service fs svc Hs) as (Hn & Htr & Harch).
    split; [exact Hn|]. split; [exact Htr|].
    destruct (arch_inv _ _ Harch) as (_ & _ & _ & _ & W5). exact W5.
  - reflexivity.
Qed.

Lemma listed_names (names : list string) :
  listed (Some (Py.JList (map Py.JStr names))) = names.
Proof.
  unfold listed. induction names as [|n names IH]; [reflexivity|].
  simpl. f_equal. exact IH.
Qed.

Section Contracts.

(** The run-time operations as documented: [softmax] returns a row of the
    length of its input, [transform] resizes to 3 x 224 x 224, and
    [torch.topk] meets its contract on every row. *)
Hypothesis softmax_length : forall l, length (softmax l) = length l.
Hypothesis transform_size : forall im, shape (transform im) = [3; 224; 224].
Hypothesis topk_contract :
  forall probs k, 0 <= k <= Py.len probs -> holds probs k (topk probs k) = true.

(** A module with the sizes of [RetinaCNN(N)] for N >= 1 class names, in
    evaluation mode, answers a decodable upload with status 200. *)
Lemma predict_ok (svc : Main.Service) (file : Py.UploadFile) (image : Image)
      (now : string) (g : Generator) :
  arch (Main.model svc) = arch (RetinaCNN_init (Py.len (Main.CLASS_NAMES svc))) ->
  training (Main.model svc) = false ->
  Main.CLASS_NAMES svc <> [] ->
  Image_open_RGB (Py.contents file) = Ok image ->
  exists body,
    Main.predict svc file now g = ({| Py.content := body; Py.status_code := 200 |}, g).
Proof.
  intros Harch Heval Hne Himg.
  destruct (infer_row_length_arch (Main.model svc) _ file image g
              softmax_length transform_size Harch (len_nonneg _) Heval Himg)
    as (probs & Hinf & Hlen).
  assert (Hp : probs <> []).
  { intros ->. destruct (Main.CLASS_NAMES svc); [congruence|discriminate Hlen]. }
  assert (Hk : 0 <= Z.min 3 (Py.len (Main.CLASS_NAMES svc)) <= Py.len probs).
  { pose proof (len_nonneg (Main.CLASS_NAMES svc)). lia. }
  destruct (respond_ok (Main.CLASS_NAMES svc) (Py.filename file) now probs
                       Hp Hlen (topk_contract probs _ Hk)) as (a & _ & _ & Hbody).
  eexists. apply (predict_respond svc file now g g probs _ Hinf Hbody).
Qed.

(** Whenever main.py answers an upload with status 200, the prediction is
    "uncertain" or one of the classes that [/health] lists, and
    [top_predictions] holds min(3, N) entries, each for one of those
    classes ([torch.topk] meeting its contract). *)
Theorem predict_answers_with_listed_label
        (svc : Main.Service) (file : Py.UploadFile)
        (now device : string) (g : Generator) :
  Py.status_code (fst (Main.predict svc file now g)) = 200 ->
  exists label tops,
    Py.lookup "prediction" (Py.content (fst (Main.predict svc file now g)))
    = Some (Py.JStr label)
    /\ (label = "uncertain"
        \/ In label (listed (Py.lookup "classes" (Main.health_check svc device))))
    /\ Py.lookup "top_predictions" (Py.content (fst (Main.predict svc file now g)))
       = Some (Py.JList tops)
    /\ Py.len tops = Z.min 3 (Py.len (Main.CLASS_NAMES svc))
    /\ (forall t, In t tops ->
          exists c, Py.lookup "class" t = Some (Py.JStr c)
                    /\ In c (listed (Py.lookup "classes" (Main.health_check svc device)))).
Proof.
  unfold Main.predict.
  destruct (Main.infer (Main.model svc) file g) as [[probs|e] g'];
    cbn [bind]; [|discriminate].
  destruct (Main.respond (Main.CLASS_NAMES svc) (Py.filename file) now probs)
    as [body|e] eqn:Er; [|discriminate].
  intros _. cbn [fst Py.content].
  destruct (respond_tops _ _ _ _ _ Er) as (tops & Htops & Hk & Hentries).
  destruct (respond_inv _ _ _ _ _ Er) as (a & p & label & tops0 & _ & _ & Hl & Hb).
  pose proof (topk_contract probs _ Hk) as Hholds.
  destruct (topk probs (Z.min 3 (Py.len (Main.CLASS_NAMES svc)))) as [vals idxs].
  destruct (holds_props _ _ _ _ Hholds) as (Hlk & _).
  cbn [fst snd] in Hentries.
  destruct (top_entries_inv _ _ _ _ _ Hentries) as (Hlen & Hall).
  unfold Main.health_check. cbn [Py.lookup Py.field String.eqb Ascii.eqb Bool.eqb].
  rewrite listed_names.
  eexists _, tops. split; [rewrite Hb; reflexivity|]. split.
  { destruct (Main.Qltb p Main.confidence_threshold);
      [left; reflexivity|right; exact (getitem_In _ _ _ Hl)]. }
  split; [exact Htops|]. split.
  { unfold Py.len in *. rewrite Hlen. exact Hlk. }
  intros t Ht. rewrite Forall_forall in Hall. exact (Hall t Ht).
Qed.

(** The same for app.py, which has no gate: the body always names one of
    the classes that [/status] lists. *)
Theorem app_predict_answers_with_listed_label
        (fs : Main.FileSystem) (svc : Main.Service) (file : Py.UploadFile)
        (image : Image) (now device : string) (g : Generator) :
  App.startup fs = Ok svc ->
  Main.CLASS_NAMES svc <> [] ->
  Image_open_RGB (Py.contents file) = Ok image ->
  exists body label,
    App.predict svc file now g = (Ok body, g)
    /\ Py.lookup "prediction" body = Some (Py.JStr label)
    /\ In label (listed (Py.lookup "classes" (App.status svc device))).
Proof.
  intros Hstart Hne Himg.
  destruct (infer_row_length fs svc file image g softmax_length transform_size
                             Hstart Himg) as (probs & Hinf & Hlen).
  assert (Hp : probs <> []).
  { intros ->. destruct (Main.CLASS_NAMES svc); [congruence|discriminate Hlen]. }
  destruct (argmax_first_max probs Hp) as (a & Ha & (Hrange & _)).
  unfold App.predict. rewrite Hinf. cbn [bind]. unfold App.respond.
  rewrite Ha. cbn [bind].
  rewrite (getitem_in_range probs a 0%Q) by exact Hrange. cbn [bind].
  rewrite (getitem_in_range (Main.CLASS_NAMES svc) a "") by lia. cbn [bind].
  eexists _, _. split; [reflexivity|]. split; [reflexivity|].
  unfold App.status. cbn [Py.lookup Py.field String.eqb Ascii.eqb Bool.eqb].
  rewrite listed_names. apply nth_In. unfold Py.len in *. lia.
Qed.

(** With an empty registry (an image directory without class folders)
    a started service answers every decodable upload with an error:
    status 500 from main.py, an [IndexError] leaving the handler of
    app.py. *)
Theorem empty_registry_answers_errors
        (fs : Main.FileSystem) (svc : Main.Service) (file : Py.UploadFile)
        (image : Image) (now : string) (g : Generator) :
  Main.startup fs = Ok svc ->
  Main.CLASS_NAMES svc = [] ->
  Image_open_RGB (Py.contents file) = Ok image ->
  Main.predict svc file now g
  = ({| Py.content := Py.JDict [("error", Py.JStr (exc_str IndexError))];
        Py.status_code := 500 |}, g)
  /\ App.predict svc file now g = (Raise IndexError, g).
Proof.
  intros Hstart Hnil Himg.
  destruct (infer_row_length fs svc file image g softmax_length transform_size
                             Hstart Himg) as (probs & Hinf & Hlen).
  rewrite Hnil in Hlen.
  assert (probs = []) as ->.
  { destruct probs; [reflexivity|discriminate Hlen]. }
  unfold Main.predict, App.predict. rewrite Hinf. split; reflexivity.
Qed.

End Contracts.

End ServiceFacts.

(** ** The two services side by side, and the reported confidence *)

Section AgreementFacts.

Context {F : Type} `{Scalar F} `{Torch F} `{Vision F}.

(** Whenever main.py builds a body, app.py builds one from the same
    probabilities, with the same file name and the same confidence; each
    body carries the time stamp of its own clock ([datetime.now()] in
    main.py, [datetime.utcnow()] in app.py); the two predictions are the
    same when the arg-max probability reaches the threshold, and otherwise
    main.py says "uncertain" where app.py names the arg-max class. *)
Theorem services_agree (names : list string) (fname now utcnow : string)
        (probs : list Q) (body : Py.json) :
  Main.respond names fname now probs = Ok body ->
  exists body' a p label,
    App.respond names fname utcnow probs = Ok body'
    /\ is_first_max probs a
    /\ Py.getitem probs a = Ok p
    /\ Py.getitem names a = Ok label
    /\ Py.lookup "filename" body' = Py.lookup "filename" body
    /\ Py.lookup "confidence" body' = Py.lookup "confidence" body
    /\ Py.lookup "timestamp" body = Some (Py.JStr now)
    /\ Py.lookup "timestamp" body' = Some (Py.JStr utcnow)
    /\ Py.lookup "prediction" body' = Some (Py.JStr label)
    /\ ((Main.confidence_threshold <= p)%Q ->
        Py.lookup "prediction" body = Some (Py.JStr label))
    /\ ((p < Main.confidence_threshold)%Q ->
        Py.lookup "prediction" body = Some (Py.JStr "uncertain")).
Proof.
  intros Hbody.
  destruct (respond_inv names fname now probs body Hbody)
    as (a & p & label & tops & Ha & Hp & Hl & ->).
  assert (Hmax : is_first_max probs a).
  { destruct probs as [|x rest]; [discriminate Ha|].
    destruct (argmax_first_max (x :: rest) ltac:(discriminate)) as (a' & Ha' & Hm).
    rewrite Ha in Ha'. injection Ha' as <-. exact Hm. }
  unfold App.respond. rewrite Ha. cbn [bind]. rewrite Hp. cbn [bind].
  rewrite Hl. cbn [bind].
  eexists _, a, p, label. split; [reflexivity|].
  repeat (split; [first [assumption|reflexivity]|]).
  split.
  - intros Hge. apply Qltb_ge in Hge. cbn. rewrite Hge. reflexivity.
  - intros Hlt. apply Qltb_lt in Hlt. cbn. rewrite Hlt. reflexivity.
Qed.

(** What makes app.py fail makes main.py answer 500 with the text of that
    exception, and leaves the generator in the same state. *)
Theorem main_reports_what_app_raises (svc : Main.Service) (file : Py.UploadFile)
        (now : string) (g g' : Generator) (e : PyExc) :
  App.predict svc file now g = (Raise e, g') ->
  Main.predict svc file now g
  = ({| Py.content := Py.JDict [("error", Py.JStr (exc_str e))];
        Py.status_code := 500 |}, g').
Proof.
  unfold App.predict, Main.predict.
  destruct (Main.infer (Main.model svc) file g) as [[probs|e0] g0]; cbn [bind].
  2:{ intros [= <- <-]. reflexivity. }
  unfold App.respond, Main.respond.
  destruct (Py.argmax probs) as [a|e1]; cbn [bind];
    [|intros [= <- <-]; reflexivity].
  destruct (Py.getitem probs a) as [p|e1]; cbn [bind];
    [|intros [= <- <-]; reflexivity].
  destruct (Py.getitem (Main.CLASS_NAMES svc) a) as [label|e1]; cbn [bind];
    [|intros [= <- <-]; reflexivity].
  discriminate.
Qed.

(** The handler of main.py lets no exception out and has two kinds of
    answer only: status 200 with the six keys of a prediction and no
    "error", or status 500 with the single key "error". *)
Theorem predict_answers_200_or_500 (svc : Main.Service) (file : Py.UploadFile)
        (now : string) (g : Generator) :
  let r := fst (Main.predict svc file now g) in
  (Py.status_code r = 200
   /\ Py.keys (Py.content r)
      = ["filename"; "prediction"; "confidence"; "top_predictions";
         "message"; "timestamp"]
   /\ Py.lookup "error" (Py.content r) = None)
  \/ (Py.status_code r = 500
      /\ Py.keys (Py.content r) = ["error"]
      /\ exists e, Py.lookup "error" (Py.content r) = Some (Py.JStr (exc_str e))).
Proof.
  unfold Main.predict.
  destruct (Main.infer (Main.model svc) file g) as [[probs|e] g']; cbn [bind].
  2:{ right. split; [reflexivity|]. split; [reflexivity|]. exists e. reflexivity. }
  destruct (Main.respond (Main.CLASS_NAMES svc) (Py.filename file) now probs)
    as [body|e] eqn:Er.
  - left. destruct (respond_inv _ _ _ _ _ Er) as (a & p & label & tops & _ & _ & _ & ->).
    split; [reflexivity|]. split; reflexivity.
  - right. split; [reflexivity|]. split; [reflexivity|]. exists e. reflexivity.
Qed.


End AgreementFacts.

(** ** A run of the training script on a dataset with images *)

Section TrainRunFacts.

Context {F : Type} `{Scalar F} `{Torch F} `{@TrainCnn.Optim F _}.

Import Net Arch TrainCnn TrainNotions.

Lemma then_ok {A B : Type} (m : Run A) (k : A -> Run B) (tr : list Event) (a : A) :
  m = (tr, Ok a) -> then_ m k = ((tr ++ fst (k a))%list, snd (k a)).
Proof. intros ->. unfold then_. destruct (k a). reflexivity. Qed.

Lemma then_lift {A B : Type} (a : A) (k : A -> Run B) :
  then_ (lift (Ok a)) k = k a.
Proof. unfold then_, lift. destruct (k a). reflexivity. Qed.

Lemma then_emit {B : Type} (ev : Event) (k : unit -> Run B) :
  then_ (emit ev) k = (ev :: fst (k tt), snd (k tt)).
Proof. unfold then_, emit. destruct (k tt). reflexivity. Qed.

Lemma epochs_begun_app (t1 t2 : list Event) :
  epochs_begun (t1 ++ t2) = (epochs_begun t1 ++ epochs_begun t2)%list.
Proof. apply flat_map_app. Qed.

Lemma accuracies_app (t1 t2 : list Event) :
  accuracies (t1 ++ t2) = (accuracies t1 ++ accuracies t2)%list.
Proof. apply flat_map_app. Qed.

Lemma batches_quiet (e : Z) (n : nat) :
  epochs_begun (repeat (BatchDone e) n) = []
  /\ accuracies (repeat (BatchDone e) n) = []
  /\ ~ In ModelSaved (repeat (BatchDone e) n).
Proof.
  induction n as [|n (IH1 & IH2 & IH3)]; simpl; [tauto|].
  repeat split; auto. intros [Hc|Hc]; [discriminate|contradiction].
Qed.

Lemma count_equal_bounds (predicted labels : list Z) :
  0 <= count_equal predicted labels <= Py.len labels.
Proof.
  unfold count_equal, Py.len.
  pose proof (filter_length_le (fun pl : Z * Z => fst pl =? snd pl)
                               (combine predicted labels)) as Hf.
  rewrite length_combine in Hf. lia.
Qed.

Lemma arch_set_training (b : bool) (m : RetinaCNN F) : arch (set_training b m) = arch m.
Proof. reflexivity. Qed.

Lemma truediv_nonzero (a : Q) (n : Z) :
  n <> 0 -> truediv a (inject_Z n) = Ok (a / inject_Z n)%Q.
Proof.
  intros Hn. unfold truediv.
  destruct (Qeq_bool (inject_Z n) 0) eqn:E; [|reflexivity].
  apply Qeq_bool_eq in E. unfold Qeq in E. simpl in E. lia.
Qed.

Lemma images_of_nonempty (l : list ClassFolder) (c : string) :
  existsb (fun cf => is_nil (images cf)) l = false ->
  In c (map folder l) -> images_of l c <> [].
Proof.
  intros Hne Hc. apply in_map_iff in Hc as (cf0 & Hname & Hin0).
  unfold images_of.
  destruct (find (fun x => String.eqb (folder x) c) l) as [cf1|] eqn:Ef.
  - apply find_some in Ef as (Hin1 & _). intros Hnil.
    assert (Himg : images cf1 = []).
    { pose proof (sorted_is_permutation (images cf1)) as Hp. rewrite Hnil in Hp.
      apply Permutation_sym, Permutation_nil in Hp. exact Hp. }
    assert (existsb (fun c0 => is_nil (images c0)) l = true); [|congruence].
    apply existsb_exists. exists cf1. split; [exact Hin1|]. rewrite Himg. reflexivity.
  - exfalso. apply (find_none _ _ Ef) in Hin0.
    rewrite Hname, String.eqb_refl in Hin0. discriminate.
Qed.

(** What [ImageFolder] has built when it returns. *)
Lemma image_folder_inv (d : DataDir) (ds : Dataset) :
  ImageFolder d = Ok ds ->
  exists l,
    d = ClassFolders l /\ l <> []
    /\ existsb (fun cf => is_nil (images cf)) l = false
    /\ classes ds = Registry.sorted (map folder l)
    /\ samples ds
       = flat_map (fun ic : Z * string =>
                     map (fun f => (f, fst ic)) (images_of l (snd ic)))
                  (combine (zrange (Py.len (classes ds))) (classes ds)).
Proof.
  unfold ImageFolder. destruct d as [|l]; [discriminate|].
  destruct l as [|cf l]; [discriminate|]. cbn [is_nil].
  destruct (existsb (fun c => is_nil (images c)) (cf :: l)) eqn:Eempty; [discriminate|].
  intros [= <-]. exists (cf :: l). cbn [classes samples].
  split; [reflexivity|]. split; [discriminate|]. split; [exact Eempty|].
  split; reflexivity.
Qed.

Lemma in_combine_zrange (cs : list string) (i : Z) :
  0 <= i < Py.len cs ->
  In (i, nth (Z.to_nat i) cs "") (combine (zrange (Py.len cs)) cs).
Proof.
  intros Hi. unfold Py.len in Hi.
  assert (Hn : nth (Z.to_nat i) (combine (zrange (Py.len cs)) cs) (0, "")
               = (i, nth (Z.to_nat i) cs "")).
  { rewrite combine_nth by (rewrite length_zrange; unfold Py.len; lia).
    f_equal. unfold zrange, Py.len. rewrite Nat2Z.id.
    change 0 with (Z.of_nat 0) at 1. rewrite map_nth, seq_nth by lia.
    simpl. lia. }
  rewrite <- Hn. apply nth_In.
  rewrite length_combine, length_zrange. unfold Py.len. lia.
Qed.

(** The labels of the samples are the positions of the classes, and every
    class has a sample. *)
Lemma image_folder_labels (d : DataDir) (ds : Dataset) :
  ImageFolder d = Ok ds ->
  (forall f i, In (f, i) (samples ds) -> 0 <= i < Py.len (classes ds))
  /\ (forall i, 0 <= i < Py.len (classes ds) -> exists f, In (f, i) (samples ds)).
Proof.
  intros Hds.
  destruct (image_folder_inv d ds Hds) as (l & _ & _ & Hne & Hcs & Hsm).
  split.
  - intros f i Hin. rewrite Hsm in Hin.
    apply in_flat_map in Hin as ([i' c] & Hic & Hin).
    apply in_map_iff in Hin as (f' & [= _ <-] & _). cbn [fst].
    apply in_combine_l in Hic. apply in_zrange in Hic. exact Hic.
  - intros i Hi.
    assert (Hc : In (nth (Z.to_nat i) (classes ds) "") (map folder l)).
    { apply (Permutation_in _ (Permutation_sym (sorted_is_permutation _))).
      rewrite <- Hcs. apply nth_In. unfold Py.len in Hi. lia. }
    pose proof (images_of_nonempty l _ Hne Hc) as Himg.
    destruct (images_of l (nth (Z.to_nat i) (classes ds) "")) as [|f fs] eqn:Ei;
      [congruence|].
    exists f. rewrite Hsm. apply in_flat_map.
    exists (i, nth (Z.to_nat i) (classes ds) ""). split.
    + apply in_combine_zrange. exact Hi.
    + cbn [fst snd]. rewrite Ei. left. reflexivity.
Qed.

(** The samples of a dataset that [ImageFolder] built are not empty. *)
Lemma image_folder_samples (d : DataDir) (ds : Dataset) :
  ImageFolder d = Ok ds -> 0 < Py.len (samples ds).
Proof.
  intros Hds.
  destruct (image_folder_inv d ds Hds) as (l & _ & Hl & _ & Hcs & _).
  destruct (image_folder_labels d ds Hds) as (_ & Hevery).
  assert (Hpos : 0 < Py.len (classes ds)).
  { rewrite Hcs. unfold Py.len.
    rewrite <- (Permutation_length (sorted_is_permutation _)), length_map.
    destruct l; [congruence|]. simpl. lia. }
  destruct (Hevery 0 ltac:(lia)) as (f & Hin).
  unfold Py.len. destruct (samples ds); [contradiction|]. simpl. lia.
Qed.

Lemma valid_target_range (N l : Z) :
  0 <= l < N -> valid_target N l = true.
Proof.
  intros Hl. unfold valid_target.
  destruct (Z.leb_spec 0 l); [|lia]. destruct (Z.ltb_spec l N); [|lia].
  apply orb_true_r.
Qed.

Lemma valid_target_above (N l : Z) :
  0 <= l -> N <= l -> valid_target N l = false.
Proof.
  intros Hl HN. unfold valid_target.
  destruct (Z.eqb_spec l (-100)); [lia|].
  destruct (Z.ltb_spec l N); [lia|]. rewrite andb_false_r. reflexivity.
Qed.

(** A shuffled pass over samples whose labels are below [N] holds valid
    labels only; one over samples with a label from [N] on holds an
    invalid label. *)
Lemma shuffled_labels_valid (ds : Dataset) (N : Z) :
  (forall f i, In (f, i) (samples ds) -> 0 <= i < N) ->
  loader_shuffles ds ->
  forall g, labels_valid N (fst (loader_pass ds g)) = true.
Proof.
  intros Hrange Hsh g. unfold labels_valid.
  apply forallb_forall. intros b Hb. apply forallb_forall. intros l Hl.
  apply valid_target_range.
  assert (Hin : In l (map snd (samples ds))).
  { apply (Permutation_in _ (Hsh g)). apply in_flat_map. exists b. auto. }
  apply in_map_iff in Hin as ([f i] & <- & Hin). exact (Hrange f i Hin).
Qed.

Lemma shuffled_labels_invalid (ds : Dataset) (N i : Z) (f : string) :
  In (f, i) (samples ds) -> 0 <= i -> N <= i ->
  loader_shuffles ds ->
  forall g, labels_valid N (fst (loader_pass ds g)) = false.
Proof.
  intros Hin Hi HN Hsh g.
  destruct (labels_valid N (fst (loader_pass ds g))) eqn:E; [|reflexivity].
  exfalso. unfold labels_valid in E.
  assert (Hl : In i (flat_map batch_labels (fst (loader_pass ds g)))).
  { apply (Permutation_in _ (Permutation_sym (Hsh g))).
    apply in_map_iff. exists (f, i). auto. }
  apply in_flat_map in Hl as (b & Hb & Hl).
  rewrite forallb_forall in E. specialize (E b Hb).
  rewrite forallb_forall in E. specialize (E i Hl).
  rewrite (valid_target_above N i Hi HN) in E. discriminate.
Qed.

Section Run.

Hypothesis keeps_sizes : step_keeps_sizes.

(** The batches of one pass: with valid labels they all run; otherwise
    the pass ends in the [IndexError] of the criterion. *)
Lemma run_batches_outcome (N epoch : Z) (bs : list Batch) :
  0 <= N ->
  Forall (fun b => shape (batch_images b)
                   = [Py.len (batch_labels b); 3; 224; 224]) bs ->
  forall st mt,
    arch (model st) = arch (RetinaCNN_init N) ->
    0 <= correct mt <= total mt ->
    if labels_valid N bs
    then exists st' mt',
        run_batches epoch bs st mt
        = (repeat (BatchDone epoch) (length bs), Ok (st', mt'))
        /\ arch (model st') = arch (RetinaCNN_init N)
        /\ total mt' = total mt
                       + fold_right Z.add 0 (map (fun b => Py.len (batch_labels b)) bs)
        /\ 0 <= correct mt' <= total mt'
    else exists n,
        run_batches epoch bs st mt = (repeat (BatchDone epoch) n, Raise IndexError).
Proof.
  intros HN Hbs. induction Hbs as [|b bs Hb Hrest IH]; intros st mt Harch Hmt.
  - cbn [labels_valid forallb]. exists st, mt. simpl. repeat split; auto; lia.
  - cbn [run_batches].
    destruct (forward_batch_shape (model st) N (Py.len (batch_labels b))
                (batch_images b) (gen st) Harch HN (len_nonneg _) Hb)
      as (y & g' & Ey & Sy & _).
    rewrite Ey.
    change (labels_valid N (b :: bs))
      with (forallb (valid_target N) (batch_labels b) && labels_valid N bs).
    assert (Hce : cross_entropy y (batch_labels b)
                  = if forallb (valid_target N) (batch_labels b)
                    then Ok (criterion y (batch_labels b))
                    else Raise IndexError).
    { unfold cross_entropy. rewrite Sy, Z.eqb_refl. reflexivity. }
    rewrite then_lift, Hce.
    destruct (forallb (valid_target N) (batch_labels b)); cbn [andb].
    2:{ exists 0%nat. reflexivity. }
    rewrite then_lift.
    destruct (backward_step (model st) (optimizer st) b (gen st)) as [m' o'] eqn:Eb.
    assert (Harch' : arch m' = arch (RetinaCNN_init N)).
    { rewrite <- Harch. pose proof (keeps_sizes (model st) (optimizer st) b (gen st)) as Hk.
      rewrite Eb in Hk. exact Hk. }
    pose proof (count_equal_bounds (torch_max1 y) (batch_labels b)) as Hcnt.
    assert (Hmt' : 0 <= correct mt + count_equal (torch_max1 y) (batch_labels b)
                   <= total mt + Py.len (batch_labels b)) by lia.
    specialize (IH {| model := m'; optimizer := o'; gen := g' |}
                   {| running_loss := (running_loss mt + criterion y (batch_labels b))%Q;
                      correct := correct mt + count_equal (torch_max1 y) (batch_labels b);
                      total := total mt + Py.len (batch_labels b) |}
                   Harch' Hmt').
    destruct (labels_valid N bs).
    + destruct IH as (st' & mt' & Erun & Ha & Ht & Hc).
      exists st', mt'. rewrite then_emit, Erun. cbn [fst snd].
      cbn in Ht. cbn [map fold_right length repeat app].
      repeat split; auto; lia.
    + destruct IH as (n & Erun). exists (S n).
      rewrite then_emit, Erun. reflexivity.
Qed.

Lemma run_epoch_outcome (N epoch : Z) (ds : Dataset) (st : TrainState) :
  0 <= N ->
  loader_covers ds ->
  0 < Py.len (samples ds) ->
  arch (model st) = arch (RetinaCNN_init N) ->
  if labels_valid N (fst (loader_pass ds (gen st)))
  then exists st' tr acc,
      run_epoch ds epoch st = (tr, Ok st')
      /\ arch (model st') = arch (RetinaCNN_init N)
      /\ epochs_begun tr = [epoch]
      /\ accuracies tr = [acc]
      /\ (0 <= acc <= 100)%Q
      /\ ~ In ModelSaved tr
  else exists n,
      run_epoch ds epoch st
      = (EpochBegin epoch :: repeat (BatchDone epoch) n, Raise IndexError).
Proof.
  intros HN Hcov Hpos Harch. unfold run_epoch.
  cbn [model optimizer gen].
  destruct (Hcov (gen st)) as (Hshapes & Hsum).
  destruct (loader_pass ds (gen st)) as [bs g'] eqn:El. cbn [fst] in *.
  assert (Hzero : 0 <= 0 <= 0) by lia.
  pose proof (run_batches_outcome N epoch bs HN Hshapes
                {| model := train (model st); optimizer := optimizer st; gen := g' |}
                {| running_loss := 0; correct := 0; total := 0 |}
                Harch Hzero) as Hout.
  destruct (labels_valid N bs).
  2:{ destruct Hout as (n & Erun). exists n.
      unfold emit, then_ at 1. cbn [fst snd]. rewrite Erun. reflexivity. }
  destruct Hout as (st' & mt' & Erun & Ha & Ht & Hc).
  cbn [total] in Ht. rewrite Hsum in Ht.
  assert (Hlen : loader_len ds <> 0).
  { unfold loader_len, BATCH_SIZE.
    assert (1 <= (Py.len (samples ds) + 32 - 1) / 32)
      by (apply Z.div_le_lower_bound; lia).
    lia. }
  exists st'. unfold emit, then_ at 1. cbn [fst snd].
  rewrite Erun. unfold then_ at 1.
  rewrite (truediv_nonzero _ _ Hlen).
  rewrite (truediv_nonzero _ (total mt')) by lia.
  unfold lift, then_, emit, ret. cbn [fst snd app].
  eexists _, _. split; [reflexivity|]. split; [exact Ha|].
  destruct (batches_quiet epoch (length bs)) as (Q1 & Q2 & Q3).
  split; [|split; [|split]].
  - cbn [epochs_begun flat_map app]. fold (epochs_begun (repeat (BatchDone epoch) (length bs) ++ [EpochReport epoch (running_loss mt' / inject_Z (loader_len ds)) (inject_Z (100 * correct mt') / inject_Z (total mt'))])).
    rewrite epochs_begun_app, Q1. reflexivity.
  - cbn [accuracies flat_map app]. fold (accuracies (repeat (BatchDone epoch) (length bs) ++ [EpochReport epoch (running_loss mt' / inject_Z (loader_len ds)) (inject_Z (100 * correct mt') / inject_Z (total mt'))])).
    rewrite accuracies_app, Q2. reflexivity.
  - assert (Hpos' : (0 < inject_Z (total mt'))%Q)
      by (rewrite <- (Zlt_Qlt 0); lia).
    split.
    + apply Qle_shift_div_l; [exact Hpos'|].
      unfold Qle. cbn [Qnum Qden Qmult inject_Z]. lia.
    + apply Qle_shift_div_r; [exact Hpos'|].
      unfold Qle. cbn [Qnum Qden Qmult inject_Z]. lia.
  - intros [Hc'|Hin]; [discriminate|].
    apply in_app_or in Hin as [Hin|[Hin|[]]]; [contradiction|discriminate].
Qed.

Lemma run_epochs_ok (N : Z) (ds : Dataset) (es : list Z) :
  0 <= N ->
  loader_covers ds ->
  0 < Py.len (samples ds) ->
  (forall g, labels_valid N (fst (loader_pass ds g)) = true) ->
  forall st,
    arch (model st) = arch (RetinaCNN_init N) ->
    exists st' tr,
      run_epochs ds es st = (tr, Ok st')
      /\ arch (model st') = arch (RetinaCNN_init N)
      /\ epochs_begun tr = es
      /\ length (accuracies tr) = length es
      /\ Forall (fun a => (0 <= a <= 100)%Q) (accuracies tr)
      /\ ~ In ModelSaved tr.
Proof.
  intros HN Hcov Hpos Hvalid. induction es as [|e es IH]; intros st Harch.
  - exists st, []. simpl. repeat split; auto.
  - cbn [run_epochs].
    pose proof (run_epoch_outcome N e ds st HN Hcov Hpos Harch) as Hout.
    rewrite Hvalid in Hout.
    destruct Hout as (st1 & tr1 & acc & E1 & A1 & B1 & C1 & D1 & S1).
    destruct (IH st1 A1) as (st2 & tr2 & E2 & A2 & B2 & C2 & D2 & S2).
    exists st2, (tr1 ++ tr2)%list.
    rewrite (then_ok _ _ tr1 st1 E1), E2. cbn [fst snd].
    split; [reflexivity|]. split; [exact A2|].
    rewrite epochs_begun_app, accuracies_app, B1, B2, C1.
    repeat split; auto.
    + simpl. rewrite C2. reflexivity.
    + constructor; assumption.
    + intros Hin. apply in_app_or in Hin as [Hin|Hin]; contradiction.
Qed.

(** Whatever the labels, the epochs end in a module of the same sizes or
    in the [IndexError] of the criterion. *)
Lemma run_epochs_outcome (N : Z) (ds : Dataset) (es : list Z) :
  0 <= N ->
  loader_covers ds ->
  0 < Py.len (samples ds) ->
  forall st,
    arch (model st) = arch (RetinaCNN_init N) ->
    exists tr r,
      run_epochs ds es st = (tr, r)
      /\ (r = Raise IndexError
          \/ exists st', r = Ok st' /\ arch (model st') = arch (RetinaCNN_init N)).
Proof.
  intros HN Hcov Hpos. induction es as [|e es IH]; intros st Harch.
  - exists [], (Ok st). split; [reflexivity|]. right. exists st. auto.
  - cbn [run_epochs].
    pose proof (run_epoch_outcome N e ds st HN Hcov Hpos Harch) as Hout.
    destruct (labels_valid N (fst (loader_pass ds (gen st)))).
    + destruct Hout as (st1 & tr1 & acc & E1 & A1 & _).
      destruct (IH st1 A1) as (tr2 & r & E2 & Hr).
      exists (tr1 ++ tr2)%list, r.
      rewrite (then_ok _ _ tr1 st1 E1), E2. cbn [fst snd]. auto.
    + destruct Hout as (n & E1). rewrite E1. cbn [then_].
      eexists _, _. split; [reflexivity|]. left. reflexivity.
Qed.

Lemma run_epochs_stops (N e : Z) (ds : Dataset) (es : list Z) (st : TrainState) :
  0 <= N ->
  loader_covers ds ->
  0 < Py.len (samples ds) ->
  (forall g, labels_valid N (fst (loader_pass ds g)) = false) ->
  arch (model st) = arch (RetinaCNN_init N) ->
  exists n,
    run_epochs ds (e :: es) st
    = (EpochBegin e :: repeat (BatchDone e) n, Raise IndexError).
Proof.
  intros HN Hcov Hpos Hbad Harch. cbn [run_epochs].
  pose proof (run_epoch_outcome N e ds st HN Hcov Hpos Harch) as Hout.
  rewrite Hbad in Hout. destruct Hout as (n & E1). exists n.
  rewrite E1. reflexivity.
Qed.

(** A run of the script on a dataset with images and valid labels, taken
    apart. *)
Lemma main_run (d : DataDir) (ds : Dataset) (g : Generator) :
  ImageFolder d = Ok ds ->
  loader_covers ds ->
  (forall g0, labels_valid NUM_CLASSES (fst (loader_pass ds g0)) = true) ->
  exists saved tr,
    main d g = ((UsingDevice DEVICE
                 :: FoundImages (Py.len (samples ds)) (Py.len (classes ds))
                 :: StartTraining :: tr ++ [ModelSaved])%list,
                Ok (state_dict saved))
    /\ arch saved = arch (RetinaCNN_init NUM_CLASSES)
    /\ epochs_begun tr = zrange NUM_EPOCHS
    /\ length (accuracies tr) = Z.to_nat NUM_EPOCHS
    /\ Forall (fun a => (0 <= a <= 100)%Q) (accuracies tr)
    /\ ~ In ModelSaved tr.
Proof.
  intros Hds Hcov Hvalid. unfold main. rewrite Hds.
  pose proof (image_folder_samples d ds Hds) as Hpos.
  destruct (run_epochs_ok NUM_CLASSES ds (zrange NUM_EPOCHS)
              ltac:(unfold NUM_CLASSES; lia) Hcov Hpos Hvalid
              {| model := RetinaCNN_init NUM_CLASSES;
                 optimizer := Adam (RetinaCNN_init NUM_CLASSES) LEARNING_RATE;
                 gen := g |} eq_refl)
    as (st' & tr & Erun & Ha & Hb & Hc & Hd & Hs).
  exists (model st'), tr.
  unfold lift, emit, then_ at 1 2 3 4. cbn [fst snd app].
  rewrite Erun. unfold then_, emit, ret. cbn [fst snd app].
  split; [reflexivity|].
  rewrite length_zrange in Hc. auto.
Qed.

(** Whatever the labels, a run on a dataset with images ends with a
    checkpoint of the sizes of [RetinaCNN(4)] or in [IndexError]. *)
Lemma main_outcome (d : DataDir) (ds : Dataset) (g : Generator) :
  ImageFolder d = Ok ds ->
  loader_covers ds ->
  exists tr r,
    main d g = (tr, r)
    /\ (r = Raise IndexError
        \/ exists saved, r = Ok (state_dict saved)
                         /\ arch saved = arch (RetinaCNN_init NUM_CLASSES)).
Proof.
  intros Hds Hcov. unfold main. rewrite Hds.
  pose proof (image_folder_samples d ds Hds) as Hpos.
  destruct (run_epochs_outcome NUM_CLASSES ds (zrange NUM_EPOCHS)
              ltac:(unfold NUM_CLASSES; lia) Hcov Hpos
              {| model := RetinaCNN_init NUM_CLASSES;
                 optimizer := Adam (RetinaCNN_init NUM_CLASSES) LEARNING_RATE;
                 gen := g |} eq_refl)
    as (tr & r & Erun & Hr).
  unfold lift, emit, then_ at 1 2 3 4. cbn [fst snd app].
  rewrite Erun.
  destruct Hr as [->|(st' & -> & Ha)].
  - eexists _, _. split; [reflexivity|]. left. reflexivity.
  - unfold then_, emit, ret. cbn [fst snd app].
    eexists _, _. split; [reflexivity|]. right. exists (model st'). auto.
Qed.

(** A run over labels that the criterion refuses stops in its first
    epoch. *)
Lemma main_stops (d : DataDir) (ds : Dataset) (g : Generator) :
  ImageFolder d = Ok ds ->
  loader_covers ds ->
  (forall g0, labels_valid NUM_CLASSES (fst (loader_pass ds g0)) = false) ->
  exists n,
    main d g = (UsingDevice DEVICE
                :: FoundImages (Py.len (samples ds)) (Py.len (classes ds))
                :: StartTraining :: EpochBegin 0 :: repeat (BatchDone 0) n,
                Raise IndexError).
Proof.
  intros Hds Hcov Hbad. unfold main. rewrite Hds.
  pose proof (image_folder_samples d ds Hds) as Hpos.
  change (zrange NUM_EPOCHS) with (0 :: map Z.of_nat (seq 1 9)).
  destruct (run_epochs_stops NUM_CLASSES 0 ds (map Z.of_nat (seq 1 9))
              {| model := RetinaCNN_init NUM_CLASSES;
                 optimizer := Adam (RetinaCNN_init NUM_CLASSES) LEARNING_RATE;
                 gen := g |}
              ltac:(unfold NUM_CLASSES; lia) Hcov Hpos Hbad eq_refl)
    as (n & Erun).
  exists n. unfold lift, emit, then_ at 1 2 3 4. cbn [fst snd app].
  rewrite Erun. reflexivity.
Qed.

(** On a dataset of at most four classes, with a loader that yields every
    sample once per pass, shuffled, in batches of 3 x 224 x 224 images, and
    an optimiser that keeps the sizes of the parameters, the script runs to
    its end: it begins the epochs 0 to 9 in order, none more and none less,
    reports one accuracy per epoch, writes the checkpoint once, as its last
    action, and the checkpoint holds the ten parameters of [RetinaCNN(4)]
    with their sizes. *)
Theorem training_runs_every_epoch (d : DataDir) (ds : Dataset) (g : Generator) :
  ImageFolder d = Ok ds ->
  loader_covers ds ->
  loader_shuffles ds ->
  Py.len (classes ds) <= 4 ->
  exists tr sd,
    main d g = ((tr ++ [ModelSaved])%list, Ok sd)
    /\ epochs_begun tr = [0; 1; 2; 3; 4; 5; 6; 7; 8; 9]
    /\ length (accuracies tr) = 10%nat
    /\ ~ In ModelSaved tr
    /\ map (fun kv => (fst kv, shape (snd kv))) sd = sizes (RetinaCNN_init 4).
Proof.
  intros Hds Hcov Hsh H4.
  destruct (image_folder_labels d ds Hds) as (Hrange & _).
  assert (Hvalid : forall g0, labels_valid NUM_CLASSES (fst (loader_pass ds g0)) = true).
  { apply shuffled_labels_valid; [|exact Hsh].
    intros f i Hin. specialize (Hrange f i Hin). unfold NUM_CLASSES. lia. }
  destruct (main_run d ds g Hds Hcov Hvalid)
    as (saved & tr & Em & Ha & Hb & Hc & _ & Hs).
  eexists (_ :: _ :: _ :: tr), _. split; [exact Em|].
  split; [exact Hb|]. split; [exact Hc|]. split.
  - intros [Hin|[Hin|[Hin|Hin]]]; [discriminate|discriminate|discriminate|contradiction].
  - apply (f_equal fst) in Ha. exact Ha.
Qed.

(** In such a run every reported accuracy is a percentage, between 0 and
    100, and ten of them are reported. *)
Theorem reported_accuracy_is_percentage (d : DataDir) (ds : Dataset) (g : Generator) :
  ImageFolder d = Ok ds ->
  loader_covers ds ->
  loader_shuffles ds ->
  Py.len (classes ds) <= 4 ->
  Forall (fun a => (0 <= a <= 100)%Q) (accuracies (fst (main d g)))
  /\ length (accuracies (fst (main d g))) = 10%nat.
Proof.
  intros Hds Hcov Hsh H4.
  destruct (image_folder_labels d ds Hds) as (Hrange & _).
  assert (Hvalid : forall g0, labels_valid NUM_CLASSES (fst (loader_pass ds g0)) = true).
  { apply shuffled_labels_valid; [|exact Hsh].
    intros f i Hin. specialize (Hrange f i Hin). unfold NUM_CLASSES. lia. }
  destruct (main_run d ds g Hds Hcov Hvalid)
    as (saved & tr & Em & _ & _ & Hc & Hd & _).
  rewrite Em. cbn [fst].
  change (accuracies (UsingDevice DEVICE
                      :: FoundImages (Py.len (samples ds)) (Py.len (classes ds))
                      :: StartTraining :: tr ++ [ModelSaved]))
    with (accuracies (tr ++ [ModelSaved])).
  rewrite accuracies_app. cbn [accuracies flat_map app]. rewrite app_nil_r.
  split; [exact Hd|exact Hc].
Qed.

(** The checkpoint such a run writes is one main.py and app.py start up
    with exactly when their registry has four labels, the number of
    classes the script is written for; with any other number of class
    folders the start-up ends in [RuntimeError]. *)
Theorem trained_checkpoint_needs_four_classes
        (d : DataDir) (ds : Dataset) (g : Generator)
        (fs : Main.FileSystem) (names : list string) :
  ImageFolder d = Ok ds ->
  loader_covers ds ->
  Registry.CLASS_NAMES (Main.DATASET_DIR fs) = Ok names ->
  (exists tr, main d g = (tr, Main.torch_load (Main.MODEL_PATH fs))) ->
  (Py.len names = 4 ->
   exists svc, Main.startup fs = Ok svc
               /\ Main.MODEL_PATH fs = Some (state_dict (Main.model svc)))
  /\ (Py.len names <> 4 -> Main.startup fs = Raise RuntimeError).
Proof.
  intros Hds Hcov Hn (tr0 & Hmain).
  destruct (main_outcome d ds g Hds Hcov) as (tr & r & Em & Hr).
  rewrite Em in Hmain. injection Hmain as _ Hload.
  destruct (Main.MODEL_PATH fs) as [sd|] eqn:Ep;
    [|destruct Hr as [->|(saved & -> & _)]; discriminate Hload].
  destruct Hr as [->|(saved & -> & Ha)]; [discriminate Hload|].
  injection Hload as <-.
  split.
  - intros H4. rewrite (startup_unfold fs names _ Hn Ep). rewrite H4.
    rewrite (load_saved (RetinaCNN_init 4) saved Ha). cbn [bind].
    eexists. split; reflexivity.
  - intros H4.
    apply (startup_size_mismatch fs names (state_dict saved) "fc2.weight"
             (fc_weight (fc2 saved)) [Py.len names; 256] Hn Ep);
      [reflexivity|reflexivity|].
    destruct (arch_inv saved NUM_CLASSES Ha) as (_ & _ & _ & _ & W5).
    rewrite W5. unfold NUM_CLASSES. congruence.
Qed.

(** With more than four class folders the script does not train: run on
    the CPU, it stops in its first epoch with the [IndexError] of the
    criterion, on the first batch that holds a label from 4 on; no
    accuracy is reported and no checkpoint is written. *)
Theorem training_stops_on_fifth_class (d : DataDir) (ds : Dataset) (g : Generator) :
  DEVICE = "cpu" ->
  ImageFolder d = Ok ds ->
  loader_covers ds ->
  loader_shuffles ds ->
  4 < Py.len (classes ds) ->
  exists n,
    main d g = (UsingDevice "cpu"
                :: FoundImages (Py.len (samples ds)) (Py.len (classes ds))
                :: StartTraining :: EpochBegin 0 :: repeat (BatchDone 0) n,
                Raise IndexError)
    /\ epochs_begun (fst (main d g)) = [0]
    /\ accuracies (fst (main d g)) = []
    /\ ~ In ModelSaved (fst (main d g)).
Proof.
  intros Hcpu Hds Hcov Hsh H5.
  destruct (image_folder_labels d ds Hds) as (_ & Hevery).
  destruct (Hevery 4 ltac:(lia)) as (f & Hin).
  assert (Hbad : forall g0, labels_valid NUM_CLASSES (fst (loader_pass ds g0)) = false).
  { apply (shuffled_labels_invalid ds NUM_CLASSES 4 f Hin); [lia| |exact Hsh].
    unfold NUM_CLASSES. lia. }
  destruct (main_stops d ds g Hds Hcov Hbad) as (n & Em).
  rewrite Hcpu in Em. exists n. rewrite Em. split; [reflexivity|]. cbn [fst].
  destruct (batches_quiet 0 n) as (Q1 & Q2 & Q3).
  split; [|split].
  - change (epochs_begun (UsingDevice "cpu"
                          :: FoundImages (Py.len (samples ds)) (Py.len (classes ds))
                          :: StartTraining :: EpochBegin 0 :: repeat (BatchDone 0) n))
      with (0 :: epochs_begun (repeat (BatchDone 0) n)).
    rewrite Q1. reflexivity.
  - change (accuracies (UsingDevice "cpu"
                        :: FoundImages (Py.len (samples ds)) (Py.len (classes ds))
                        :: StartTraining :: EpochBegin 0 :: repeat (BatchDone 0) n))
      with (accuracies (repeat (BatchDone 0) n)).
    exact Q2.
  - intros [Hc|[Hc|[Hc|[Hc|Hc]]]]; try discriminate. contradiction.
Qed.

End Run.

End TrainRunFacts.

(** ** The further properties at concrete inputs *)

Section MoreInstances.

Import TopkContract Ref RefTrain TrainNotions.

Lemma softmax2_length (l : list Z) : length (softmax2 l) = length l.
Proof. unfold softmax2. rewrite !length_map. reflexivity. Qed.

Lemma one_batch_covers (ds : TrainCnn.Dataset) :
  @loader_covers Z torch_first optim_one_batch ds.
Proof.
  intros g. cbn. split.
  - constructor; [|constructor]. cbn. unfold Py.len. rewrite length_map. reflexivity.
  - unfold Py.len. rewrite length_map. lia.
Qed.

Lemma identity_step_keeps_sizes : @step_keeps_sizes Z torch_first optim_one_batch.
Proof. intros m o b g. reflexivity. Qed.

Lemma one_batch_shuffles (ds : TrainCnn.Dataset) :
  @loader_shuffles Z torch_first optim_one_batch ds.
Proof.
  intros g. cbn. rewrite app_nil_r. apply Permutation_refl.
Qed.

(** The reference service answers the one-byte upload with status 200. *)
Lemma reference_predict_ok (now : string) :
  exists body,
    @Main.predict Z scalar_Z torch_first vision_Z four_class_service
                  one_byte_upload now 0
    = ({| Py.content := body; Py.status_code := 200 |}, 0).
Proof.
  apply (@predict_ok Z scalar_Z torch_first vision_Z
           softmax2_length (fun _ => eq_refl) (topk_sort_meets_contract false)
           four_class_service one_byte_upload [Byte.x00] now 0).
  - reflexivity.
  - reflexivity.
  - discriminate.
  - reflexivity.
Qed.

Lemma two_folders_labels :
  exists ds,
    TrainCnn.ImageFolder two_folders = Ok ds
    /\ forall g0,
         @labels_valid Z 4 (fst (@TrainCnn.loader_pass Z torch_first optim_one_batch
                                                       ds g0)) = true.
Proof. eexists. split; [reflexivity|]. intros g0. reflexivity. Qed.

Example startup_zero_classes :
  exists svc,
    @Main.startup Z torch_first zero_class_deployment = Ok svc
    /\ Main.CLASS_NAMES svc = [].
Proof. eexists. split; reflexivity. Qed.

Lemma forward_accepts_exactly_witness :
  (input_ok [32; 3; 256; 256] = true ->
   exists y g',
     @Net.forward Z scalar_Z torch_first (Net.RetinaCNN_init 4)
                  {| Net.shape := [32; 3; 256; 256]; Net.data := [] |} 0
     = (Ok y, g')
     /\ Net.shape y = [32; 4]
     /\ Z.of_nat (length (Net.data y)) = 32 * 4)
  /\ (input_ok [32; 3; 256; 256] = false ->
      @Net.forward Z scalar_Z torch_first (Net.RetinaCNN_init 4)
                   {| Net.shape := [32; 3; 256; 256]; Net.data := [] |} 0
      = (Raise RuntimeError, 0)).
Proof.
  apply (@forward_accepts_exactly Z scalar_Z torch_first
           (Net.RetinaCNN_init 4) 4 32 3 256 256
           {| Net.shape := [32; 3; 256; 256]; Net.data := [] |} 0).
  - reflexivity.
  - lia.
  - lia.
  - reflexivity.
Defined.

(** Images of 256 x 256 pixels are refused, images of 224 to 231 pixels a
    side are accepted. *)
Example input_sizes :
  input_ok [1; 3; 256; 256] = false
  /\ input_ok [1; 3; 224; 224] = true
  /\ input_ok [1; 3; 231; 229] = true
  /\ input_ok [1; 1; 224; 224] = false.
Proof. repeat split. Qed.

Lemma state_dict_round_trip_witness :
  exists loaded,
    Net.load_state_dict (@Net.RetinaCNN_init Z torch_first 4)
      (Net.state_dict (Net.eval (@Net.RetinaCNN_init Z torch_first 4)))
    = Ok loaded
    /\ Net.state_dict loaded
       = Net.state_dict (Net.eval (@Net.RetinaCNN_init Z torch_first 4))
    /\ Net.training loaded = Net.training (@Net.RetinaCNN_init Z torch_first 4)
    /\ forall x g,
         @Net.forward Z scalar_Z torch_first (Net.eval loaded) x g
         = @Net.forward Z scalar_Z torch_first (Net.eval (Net.eval (Net.RetinaCNN_init 4))) x g.
Proof.
  apply (@state_dict_round_trip Z scalar_Z torch_first
           (Net.RetinaCNN_init 4) (Net.eval (Net.RetinaCNN_init 4))).
  reflexivity.
Defined.

Lemma predict_twice_same_result_witness :
  let r1 := @Main.predict Z scalar_Z torch_first vision_Z four_class_service
                          one_byte_upload "T1" 0 in
  let r2 := @Main.predict Z scalar_Z torch_first vision_Z four_class_service
                          one_byte_upload "T2" (snd r1) in
  Py.status_code (fst r1) = 200
  /\ snd r1 = 0 /\ snd r2 = 0
  /\ Py.status_code (fst r1) = Py.status_code (fst r2)
  /\ (Py.status_code (fst r1) = 200 ->
      exists label conf tops,
        Py.lookup "prediction" (Py.content (fst r1)) = Some (Py.JStr label)
        /\ Py.lookup "prediction" (Py.content (fst r2)) = Some (Py.JStr label)
        /\ Py.lookup "confidence" (Py.content (fst r1)) = Some (Py.JNum conf)
        /\ Py.lookup "confidence" (Py.content (fst r2)) = Some (Py.JNum conf)
        /\ Py.lookup "top_predictions" (Py.content (fst r1)) = Some (Py.JList tops)
        /\ Py.lookup "top_predictions" (Py.content (fst r2)) = Some (Py.JList tops)
        /\ strip_timestamp (Py.content (fst r1))
           = strip_timestamp (Py.content (fst r2))
        /\ Py.lookup "timestamp" (Py.content (fst r1)) = Some (Py.JStr "T1")
        /\ Py.lookup "timestamp" (Py.content (fst r2)) = Some (Py.JStr "T2")).
Proof.
  cbv zeta. split.
  - destruct (reference_predict_ok "T1") as (body & Hp). rewrite Hp. reflexivity.
  - apply (@predict_twice_same_result Z scalar_Z torch_first vision_Z
             four_class_service one_byte_upload "T1" "T2" 0).
    reflexivity.
Defined.

Lemma predict_answers_with_listed_label_witness :
  Py.status_code (fst (@Main.predict Z scalar_Z torch_first vision_Z
                                     four_class_service one_byte_upload "T" 0)) = 200
  /\ exists label tops,
       Py.lookup "prediction"
                 (Py.content (fst (@Main.predict Z scalar_Z torch_first vision_Z
                                                 four_class_service one_byte_upload
                                                 "T" 0)))
       = Some (Py.JStr label)
       /\ (label = "uncertain"
           \/ In label (listed (Py.lookup "classes"
                                          (Main.health_check four_class_service "cpu"))))
       /\ Py.lookup "top_predictions"
                    (Py.content (fst (@Main.predict Z scalar_Z torch_first vision_Z
                                                    four_class_service one_byte_upload
                                                    "T" 0)))
          = Some (Py.JList tops)
       /\ Py.len tops = Z.min 3 (Py.len (Main.CLASS_NAMES four_class_service))
       /\ (forall t, In t tops ->
             exists c, Py.lookup "class" t = Some (Py.JStr c)
                       /\ In c (listed (Py.lookup "classes"
                                                  (Main.health_check four_class_service
                                                                     "cpu")))).
Proof.
  assert (H200 : Py.status_code
                   (fst (@Main.predict Z scalar_Z torch_first vision_Z
                                       four_class_service one_byte_upload "T" 0))
                 = 200).
  { destruct (reference_predict_ok "T") as (body & Hp). rewrite Hp. reflexivity. }
  split; [exact H200|].
  apply (@predict_answers_with_listed_label Z scalar_Z torch_first vision_Z
           (topk_sort_meets_contract false)
           four_class_service one_byte_upload "T" "cpu" 0).
  exact H200.
Defined.

Lemma app_predict_answers_with_listed_label_witness :
  exists svc,
    @App.startup Z torch_first four_class_deployment = Ok svc
    /\ exists body label,
         @App.predict Z scalar_Z torch_first vision_Z svc one_byte_upload "T" 0
         = (Ok body, 0)
         /\ Py.lookup "prediction" body = Some (Py.JStr label)
         /\ In label (listed (Py.lookup "classes" (App.status svc "cpu"))).
Proof.
  destruct startup_four_classes as (svc & Hs & Hn & _).
  exists svc. split; [exact Hs|].
  apply (@app_predict_answers_with_listed_label Z scalar_Z torch_first vision_Z
           softmax2_length (fun _ => eq_refl)
           four_class_deployment svc one_byte_upload [Byte.x00] "T" "cpu" 0).
  - exact Hs.
  - rewrite Hn. discriminate.
  - reflexivity.
Defined.

Lemma empty_registry_answers_errors_witness :
  exists svc,
    @Main.startup Z torch_first zero_class_deployment = Ok svc
    /\ @Main.predict Z scalar_Z torch_first vision_Z svc one_byte_upload "T" 0
       = ({| Py.content := Py.JDict [("error", Py.JStr "IndexError")];
             Py.status_code := 500 |}, 0)
    /\ @App.predict Z scalar_Z torch_first vision_Z svc one_byte_upload "T" 0
       = (Raise IndexError, 0).
Proof.
  destruct startup_zero_classes as (svc & Hs & Hn).
  exists svc. split; [exact Hs|].
  apply (@empty_registry_answers_errors Z scalar_Z torch_first vision_Z
           softmax2_length (fun _ => eq_refl)
           zero_class_deployment svc one_byte_upload [Byte.x00] "T" 0).
  - exact Hs.
  - exact Hn.
  - reflexivity.
Defined.

Lemma services_agree_witness :
  exists body,
    @Main.respond Z torch_first retina_classes "eye.png" "T" late_uncertain_row
    = Ok body
    /\ exists body' a p label,
         App.respond retina_classes "eye.png" "U" late_uncertain_row = Ok body'
         /\ is_first_max late_uncertain_row a
         /\ Py.getitem late_uncertain_row a = Ok p
         /\ Py.getitem retina_classes a = Ok label
         /\ Py.lookup "filename" body' = Py.lookup "filename" body
         /\ Py.lookup "confidence" body' = Py.lookup "confidence" body
         /\ Py.lookup "timestamp" body = Some (Py.JStr "T")
         /\ Py.lookup "timestamp" body' = Some (Py.JStr "U")
         /\ Py.lookup "prediction" body' = Some (Py.JStr label)
         /\ ((Main.confidence_threshold <= p)%Q ->
             Py.lookup "prediction" body = Some (Py.JStr label))
         /\ ((p < Main.confidence_threshold)%Q ->
             Py.lookup "prediction" body = Some (Py.JStr "uncertain")).
Proof.
  eexists. split; [vm_compute; reflexivity|].
  apply (@services_agree Z torch_first retina_classes "eye.png" "T" "U"
           late_uncertain_row).
  vm_compute. reflexivity.
Defined.

Lemma main_reports_what_app_raises_witness :
  let svc := {| Main.CLASS_NAMES := retina_classes;
                Main.model := Net.eval (@Net.RetinaCNN_init Z torch_first 4) |} in
  let file := {| Py.filename := "eye.png"; Py.contents := [] |} in
  @Main.predict Z scalar_Z torch_first vision_Z svc file "T" 0
  = ({| Py.content := Py.JDict [("error", Py.JStr "UnidentifiedImageError")];
        Py.status_code := 500 |}, 0).
Proof.
  apply (@main_reports_what_app_raises Z scalar_Z torch_first vision_Z
           {| Main.CLASS_NAMES := retina_classes;
              Main.model := Net.eval (@Net.RetinaCNN_init Z torch_first 4) |}
           {| Py.filename := "eye.png"; Py.contents := [] |} "T" 0 0
           UnidentifiedImageError).
  reflexivity.
Defined.


Lemma training_runs_every_epoch_witness :
  exists tr sd,
    @TrainCnn.main Z scalar_Z torch_first optim_one_batch two_folders 0
    = ((tr ++ [TrainCnn.ModelSaved])%list, Ok sd)
    /\ epochs_begun tr = [0; 1; 2; 3; 4; 5; 6; 7; 8; 9]
    /\ length (accuracies tr) = 10%nat
    /\ ~ In TrainCnn.ModelSaved tr
    /\ map (fun kv => (fst kv, Net.shape (snd kv))) sd
       = Arch.sizes (@Net.RetinaCNN_init Z torch_first 4).
Proof.
  eapply (@training_runs_every_epoch Z scalar_Z torch_first optim_one_batch
            identity_step_keeps_sizes two_folders _ 0).
  - reflexivity.
  - apply one_batch_covers.
  - apply one_batch_shuffles.
  - vm_compute. discriminate.
Defined.

Lemma reported_accuracy_is_percentage_witness :
  Forall (fun a => (0 <= a <= 100)%Q)
         (accuracies (fst (@TrainCnn.main Z scalar_Z torch_first optim_one_batch
                                          two_folders 0)))
  /\ length (accuracies (fst (@TrainCnn.main Z scalar_Z torch_first optim_one_batch
                                             two_folders 0))) = 10%nat.
Proof.
  eapply (@reported_accuracy_is_percentage Z scalar_Z torch_first optim_one_batch
            identity_step_keeps_sizes two_folders _ 0).
  - reflexivity.
  - apply one_batch_covers.
  - apply one_batch_shuffles.
  - vm_compute. discriminate.
Defined.

Lemma trained_checkpoint_needs_four_classes_witness :
  exists fs : @Main.FileSystem Z,
    Main.DATASET_DIR fs = Registry.Missing
    /\ (exists tr,
           @TrainCnn.main Z scalar_Z torch_first optim_one_batch two_folders 0
           = (tr, Main.torch_load (Main.MODEL_PATH fs)))
    /\ (Py.len Registry.DEFAULT_CLASS_NAMES = 4 ->
        exists svc, @Main.startup Z torch_first fs = Ok svc
                    /\ Main.MODEL_PATH fs = Some (Net.state_dict (Main.model svc)))
    /\ (Py.len Registry.DEFAULT_CLASS_NAMES <> 4 ->
        @Main.startup Z torch_first fs = Raise RuntimeError).
Proof.
  destruct two_folders_labels as (ds & Hds & Hvalid).
  destruct (@main_run Z scalar_Z torch_first optim_one_batch
              identity_step_keeps_sizes two_folders ds 0 Hds
              (one_batch_covers ds) Hvalid) as (saved & tr & Em & _).
  exists {| Main.DATASET_DIR := Registry.Missing;
            Main.MODEL_PATH := Some (Net.state_dict saved) |}.
  split; [reflexivity|].
  assert (Hwritten :
            exists tr0,
              @TrainCnn.main Z scalar_Z torch_first optim_one_batch two_folders 0
              = (tr0, Ok (Net.state_dict saved)))
    by (eexists; exact Em).
  split; [exact Hwritten|].
  apply (@trained_checkpoint_needs_four_classes Z scalar_Z torch_first
           optim_one_batch identity_step_keeps_sizes two_folders ds 0
           {| Main.DATASET_DIR := Registry.Missing;
              Main.MODEL_PATH := Some (Net.state_dict saved) |}
           Registry.DEFAULT_CLASS_NAMES).
  - exact Hds.
  - apply one_batch_covers.
  - reflexivity.
  - exact Hwritten.
Defined.

Lemma training_stops_on_fifth_class_witness :
  exists ds,
    TrainCnn.ImageFolder five_folders = Ok ds
    /\ exists n,
         @TrainCnn.main Z scalar_Z torch_first optim_one_batch five_folders 0
         = (TrainCnn.UsingDevice "cpu"
            :: TrainCnn.FoundImages (Py.len (TrainCnn.samples ds))
                                    (Py.len (TrainCnn.classes ds))
            :: TrainCnn.StartTraining :: TrainCnn.EpochBegin 0
            :: repeat (TrainCnn.BatchDone 0) n,
            Raise IndexError)
         /\ epochs_begun (fst (@TrainCnn.main Z scalar_Z torch_first optim_one_batch
                                              five_folders 0)) = [0]
         /\ accuracies (fst (@TrainCnn.main Z scalar_Z torch_first optim_one_batch
                                            five_folders 0)) = []
         /\ ~ In TrainCnn.ModelSaved
                 (fst (@TrainCnn.main Z scalar_Z torch_first optim_one_batch
                                      five_folders 0)).
Proof.
  eexists. split; [reflexivity|].
  apply (@training_stops_on_fifth_class Z scalar_Z torch_first optim_one_batch
           identity_step_keeps_sizes five_folders _ 0).
  - reflexivity.
  - reflexivity.
  - apply one_batch_covers.
  - apply one_batch_shuffles.
  - vm_compute. reflexivity.
Defined.

End MoreInstances.
